(** * Marker visualization: frame reconciliation and lazy materialization

    A shallow embedding of
    [visualization/visualization_tools/src/marker_visualization.cpp]:
    the [MarkerVisualization] constructor with [toPlanningFrame],
    [setVisibility] / [setVisible], [createMarker] and [createMarkers].

    The C++ code works on a mutable world (marker messages on the free
    store, Ogre scene nodes, the ROS console, the tf service).  That world
    and the members of the [MarkerVisualization] object are one explicit
    [State]; every operation is a computation in a state-and-failure monad
    whose outcomes are a normal return, an escaping C++ exception, an abort
    by [Q_ASSERT], or undefined behaviour (null or dangling dereference,
    read of an uninitialised local). *)

From Stdlib Require Import ZArith PrimFloat.
From stdpp Require Import gmap strings list.

Local Open Scope Z_scope.
Local Open Scope nat_scope.

(** ** Geometry carried by the messages and by the render backend *)

Record Vec3 (A : Type) := mkVec3 { vx : A; vy : A; vz : A }.
Record Quat (A : Type) := mkQuat { qw : A; qx : A; qy : A; qz : A }.
Arguments mkVec3 {A} _ _ _.
Arguments vx {A} _.
Arguments vy {A} _.
Arguments vz {A} _.
Arguments mkQuat {A} _ _ _ _.
Arguments qw {A} _.
Arguments qx {A} _.
Arguments qy {A} _.
Arguments qz {A} _.

(** [geometry_msgs::Pose] *)
Record Pose (A : Type) := mkPose { position : Vec3 A; orientation : Quat A }.
Arguments mkPose {A} _ _.
Arguments position {A} _.
Arguments orientation {A} _.

(** [tf::StampedTransform], seen through [getRotation()] and [getOrigin()] *)
Record StampedTransform (A : Type) :=
  mkTransform { getRotation : Quat A; getOrigin : Vec3 A }.
Arguments mkTransform {A} _ _.
Arguments getRotation {A} _.
Arguments getOrigin {A} _.

(** The arithmetic of the libraries the file is compiled against (Eigen,
    eigen_conversions, Ogre, Qt) is not part of the translation unit: it is
    an interface here.  No law is assumed of it, so every theorem below
    holds for IEEE arithmetic as well as for exact arithmetic. *)
Class Numerics := {
  double : Type;                       (* tfScalar, float64 message fields *)
  Real : Type;                         (* Ogre::Real *)
  neg : double -> double;              (* unary minus on a tfScalar *)
  toReal : double -> Real;             (* implicit conversion to Ogre::Real *)
  Affine3d : Type;                     (* Eigen::Affine3d *)
  poseMsgToEigen : Pose double -> Affine3d;
  poseEigenToMsg : Affine3d -> Pose double;
  affine_mul : Affine3d -> Affine3d -> Affine3d;      (* tm * pose *)
  quat_mul : Quat Real -> Quat Real -> Quat Real;     (* Quaternion * Quaternion *)
  quat_rotate : Quat Real -> Vec3 Real -> Vec3 Real;  (* Quaternion * Vector3 *)
  vec_sub : Vec3 Real -> Vec3 Real -> Vec3 Real;      (* Vector3 - Vector3 *)
  Quaternion_IDENTITY : Quat Real;     (* Ogre::Quaternion() *)
  Vector3_ZERO : Vec3 Real;
  MarkerPayload : Type;                (* scale, color, points, text, mesh, ... *)
  fromStdString : string -> string     (* QString::fromStdString *)
}.

(** Addresses of marker messages on the free store, and of scene nodes. *)
Abbreviation loc := nat (only parsing).
Abbreviation NodeId := nat (only parsing).

(** A pointer [Ogre::SceneNode*]: [None] is [nullptr]. *)
Abbreviation SceneNodePtr := (option NodeId) (only parsing).

(** ** Marker type constants of [visualization_msgs::Marker] *)
Module MarkerType.
Definition ARROW : Z := 0.
Definition CUBE : Z := 1.
Definition SPHERE : Z := 2.
Definition CYLINDER : Z := 3.
Definition LINE_STRIP : Z := 4.
Definition LINE_LIST : Z := 5.
Definition CUBE_LIST : Z := 6.
Definition SPHERE_LIST : Z := 7.
Definition POINTS : Z := 8.
Definition TEXT_VIEW_FACING : Z := 9.
Definition MESH_RESOURCE : Z := 10.
Definition TRIANGLE_LIST : Z := 11.
End MarkerType.

(** The subclasses of [rviz::MarkerBase] the factory instantiates. *)
Inductive MarkerClass :=
| ShapeMarker | ArrowMarker | LineStripMarker | LineListMarker
| PointsMarker | TextViewFacingMarker | MeshResourceMarker | TriangleListMarker.

(** What the ROS console receives. *)
Inductive LogMsg :=
| WarnUnknownFrame (frame ns : string)   (* ROS_WARN_ONCE in toPlanningFrame *)
| ErrorUnknownType (marker_type : Z).    (* ROS_ERROR in createMarker *)

(** C++ exceptions that can leave the functions of this file. *)
Inductive Exn :=
| TransformException     (* tf::TransformListener::lookupTransform *)
| OgreException.         (* Ogre::Node::addChild on an attached node *)

Reserved Notation "x <~ c1 ;; c2"
  (at level 100, c1 at next level, right associativity).
Reserved Notation "c1 ;;; c2" (at level 100, right associativity).

Section Model.
Context `{Numerics}.

(** [visualization_msgs::Marker] *)
Record Marker := mkMarker {
  frame_id : string;                   (* header.frame_id *)
  ns : string;
  id : Z;
  type : Z;
  pose : Pose double;
  payload : MarkerPayload
}.

(** [planning_scene::PlanningScene], as far as the constructor consults it *)
Record PlanningScene := mkScene {
  getPlanningFrame : string;
  knowsFrameTransform : string -> bool;
  getFrameTransform : string -> Affine3d
}.

(** A live [rviz::MarkerBase]: its class, the node it hangs under, the
    message it was initialised from and the pose of its scene node. *)
Record Handle := mkHandle {
  h_class : MarkerClass;
  h_parent : NodeId;
  h_message : option loc;
  h_position : Vec3 Real;
  h_orientation : Quat Real
}.

(** [rviz::DisplayContext] with its frame manager and tf client.  The tf
    tree is live: the answer of a lookup may depend on how many lookups the
    process has made before, which is the first argument of
    [lookupTransform]; [None] is a thrown [tf::TransformException].
    [setMessage_pose] is the pose, relative to the fixed frame, that
    [rviz::MarkerBase::setMessage] gives a handle for a message. *)
Record DisplayContext := mkContext {
  getFixedFrame : string;
  lookupTransform : nat -> string -> string -> option (StampedTransform double);
  setMessage_pose : Marker -> Vec3 Real * Quat Real
}.

(** [MarkerData]: a shared pointer to the message and an owning pointer to
    the render handle, null until [createMarkers] ran. *)
Abbreviation MarkerData := (loc * option Handle)%type (only parsing).

(** ** The state: the world and the members of the object *)
Record State := mkState {
  heap : list (option Marker);         (* free store; [None] is a freed cell *)
  scene_nodes : list SceneNodePtr;     (* parent of every created scene node *)
  console : list LogMsg;               (* oldest message first *)
  warn_once_hit : bool;                (* static flag of the ROS_WARN_ONCE site *)
  handles_created : nat;               (* render handles constructed so far *)
  tf_lookups : nat;                    (* lookupTransform calls made so far *)
  markers_ : list MarkerData;
  namespaces_ : gmap string SceneNodePtr
}.

Definition set_heap (f : list (option Marker) -> list (option Marker)) (s : State) : State :=
  mkState (f (heap s)) (scene_nodes s) (console s) (warn_once_hit s)
          (handles_created s) (tf_lookups s) (markers_ s) (namespaces_ s).
Definition set_scene_nodes (f : list SceneNodePtr -> list SceneNodePtr) (s : State) : State :=
  mkState (heap s) (f (scene_nodes s)) (console s) (warn_once_hit s)
          (handles_created s) (tf_lookups s) (markers_ s) (namespaces_ s).
Definition set_console (f : list LogMsg -> list LogMsg) (s : State) : State :=
  mkState (heap s) (scene_nodes s) (f (console s)) (warn_once_hit s)
          (handles_created s) (tf_lookups s) (markers_ s) (namespaces_ s).
Definition set_warn_once_hit (b : bool) (s : State) : State :=
  mkState (heap s) (scene_nodes s) (console s) b
          (handles_created s) (tf_lookups s) (markers_ s) (namespaces_ s).
Definition set_handles_created (f : nat -> nat) (s : State) : State :=
  mkState (heap s) (scene_nodes s) (console s) (warn_once_hit s)
          (f (handles_created s)) (tf_lookups s) (markers_ s) (namespaces_ s).
Definition set_tf_lookups (f : nat -> nat) (s : State) : State :=
  mkState (heap s) (scene_nodes s) (console s) (warn_once_hit s)
          (handles_created s) (f (tf_lookups s)) (markers_ s) (namespaces_ s).
Definition set_markers (f : list MarkerData -> list MarkerData) (s : State) : State :=
  mkState (heap s) (scene_nodes s) (console s) (warn_once_hit s)
          (handles_created s) (tf_lookups s) (f (markers_ s)) (namespaces_ s).
Definition set_namespaces (f : gmap string SceneNodePtr -> gmap string SceneNodePtr)
    (s : State) : State :=
  mkState (heap s) (scene_nodes s) (console s) (warn_once_hit s)
          (handles_created s) (tf_lookups s) (markers_ s) (f (namespaces_ s)).

(** ** Outcomes and the monad *)
Inductive Res (A : Type) :=
| Done (a : A) (s : State)             (* normal return *)
| Thrown (e : Exn) (s : State)         (* an exception leaves the function *)
| Aborted                              (* Q_ASSERT failed in a debug build *)
| Fault.                               (* undefined behaviour *)
Arguments Done {A} _ _.
Arguments Thrown {A} _ _.
Arguments Aborted {A}.
Arguments Fault {A}.

Definition M (A : Type) : Type := State -> Res A.

Definition ret {A} (a : A) : M A := fun s => Done a s.
Definition bind {A B} (m : M A) (k : A -> M B) : M B :=
  fun s => match m s with
           | Done a s' => k a s'
           | Thrown e s' => Thrown e s'
           | Aborted => Aborted
           | Fault => Fault
           end.

Notation "x <~ c1 ;; c2" := (bind c1 (fun x => c2)).
Notation "c1 ;;; c2" := (bind c1 (fun _ => c2)).

Definition gets {A} (f : State -> A) : M A := fun s => Done (f s) s.
Definition modify (f : State -> State) : M unit := fun s => Done tt (f s).
Definition throw {A} (e : Exn) : M A := fun s => Thrown e s.
Definition fault {A} : M A := fun _ => Fault.

(** [Q_ASSERT(c)]: checked in debug builds only. *)
Definition Q_ASSERT (debug : bool) (c : bool) : M unit :=
  fun s => if debug && negb c then Aborted else Done tt s.

(** [for (x : l) body(x)] *)
Fixpoint for_each {A} (body : A -> M unit) (l : list A) : M unit :=
  match l with
  | [] => ret tt
  | x :: l' => body x ;;; for_each body l'
  end.

(** *** The free store *)
Definition deref (l : loc) : M Marker :=
  fun s => match heap s !! l with
           | Some (Some m) => Done m s
           | _ => Fault
           end.
Definition alloc (m : Marker) : M loc :=
  fun s => Done (length (heap s)) (set_heap (fun h => h ++ [Some m]) s).
Definition store (l : loc) (m : Marker) : M unit :=
  fun s => match heap s !! l with
           | Some (Some _) => Done tt (set_heap (fun h => <[l := Some m]> h) s)
           | _ => Fault
           end.
Definition free (l : loc) : M unit :=
  modify (set_heap (fun h => <[l := None]> h)).

(** *** The ROS console *)
Definition ROS_ERROR (msg : LogMsg) : M unit :=
  modify (set_console (fun c => c ++ [msg])).

(** [ROS_WARN_ONCE]: the call site has one static flag; the message is
    printed the first time the site is reached and never again. *)
Definition ROS_WARN_ONCE (msg : LogMsg) : M unit :=
  fun s => if warn_once_hit s then Done tt s
           else Done tt (set_warn_once_hit true (set_console (fun c => c ++ [msg]) s)).

(** ** [toPlanningFrame]: express marker pose relative to planning frame *)
Definition toPlanningFrame (marker : loc) (scene : PlanningScene) : M bool :=
  m <~ deref marker ;;
  if String.eqb (frame_id m) (getPlanningFrame scene) then ret true
  else if negb (knowsFrameTransform scene (frame_id m)) then
    ROS_WARN_ONCE (WarnUnknownFrame (frame_id m) (ns m)) ;;;
    ret false
  else
    let pose_e := poseMsgToEigen (pose m) in
    let tm := getFrameTransform scene (frame_id m) in
    store marker (mkMarker (getPlanningFrame scene) (ns m) (id m) (type m)
                           (poseEigenToMsg (affine_mul tm pose_e)) (payload m)) ;;;
    ret true.

(** ** The constructor of [MarkerVisualization] *)

(** [std::map::insert]: an existing entry is kept. *)
Definition map_insert_new {V} (k : string) (v : V) (m : gmap string V) : gmap string V :=
  match m !! k with
  | Some _ => m
  | None => <[k := v]> m
  end.

Definition constructor_body (end_scene : PlanningScene) (marker : loc) : M unit :=
  m <~ deref marker ;;
  data_first <~ alloc m ;;                        (* new Marker(marker) *)
  ok <~ toPlanningFrame data_first end_scene ;;
  if negb ok then free data_first                 (* continue: data is destroyed *)
  else
    modify (set_markers (fun ms => ms ++ [(data_first, None)])) ;;;
    m' <~ deref marker ;;
    modify (set_namespaces (map_insert_new (fromStdString (ns m')) None)).

Definition MarkerVisualization_new (markers : list loc) (end_scene : PlanningScene) : M unit :=
  modify (set_markers (fun _ => [])) ;;;
  modify (set_namespaces (fun _ => ∅)) ;;;
  for_each (constructor_body end_scene) markers.

(** The message at an address, if the cell is live. *)
Definition stored_marker_of (h : list (option Marker)) (l : loc) : option Marker :=
  match h !! l with
  | Some (Some m) => Some m
  | _ => None
  end.

(** ** Visibility *)

(** [node->getParent()] *)
Definition getParent (node : SceneNodePtr) : M SceneNodePtr :=
  fun s => match node with
           | None => Fault                         (* null dereference *)
           | Some n => match scene_nodes s !! n with
                       | Some p => Done p s
                       | None => Fault             (* no such node *)
                       end
           end.

(** [parent->addChild(node)]: Ogre refuses a node that has a parent. *)
Definition addChild (parent node : SceneNodePtr) : M unit :=
  fun s => match parent, node with
           | Some p, Some n =>
               match scene_nodes s !! n with
               | Some None => Done tt (set_scene_nodes (fun g => <[n := Some p]> g) s)
               | Some (Some _) => Thrown OgreException s
               | None => Fault
               end
           | _, _ => Fault
           end.

(** [parent->removeChild(node)] *)
Definition removeChild (parent node : SceneNodePtr) : M unit :=
  fun s => match parent, node with
           | Some _, Some n => Done tt (set_scene_nodes (fun g => <[n := None]> g) s)
           | _, _ => Fault
           end.

Definition ptr_eqb (a b : SceneNodePtr) : bool := bool_decide (a = b).

Definition setVisibility (node parent : SceneNodePtr) (visible : bool) : M unit :=
  if visible then
    p <~ getParent node ;;
    if negb (ptr_eqb p parent) then addChild parent node else ret tt
  else
    p <~ getParent node ;;
    match p with
    | Some _ => removeChild p node
    | None => ret tt
    end.

Definition setVisible (ns : string) (parent_scene_node : SceneNodePtr) (visible : bool)
    : M unit :=
  it <~ gets (fun s => namespaces_ s !! ns) ;;
  match it with
  | None => ret tt                                  (* it == namespaces_.end() *)
  | Some second => setVisibility second parent_scene_node visible
  end.

(** ** The handle factory [createMarker] *)
Definition marker_class (marker_type : Z) : option MarkerClass :=
  if ((marker_type =? MarkerType.CUBE) || (marker_type =? MarkerType.CYLINDER)
      || (marker_type =? MarkerType.SPHERE))%Z then Some ShapeMarker
  else if (marker_type =? MarkerType.ARROW)%Z then Some ArrowMarker
  else if (marker_type =? MarkerType.LINE_STRIP)%Z then Some LineStripMarker
  else if (marker_type =? MarkerType.LINE_LIST)%Z then Some LineListMarker
  else if ((marker_type =? MarkerType.SPHERE_LIST) || (marker_type =? MarkerType.CUBE_LIST)
           || (marker_type =? MarkerType.POINTS))%Z then Some PointsMarker
  else if (marker_type =? MarkerType.TEXT_VIEW_FACING)%Z then Some TextViewFacingMarker
  else if (marker_type =? MarkerType.MESH_RESOURCE)%Z then Some MeshResourceMarker
  else if (marker_type =? MarkerType.TRIANGLE_LIST)%Z then Some TriangleListMarker
  else None.

Definition createMarker (marker_type : Z) (node : SceneNodePtr) : M (option Handle) :=
  match marker_class marker_type with
  | Some c =>
      match node with
      | None => fault                               (* the base class uses the node *)
      | Some n =>
          modify (set_handles_created S) ;;;
          ret (Some (mkHandle c n None Vector3_ZERO Quaternion_IDENTITY))
      end
  | None =>
      ROS_ERROR (ErrorUnknownType marker_type) ;;;
      ret None
  end.

(** ** Lazy materialization: [createMarkers] *)

(** [parent_scene_node->getCreator()->createSceneNode()] *)
Definition createSceneNode (parent_scene_node : SceneNodePtr) : M NodeId :=
  fun s => match parent_scene_node with
           | None => Fault
           | Some _ => Done (length (scene_nodes s))
                            (set_scene_nodes (fun g => g ++ [None]) s)
           end.

(** The locals of [createMarkers].  [Ogre::Vector3 pos;] is not
    initialised: reading it before the assignment is undefined. *)
Record Locals := mkLocals {
  planning_frame : string;
  quat : Quat Real;
  pos : option (Vec3 Real)
}.

Definition init_locals : Locals := mkLocals "" Quaternion_IDENTITY None.

Definition string_empty (x : string) : bool := String.eqb x "".

(** [Ogre::Quaternion(q.w(), -q.x(), -q.y(), -q.z())] *)
Definition conj_to_ogre (q : Quat double) : Quat Real :=
  mkQuat (toReal (qw q)) (toReal (neg (qx q))) (toReal (neg (qy q))) (toReal (neg (qz q))).

(** [Ogre::Vector3(p.x(), p.y(), p.z())] *)
Definition vec_to_ogre (p : Vec3 double) : Vec3 Real :=
  mkVec3 (toReal (vx p)) (toReal (vy p)) (toReal (vz p)).

Definition set_pose (h : Handle) (p : Vec3 Real) (o : Quat Real) : Handle :=
  mkHandle (h_class h) (h_parent h) (h_message h) p o.

(** [data.second->setMessage(data.first)] *)
Definition setMessage (context : DisplayContext) (first : loc) (m : Marker) (h : Handle)
    : Handle :=
  mkHandle (h_class h) (h_parent h) (Some first)
           (fst (setMessage_pose context m)) (snd (setMessage_pose context m)).

(** "determine transform once": lines 144-156 *)
Definition determine_transform (debug : bool) (context : DisplayContext) (m : Marker)
    (lv : Locals) : M Locals :=
  if string_empty (planning_frame lv) then
    k <~ gets tf_lookups ;;
    modify (set_tf_lookups S) ;;;
    match lookupTransform context k (getFixedFrame context) (frame_id m) with
    | None => throw TransformException
    | Some tm =>
        ret (mkLocals (frame_id m) (conj_to_ogre (getRotation tm))
                      (Some (vec_to_ogre (getOrigin tm))))
    end
  else
    Q_ASSERT debug (String.eqb (frame_id m) (planning_frame lv)) ;;;
    ret lv.

(** Lines 132-135: the scene node of a namespace, created on first use. *)
Definition namespace_node (debug : bool) (parent_scene_node : SceneNodePtr) (key : string)
    : M NodeId :=
  ns_it <~ gets (fun s => namespaces_ s !! key) ;;
  Q_ASSERT debug (bool_decide (is_Some ns_it)) ;;;
  match ns_it with
  | None => fault                                   (* ns_it == end() is dereferenced *)
  | Some (Some n) => ret n
  | Some None =>
      n <~ createSceneNode parent_scene_node ;;
      modify (set_namespaces (fun g => <[key := Some n]> g)) ;;;
      ret n
  end.

(** Lines 139-158: initialise the fresh handle [h0] of entry [i] from its
    message and place it with respect to the planning frame. *)
Definition place_marker (debug : bool) (context : DisplayContext) (i : nat) (first : loc)
    (m : Marker) (h0 : Handle) (lv : Locals) : M Locals :=
  let h1 := setMessage context first m h0 in
  modify (set_markers (fun ms => <[i := (first, Some h1)]> ms)) ;;;
  Q_ASSERT debug (negb (string_empty (frame_id m))) ;;;
  lv' <~ determine_transform debug context m lv ;;
  let h2 := set_pose h1 (h_position h1) (quat_mul (quat lv') (h_orientation h1)) in
  modify (set_markers (fun ms => <[i := (first, Some h2)]> ms)) ;;;
  match pos lv' with
  | None => fault
  | Some p =>
      let h3 := set_pose h2 (quat_rotate (quat lv') (vec_sub (h_position h2) p))
                         (h_orientation h2) in
      modify (set_markers (fun ms => <[i := (first, Some h3)]> ms)) ;;;
      ret lv'
  end.

(** One iteration of the loop over [markers_], for the entry at index [i].
    The message behind [data.first] is const: it is read once. *)
Definition createMarkers_body (debug : bool) (context : DisplayContext)
    (parent_scene_node : SceneNodePtr) (i : nat) (lv : Locals) : M Locals :=
  data <~ gets (fun s => markers_ s !! i) ;;
  match data with
  | None => fault
  | Some (first, Some _) => ret lv                  (* if (data.second) continue; *)
  | Some (first, None) =>
      m <~ deref first ;;
      node <~ namespace_node debug parent_scene_node (fromStdString (ns m)) ;;
      h <~ createMarker (type m) (Some node) ;;
      modify (set_markers (fun ms => <[i := (first, h)]> ms)) ;;;
      match h with
      | None => ret lv
      | Some h0 => place_marker debug context i first m h0 lv
      end
  end.

(** The loop over the [n] entries from index [i] on. *)
Fixpoint createMarkers_loop (debug : bool) (context : DisplayContext)
    (parent_scene_node : SceneNodePtr) (n i : nat) (lv : Locals) : M Locals :=
  match n with
  | 0 => ret lv
  | S n' =>
      lv' <~ createMarkers_body debug context parent_scene_node i lv ;;
      createMarkers_loop debug context parent_scene_node n' (S i) lv'
  end.

Definition createMarkers (debug : bool) (context : DisplayContext)
    (parent_scene_node : SceneNodePtr) : M unit :=
  n <~ gets (fun s => length (markers_ s)) ;;
  createMarkers_loop debug context parent_scene_node n 0 init_locals ;;;
  ret tt.

(** ** Vocabulary of the statements about [createMarkers] *)

(** The handle of class [c] under node [n] for the message [m] at [first],
    initialised by [setMessage] and then turned by [q] about the point [p]:
    what lines 137-158 leave in an entry. *)
Definition placed_handle (context : DisplayContext) (c : MarkerClass) (n : NodeId)
    (first : loc) (m : Marker) (q : Quat Real) (p : Vec3 Real) : Handle :=
  mkHandle c n (Some first)
           (quat_rotate q (vec_sub (fst (setMessage_pose context m)) p))
           (quat_mul q (snd (setMessage_pose context m))).

(** An entry that a call of [createMarkers] gives a handle: it has none,
    and the factory knows the type of its message. *)
Definition is_gap (s : State) (d : MarkerData) : bool :=
  match d.2, stored_marker_of (heap s) d.1 with
  | None, Some m => bool_decide (is_Some (marker_class (type m)))
  | _, _ => false
  end.
Definition gaps (s : State) : nat := length (List.filter (is_gap s) (markers_ s)).

(** What "determine transform once" does to the locals and to the count
    of lookups, from state [s] to state [s']. *)
Definition transform_post (context : DisplayContext) (m : Marker)
    (lv : Locals) (s : State) (lv' : Locals) (s' : State) : Prop :=
  if string_empty (planning_frame lv)
  then exists tm,
      lookupTransform context (tf_lookups s) (getFixedFrame context) (frame_id m) = Some tm /\
      lv' = mkLocals (frame_id m) (conj_to_ogre (getRotation tm))
                     (Some (vec_to_ogre (getOrigin tm))) /\
      tf_lookups s' = S (tf_lookups s)
  else lv' = lv /\ tf_lookups s' = tf_lookups s.

(** What one iteration that returns normally does, from [s] to [s']. *)
Definition body_post (context : DisplayContext) (i : nat)
    (lv : Locals) (s : State) (lv' : Locals) (s' : State) : Prop :=
  heap s' = heap s /\
  exists l oh, markers_ s !! i = Some (l, oh) /\
    match oh with
    | Some _ => lv' = lv /\ s' = s
    | None =>
        exists m n,
          heap s !! l = Some (Some m) /\
          is_Some (namespaces_ s !! fromStdString (ns m)) /\
          (forall n', namespaces_ s !! fromStdString (ns m) = Some (Some n') -> n' = n) /\
          namespaces_ s' = <[fromStdString (ns m) := Some n]> (namespaces_ s) /\
          match marker_class (type m) with
          | None =>
              lv' = lv /\ markers_ s' = markers_ s /\
              tf_lookups s' = tf_lookups s /\ handles_created s' = handles_created s
          | Some c =>
              exists p,
                pos lv' = Some p /\
                markers_ s'
                = <[i := (l, Some (placed_handle context c n l m (quat lv') p))]> (markers_ s) /\
                handles_created s' = S (handles_created s) /\
                transform_post context m lv s lv' s'
          end
    end.

(** The cached rotation [q] and translation [op] come from a lookup the
    call made: one of the lookups numbered [lo] to [hi - 1]. *)
Definition looked_up (context : DisplayContext) (lo hi : nat)
    (q : Quat Real) (op : option (Vec3 Real)) : Prop :=
  exists k f tm,
    lo <= k < hi /\
    lookupTransform context k (getFixedFrame context) f = Some tm /\
    q = conj_to_ogre (getRotation tm) /\ op = Some (vec_to_ogre (getOrigin tm)).

(** The handle [h] is the one [setMessage] initialises for [m], turned by
    the inverse of the rotation of [tm] about the origin of [tm]. *)
Definition placed_by (context : DisplayContext) (tm : StampedTransform double)
    (m : Marker) (h : Handle) : Prop :=
  h_orientation h
  = quat_mul (conj_to_ogre (getRotation tm)) (snd (setMessage_pose context m)) /\
  h_position h
  = quat_rotate (conj_to_ogre (getRotation tm))
                (vec_sub (fst (setMessage_pose context m)) (vec_to_ogre (getOrigin tm))).

(** Every entry without a handle is one the factory refuses, in a
    namespace whose node exists: a call has nothing left to do for it. *)
Definition settled (s : State) : Prop :=
  forall i l, markers_ s !! i = Some (l, None) ->
    exists m n, heap s !! l = Some (Some m) /\ marker_class (type m) = None /\
                namespaces_ s !! fromStdString (ns m) = Some (Some n).

(** What the constructor guarantees and [createMarkers] relies on: every
    entry points to a live message with a frame name, in a registered
    namespace. *)
Definition well_formed (s : State) : Prop :=
  forall i l oh, markers_ s !! i = Some (l, oh) ->
    exists m, heap s !! l = Some (Some m) /\
              is_Some (namespaces_ s !! fromStdString (ns m)) /\
              frame_id m <> "".

Definition well_formedb (s : State) : bool :=
  forallb (fun d : MarkerData =>
             match stored_marker_of (heap s) d.1 with
             | Some m =>
                 match namespaces_ s !! fromStdString (ns m) with
                 | Some _ => negb (string_empty (frame_id m))
                 | None => false
                 end
             | None => false
             end)
          (markers_ s).

(** No stored message has an empty frame name: what line 143 asserts. *)
Definition frames_named (s : State) : bool :=
  forallb (fun d : MarkerData =>
             match stored_marker_of (heap s) d.1 with
             | Some m => negb (string_empty (frame_id m))
             | None => true
             end)
          (markers_ s).

(** ** Vocabulary of the statements about the constructor *)

(** The three cases [toPlanningFrame] distinguishes. *)
Definition in_planning_frame (scene : PlanningScene) (m : Marker) : bool :=
  String.eqb (frame_id m) (getPlanningFrame scene).
Definition unknown_frame (scene : PlanningScene) (m : Marker) : bool :=
  negb (in_planning_frame scene m) && negb (knowsFrameTransform scene (frame_id m)).

(** The marker with its pose composed with the frame's transform and its
    frame rewritten: what line 73-77 leave in the copy. *)
Definition reconciled (scene : PlanningScene) (m : Marker) : Marker :=
  mkMarker (getPlanningFrame scene) (ns m) (id m) (type m)
           (poseEigenToMsg (affine_mul (getFrameTransform scene (frame_id m))
                                       (poseMsgToEigen (pose m))))
           (payload m).

(** The cell the copy of [m] ends in: the copy, the reconciled copy, or a
    freed cell. *)
Definition cell_of (scene : PlanningScene) (m : Marker) : option Marker :=
  if in_planning_frame scene m then Some m
  else if unknown_frame scene m then None
  else Some (reconciled scene m).

(** The effect of one iteration of the constructor's loop on the state. *)
Definition step_state (scene : PlanningScene) (m : Marker) (s : State) : State :=
  match cell_of scene m with
  | Some m' =>
      mkState (heap s ++ [Some m']) (scene_nodes s) (console s) (warn_once_hit s)
              (handles_created s) (tf_lookups s)
              (markers_ s ++ [(length (heap s), None)])
              (map_insert_new (fromStdString (ns m)) None (namespaces_ s))
  | None =>
      mkState (heap s ++ [None]) (scene_nodes s)
              (if warn_once_hit s then console s
               else console s ++ [WarnUnknownFrame (frame_id m) (ns m)])
              true
              (handles_created s) (tf_lookups s) (markers_ s) (namespaces_ s)
  end.

(** The state after the constructor's loop ran over the messages [ms]. *)
Definition construct_state (scene : PlanningScene) (ms : list Marker) (s : State) : State :=
  fold_left (fun s m => step_state scene m s) ms s.

(** The entries the loop appends: the copy of the marker at position [i]
    lives at address [base + i], and is kept unless its frame is unknown. *)
Fixpoint kept_entries (scene : PlanningScene) (base : nat) (ms : list Marker)
    : list MarkerData :=
  match ms with
  | [] => []
  | m :: ms' =>
      (if unknown_frame scene m then [] else [(base, None)])
      ++ kept_entries scene (S base) ms'
  end.

(** The warning the loop prints: for the first dropped marker, if any. *)
Definition first_warning (scene : PlanningScene) (ms : list Marker) : list LogMsg :=
  match List.find (unknown_frame scene) ms with
  | Some m => [WarnUnknownFrame (frame_id m) (ns m)]
  | None => []
  end.

(** The caller's vector [markers]: the addresses of its elements and the
    messages stored there. *)
Definition input_markers (s : State) (locs : list loc) (ms : list Marker) : Prop :=
  map (stored_marker_of (heap s)) locs = map Some ms.

(** The message a [MarkerData] entry points to. *)
Definition stored_marker (s : State) (d : MarkerData) : option Marker :=
  stored_marker_of (heap s) d.1.

Definition is_warning_for (frame nspace : string) (msg : LogMsg) : bool :=
  match msg with
  | WarnUnknownFrame f n => String.eqb f frame && String.eqb n nspace
  | ErrorUnknownType _ => false
  end.
Definition warnings_for (frame nspace : string) (c : list LogMsg) : nat :=
  length (List.filter (is_warning_for frame nspace) c).

(** ** Vocabulary of the further properties *)

(** What the constructor stores for a marker it keeps. *)
Definition reconcile (scene : PlanningScene) (m : Marker) : Marker :=
  if in_planning_frame scene m then m else reconciled scene m.

(** The markers the constructor keeps, in the order of the input. *)
Definition kept (scene : PlanningScene) (ms : list Marker) : list Marker :=
  List.filter (fun m => negb (unknown_frame scene m)) ms.

(** Some kept marker of [ms] has the namespace key [k]. *)
Definition namespace_used (scene : PlanningScene) (ms : list Marker) (k : string) : bool :=
  existsb (fun m => negb (unknown_frame scene m) && String.eqb (fromStdString (ns m)) k) ms.

(** Every stored message is in frame [F]. *)
Definition uniform_frame (F : string) (s : State) : bool :=
  forallb (fun d : MarkerData =>
             match stored_marker_of (heap s) d.1 with
             | Some m => String.eqb (frame_id m) F
             | None => true
             end)
          (markers_ s).

(** No namespace has a node yet: the state the constructor leaves. *)
Definition nodes_pending (s : State) : bool :=
  forallb (fun kv : string * SceneNodePtr =>
             match kv.2 with
             | None => true
             | Some _ => false
             end)
          (map_to_list (namespaces_ s)).

(** No entry has a handle yet. *)
Definition handles_pending (s : State) : bool :=
  forallb (fun d : MarkerData =>
             match d.2 with
             | None => true
             | Some _ => false
             end)
          (markers_ s).

(** Every namespace of the map is the namespace of some entry. *)
Definition namespaces_used (s : State) : bool :=
  forallb (fun kv : string * SceneNodePtr =>
             existsb (fun d : MarkerData =>
                        match stored_marker_of (heap s) d.1 with
                        | Some m => String.eqb (fromStdString (ns m)) kv.1
                        | None => false
                        end)
                     (markers_ s))
          (map_to_list (namespaces_ s)).


(** What a call of [createMarkers] prints for an entry: one error when the
    entry has no handle and the factory refuses the type of its message. *)
Definition refusal (s : State) (d : MarkerData) : list LogMsg :=
  match d.2, stored_marker_of (heap s) d.1 with
  | None, Some m =>
      match marker_class (type m) with
      | Some _ => []
      | None => [ErrorUnknownType (type m)]
      end
  | _, _ => []
  end.


(** ** The host: [MarkerVisualizationProperty]

    The property hosts several [MarkerVisualization] objects through shared
    pointers.  The objects live in a store, addressed by number; a method of
    one of them runs on the world with the members of that object. *)

(** The members of a [MarkerVisualization]. *)
Record Object := mkObject {
  o_markers_ : list MarkerData;
  o_namespaces_ : gmap string SceneNodePtr
}.

(** The world with the members of the object [o] as [this]. *)
Definition load (o : Object) (w : State) : State :=
  set_namespaces (fun _ => o_namespaces_ o) (set_markers (fun _ => o_markers_ o) w).
Definition unload (s : State) : Object := mkObject (markers_ s) (namespaces_ s).

(** The world, the objects in it, and the members of the property:
    [property_namespaces_] is [namespaces_], the value of the sub-property
    of each namespace; [enabled] is [getBool()] of the property itself. *)
Record Host := mkHost {
  world : State;
  objects : list Object;
  hosted_markers_ : list nat;
  property_namespaces_ : gmap string bool;
  enabled : bool;
  context_ : DisplayContext;
  parent_scene_node_ : SceneNodePtr;
  marker_scene_node_ : SceneNodePtr
}.

Definition set_world (f : State -> State) (h : Host) : Host :=
  mkHost (f (world h)) (objects h) (hosted_markers_ h) (property_namespaces_ h)
         (enabled h) (context_ h) (parent_scene_node_ h) (marker_scene_node_ h).
Definition set_objects (f : list Object -> list Object) (h : Host) : Host :=
  mkHost (world h) (f (objects h)) (hosted_markers_ h) (property_namespaces_ h)
         (enabled h) (context_ h) (parent_scene_node_ h) (marker_scene_node_ h).
Definition set_hosted (f : list nat -> list nat) (h : Host) : Host :=
  mkHost (world h) (objects h) (f (hosted_markers_ h)) (property_namespaces_ h)
         (enabled h) (context_ h) (parent_scene_node_ h) (marker_scene_node_ h).
Definition set_property_namespaces (f : gmap string bool -> gmap string bool) (h : Host)
    : Host :=
  mkHost (world h) (objects h) (hosted_markers_ h) (f (property_namespaces_ h))
         (enabled h) (context_ h) (parent_scene_node_ h) (marker_scene_node_ h).
Definition set_nodes_of_property (parent node : SceneNodePtr) (ctx : DisplayContext)
    (h : Host) : Host :=
  mkHost (world h) (objects h) (hosted_markers_ h) (property_namespaces_ h)
         (enabled h) ctx parent node.

Definition set_enabled (b : bool) (h : Host) : Host :=
  mkHost (world h) (objects h) (hosted_markers_ h) (property_namespaces_ h)
         b (context_ h) (parent_scene_node_ h) (marker_scene_node_ h).

(** Outcomes of the methods of the property, as for [Res]. *)
Inductive HRes (A : Type) :=
| HDone (a : A) (h : Host)
| HThrown (e : Exn) (h : Host)
| HAborted
| HFault.
Arguments HDone {A} _ _.
Arguments HThrown {A} _ _.
Arguments HAborted {A}.
Arguments HFault {A}.

Definition HM (A : Type) : Type := Host -> HRes A.

Definition hret {A} (a : A) : HM A := fun h => HDone a h.
Definition hbind {A B} (m : HM A) (k : A -> HM B) : HM B :=
  fun h => match m h with
           | HDone a h' => k a h'
           | HThrown e h' => HThrown e h'
           | HAborted => HAborted
           | HFault => HFault
           end.
Definition hgets {A} (f : Host -> A) : HM A := fun h => HDone (f h) h.
Definition hmodify (f : Host -> Host) : HM unit := fun h => HDone tt (f h).
Definition hfault {A} : HM A := fun _ => HFault.

Fixpoint hfor_each {A} (body : A -> HM unit) (l : list A) : HM unit :=
  match l with
  | [] => hret tt
  | x :: l' => hbind (body x) (fun _ => hfor_each body l')
  end.

(** An operation on the scene graph alone. *)
Definition on_world {A} (op : M A) : HM A :=
  fun h => match op (world h) with
           | Done x s => HDone x (set_world (fun _ => s) h)
           | Thrown e s => HThrown e (set_world (fun _ => s) h)
           | Aborted => HAborted
           | Fault => HFault
           end.

(** [markers->method(...)]: the method runs with the members of the object
    at [a], which are written back when it returns or throws. *)
Definition call {A} (a : nat) (op : M A) : HM A :=
  fun h => match objects h !! a with
           | None => HFault
           | Some o =>
               match op (load o (world h)) with
               | Done x s =>
                   HDone x (set_objects (fun os => <[a := unload s]> os)
                                        (set_world (fun _ => s) h))
               | Thrown e s =>
                   HThrown e (set_objects (fun os => <[a := unload s]> os)
                                          (set_world (fun _ => s) h))
               | Aborted => HAborted
               | Fault => HFault
               end
           end.

(** [parent->createChildSceneNode()] *)
Definition createChildSceneNode (parent : SceneNodePtr) : M NodeId :=
  fun s => match parent with
           | None => Fault
           | Some p => Done (length (scene_nodes s))
                            (set_scene_nodes (fun g => g ++ [Some p]) s)
           end.

(** [node->removeAllChildren()] *)
Definition removeAllChildren (node : SceneNodePtr) : M unit :=
  fun s => match node with
           | None => Fault
           | Some n =>
               Done tt (set_scene_nodes
                          (map (fun p : SceneNodePtr =>
                                  if ptr_eqb p (Some n) then None else p)) s)
           end.

Definition onInitialize (scene_node : SceneNodePtr) (context : DisplayContext) : HM unit :=
  hbind (on_world (createChildSceneNode scene_node)) (fun n =>
  hmodify (set_nodes_of_property scene_node (Some n) context)).

Definition clearMarkers : HM unit :=
  hbind (hgets marker_scene_node_) (fun node =>
  hbind (on_world (removeAllChildren node)) (fun _ =>   (* detach all existing scene nodes *)
  hmodify (set_hosted (fun _ => [])))).                 (* clear list of hosted markers *)

(** [pair.second] for the namespace [k] of the object at [a]. *)
Definition namespace_node_of (a : nat) (k : string) (h : Host) : option SceneNodePtr :=
  match objects h !! a with
  | Some o => o_namespaces_ o !! k
  | None => None
  end.

(** One iteration of the loop of [addMarkers], lines 200-211. *)
Definition addMarkers_body (debug : bool) (a : nat) (k : string) : HM unit :=
  hbind (hmodify (set_property_namespaces (map_insert_new k true))) (fun _ =>
  hbind (hgets (namespace_node_of a k)) (fun second =>
  match second with
  | None => hfault
  | Some second =>
      hbind (match second with
             | None =>
                 hbind (hgets (fun h => (context_ h, marker_scene_node_ h))) (fun cm =>
                 call a (createMarkers debug cm.1 cm.2))
             | Some _ => hret tt
             end) (fun _ =>
      hbind (hgets (namespace_node_of a k)) (fun second' =>
      match second' with
      | None => hfault
      | Some second' =>
          hbind (fun h => if debug && negb (bool_decide (is_Some second'))
                          then HAborted else HDone tt h) (fun _ =>
          hbind (hgets (fun h => (property_namespaces_ h !! k, marker_scene_node_ h)))
                (fun vm =>
          match vm.1 with
          | Some true => on_world (addChild vm.2 second')
          | Some false => hret tt
          | None => hfault
          end))
      end))
  end)).

(** [addMarkers].  The loop visits the namespaces of the set in the order
    of [std::map<QString, ...>], which is that of Qt's comparison of
    strings: [order] gives the keys of a map in that order. *)
Definition addMarkers (debug : bool)
    (order : gmap string SceneNodePtr -> list string) (markers : option nat) : HM unit :=
  match markers with
  | None => hret tt                                  (* if (!markers) return; *)
  | Some a =>
      hbind (hmodify (set_hosted (fun l => l ++ [a]))) (fun _ =>
      hbind (hgets (fun h => objects h !! a)) (fun o =>
      match o with
      | None => hfault
      | Some o => hfor_each (addMarkers_body debug a) (order (o_namespaces_ o))
      end))
  end.

Definition onEnableChanged : HM unit :=
  hbind (hgets (fun h => (marker_scene_node_ h, parent_scene_node_ h, enabled h)))
        (fun x => on_world (setVisibility x.1.1 x.1.2 x.2)).

(** [onNSEnableChanged], sent by the sub-property of the namespace [ns]. *)
Definition onNSEnableChanged (ns : string) : HM unit :=
  hbind (hgets (fun h => (property_namespaces_ h !! ns, marker_scene_node_ h,
                          hosted_markers_ h))) (fun x =>
  match x.1.1 with
  | None => hfault
  | Some visible => hfor_each (fun a => call a (setVisible ns x.1.2 visible)) x.2
  end).

(** The list [ks] has the keys of [m], each once. *)
Definition enumerates {V} (ks : list string) (m : gmap string V) : bool :=
  bool_decide (NoDup ks)
  && forallb (fun k => bool_decide (is_Some (m !! k))) ks
  && forallb (fun kv : string * V => bool_decide (kv.1 ∈ ks)) (map_to_list m).


(** ** Vocabulary of the statements about the host *)

(** The node of the namespace [ns] in the set at [a], if it has one. *)
Definition hosted_node (ns : string) (h : Host) (a : nat) : option NodeId :=
  match namespace_node_of a ns h with
  | Some (Some n) => Some n
  | _ => None
  end.

(** The set at [a] is there, and its node for [ns], when the namespace is
    one of the set, exists and is detached or under [msn]. *)
Definition hosted_node_ready (ns : string) (msn : NodeId) (h : Host) (a : nat) : bool :=
  match objects h !! a with
  | None => false
  | Some o =>
      match o_namespaces_ o !! ns with
      | None => true
      | Some None => false
      | Some (Some n) =>
          match scene_nodes (world h) !! n with
          | Some None => true
          | Some (Some p) => bool_decide (p = msn)
          | None => false
          end
      end
  end.

(** Where [setVisibility] leaves a node under [msn]. *)
Definition shown_under (msn : NodeId) (visible : bool) : SceneNodePtr :=
  if visible then Some msn else None.

(** The value of the sub-property of [k]: a new one is enabled. *)
Definition ns_enabled (h : Host) (k : string) : bool :=
  default true (property_namespaces_ h !! k).


(** The set [o] has been rendered: every namespace has a node of its own,
    which exists and is detached or under [msn]. *)
Definition rendered (msn : NodeId) (o : Object) (w : State) : bool :=
  forallb (fun kv : string * SceneNodePtr =>
             match kv.2 with
             | Some n =>
                 match scene_nodes w !! n with
                 | Some None => true
                 | Some (Some p) => bool_decide (p = msn)
                 | None => false
                 end
             | None => false
             end)
          (map_to_list (o_namespaces_ o))
  && bool_decide (NoDup (map snd (map_to_list (o_namespaces_ o)))).


(** The types [createMarker] has a case for: the constants of
    [visualization_msgs::Marker] from ARROW = 0 to TRIANGLE_LIST = 11. *)
Definition known_type (t : Z) : bool := ((0 <=? t) && (t <=? 11))%Z.

(** An entry that a call has to give a handle: it has none, and the type
    of its message is one of the twelve. *)
Definition needs_handle (s : State) (d : MarkerData) : bool :=
  match d.2, stored_marker_of (heap s) d.1 with
  | None, Some m => known_type (type m)
  | _, _ => false
  end.

(** The first such entry: its index, the address of its message and the
    message.  It is at this entry that a call looks up the transform. *)
Definition first_needed (s : State) : option (nat * loc * Marker) :=
  match list_find (fun d => needs_handle s d = true) (markers_ s) with
  | Some (j, d) =>
      match stored_marker_of (heap s) d.1 with
      | Some m => Some (j, d.1, m)
      | None => None
      end
  | None => None
  end.

End Model.

Arguments Done {_ _} _ _.
Arguments Thrown {_ _} _ _.
Arguments Aborted {_ _}.
Arguments Fault {_ _}.
Arguments HDone {_ _} _ _.
Arguments HThrown {_ _} _ _.
Arguments HAborted {_ _}.
Arguments HFault {_ _}.

Notation "x <~ c1 ;; c2" := (bind c1 (fun x => c2)).
Notation "c1 ;;; c2" := (bind c1 (fun _ => c2)).

(** ** An instance with IEEE arithmetic

    Binary64 floating-point numbers for both scalar types, rigid transforms
    as a translation and a quaternion, the Hamilton product, and the
    rotation of a vector by a quaternion in the form Ogre computes it.  It
    gives the generic model concrete inputs to run on.  The numbers used
    below (0, 1/2, 1, 2 and their sums and products) are exact in single
    precision as well. *)
Module Binary64.

Definition v_sub (a b : Vec3 float) : Vec3 float :=
  mkVec3 (vx a - vx b)%float (vy a - vy b)%float (vz a - vz b)%float.
Definition v_add (a b : Vec3 float) : Vec3 float :=
  mkVec3 (vx a + vx b)%float (vy a + vy b)%float (vz a + vz b)%float.
Definition v_scale (k : float) (a : Vec3 float) : Vec3 float :=
  mkVec3 (k * vx a)%float (k * vy a)%float (k * vz a)%float.
Definition v_cross (a b : Vec3 float) : Vec3 float :=
  mkVec3 (vy a * vz b - vz a * vy b)%float
         (vz a * vx b - vx a * vz b)%float
         (vx a * vy b - vy a * vx b)%float.

Definition q_mul (a b : Quat float) : Quat float :=
  mkQuat (qw a * qw b - qx a * qx b - qy a * qy b - qz a * qz b)%float
         (qw a * qx b + qx a * qw b + qy a * qz b - qz a * qy b)%float
         (qw a * qy b + qy a * qw b + qz a * qx b - qx a * qz b)%float
         (qw a * qz b + qz a * qw b + qx a * qy b - qy a * qx b)%float.

Definition q_rotate (q : Quat float) (v : Vec3 float) : Vec3 float :=
  let qvec := mkVec3 (qx q) (qy q) (qz q) in
  let uv := v_cross qvec v in
  let uuv := v_cross qvec uv in
  v_add (v_add v (v_scale (2 * qw q)%float uv)) (v_scale 2%float uuv).

Definition pose_mul (a b : Pose float) : Pose float :=
  mkPose (v_add (position a) (q_rotate (orientation a) (position b)))
         (q_mul (orientation a) (orientation b)).

Definition ieee_numerics : Numerics := {|
  double := float;
  Real := float;
  neg := PrimFloat.opp;
  toReal := fun x => x;
  Affine3d := Pose float;
  poseMsgToEigen := fun p => p;
  poseEigenToMsg := fun p => p;
  affine_mul := pose_mul;
  quat_mul := q_mul;
  quat_rotate := q_rotate;
  vec_sub := v_sub;
  Quaternion_IDENTITY := mkQuat 1%float 0%float 0%float 0%float;
  Vector3_ZERO := mkVec3 0%float 0%float 0%float;
  MarkerPayload := unit;
  fromStdString := fun x => x
|}.

#[local] Existing Instance ieee_numerics.

Definition origin_pose : Pose float :=
  mkPose (mkVec3 0%float 0%float 0%float) (mkQuat 1%float 0%float 0%float 0%float).
Definition pose_at (x y z : float) : Pose float :=
  mkPose (mkVec3 x y z) (mkQuat 1%float 0%float 0%float 0%float).

(** A scene whose planning frame is "map" and that knows "base", one
    unit along x from the planning frame. *)
Definition scene_map : PlanningScene :=
  mkScene "map"
          (fun f => String.eqb f "map" || String.eqb f "base")
          (fun f => if String.eqb f "base" then pose_at 1%float 0%float 0%float
                    else origin_pose).

Definition marker_in (frame nspace : string) (ty : Z) : Marker :=
  mkMarker frame nspace 0%Z ty (pose_at 0%float 2%float 0%float) tt.

(** The caller's vector: five markers at addresses 0 to 4.  Two are in
    frames the scene does not know, one has a type the factory refuses. *)
Definition caller_markers : list Marker :=
  [ marker_in "map" "grasp" MarkerType.CUBE;
    marker_in "base" "grasp" MarkerType.ARROW;
    marker_in "left" "approach" MarkerType.SPHERE;
    marker_in "right" "retreat" MarkerType.SPHERE;
    marker_in "map" "labels" 42%Z ].
Definition caller_locs : list loc := [0; 1; 2; 3; 4].

(** Before the constructor runs: the caller's markers on the free store,
    the root scene node 0 and the host's node 1 under it. *)
Definition caller_state : State :=
  mkState (map Some caller_markers) [None; Some 0] [] false 0 0 [] ∅.

Definition final_state (r : Res unit) (otherwise : State) : State :=
  match r with
  | Done _ s => s
  | Thrown _ s => s
  | _ => otherwise
  end.

(** After the constructor. *)
Definition constructed_state : State :=
  final_state (MarkerVisualization_new caller_locs scene_map caller_state) caller_state.

(** A transform from the fixed frame: a third of a turn about the
    diagonal (1,1,1), one unit along x. *)
Definition turn : StampedTransform float :=
  mkTransform (mkQuat 0.5%float 0.5%float 0.5%float 0.5%float)
              (mkVec3 1%float 0%float 0%float).
Definition still : StampedTransform float :=
  mkTransform (mkQuat 1%float 0%float 0%float 0%float)
              (mkVec3 0%float 0%float 0%float).

Definition context_with (tfs : nat -> option (StampedTransform float)) : DisplayContext :=
  mkContext "odom" (fun k _ _ => tfs k)
            (fun m => (position (pose m), orientation (pose m))).

(** A live tf tree: the first lookup of the process answers [turn], the
    later ones [still]. *)
Definition ctx_live : DisplayContext :=
  context_with (fun k => if Nat.eqb k 0 then Some turn else Some still).
(** A tf tree without the transform. *)
Definition ctx_no_tf : DisplayContext := context_with (fun _ => None).

(** After [createMarkers] under the host's node. *)
Definition materialized_state : State :=
  final_state (createMarkers true ctx_live (Some 1) constructed_state) constructed_state.

Definition handle_at (s : State) (i : nat) : Handle :=
  match markers_ s !! i with
  | Some (_, Some h) => h
  | _ => mkHandle ShapeMarker 0 None (mkVec3 0%float 0%float 0%float)
                (mkQuat 1%float 0%float 0%float 0%float)
  end.


(** After [createMarkers] failed on a tf tree without the transform. *)
Definition thrown_state : State :=
  final_state (createMarkers true ctx_no_tf (Some 1) constructed_state) constructed_state.


(** *** A host *)

(** Some order of the keys of a map. *)
Definition keys_of (m : gmap string SceneNodePtr) : list string :=
  map fst (map_to_list m).

Definition host_final (r : HRes unit) (otherwise : Host) : Host :=
  match r with
  | HDone _ h => h
  | HThrown _ h => h
  | _ => otherwise
  end.

(** The property as its constructor leaves it, in a world with one set as
    the constructor of the set leaves it; the sub-property of "labels" is
    there from an earlier set, and disabled. *)
Definition host_new (ctx : DisplayContext) : Host :=
  mkHost constructed_state [unload constructed_state] []
         (<["labels" := false]> ∅) true ctx None None.

(** After [onInitialize] under the node 0. *)
Definition host_ready : Host :=
  host_final (onInitialize (Some 0) ctx_live (host_new ctx_live)) (host_new ctx_live).
Definition host_ready_no_tf : Host :=
  host_final (onInitialize (Some 0) ctx_no_tf (host_new ctx_no_tf)) (host_new ctx_no_tf).

(** After [addMarkers] of the set. *)
Definition host_shown : Host :=
  host_final (addMarkers true keys_of (Some 0) host_ready) host_ready.
Definition host_failed : Host :=
  host_final (addMarkers true keys_of (Some 0) host_ready_no_tf) host_ready_no_tf.

(** The user has disabled "grasp". *)
Definition host_unticked : Host :=
  set_property_namespaces (fun g => <["grasp" := false]> g) host_shown.


(** The set, as the constructor leaves it and after [addMarkers]. *)
Definition pending_object : Object := unload constructed_state.
Definition object_of (h : Host) : Object := default pending_object (objects h !! 0).


(** *** tf trees that tell the frames apart *)

(** A tf tree that has the transform from "odom" to "map" and no other:
    the first lookup of the process answers [turn], the later ones
    [still]. *)
Definition ctx_map : DisplayContext :=
  mkContext "odom"
            (fun k fixed f =>
               if String.eqb fixed "odom" && String.eqb f "map"
               then (if Nat.eqb k 0 then Some turn else Some still)
               else None)
            (fun m => (position (pose m), orientation (pose m))).

(** A tf tree that has transforms from "odom" to every frame but "map". *)
Definition ctx_no_map : DisplayContext :=
  mkContext "odom"
            (fun k fixed f =>
               if String.eqb fixed "odom" && negb (String.eqb f "map")
               then Some still
               else None)
            (fun m => (position (pose m), orientation (pose m))).

(** After [createMarkers] with the first tree. *)
Definition rendered_state : State :=
  final_state (createMarkers true ctx_map (Some 1) constructed_state) constructed_state.

Definition host_ready_no_map : Host :=
  host_final (onInitialize (Some 0) ctx_no_map (host_new ctx_no_map)) (host_new ctx_no_map).

End Binary64.

(** * Proofs *)
Section Proofs.
Context `{Numerics}.

(** ** The monad *)

Lemma bind_Done {A B} (m : M A) (k : A -> M B) s a s' :
  m s = Done a s' -> bind m k s = k a s'.
Proof. unfold bind. intros ->. reflexivity. Qed.

Lemma bind_inv_Done {A B} (m : M A) (k : A -> M B) s b s' :
  bind m k s = Done b s' ->
  exists a s1, m s = Done a s1 /\ k a s1 = Done b s'.
Proof.
  unfold bind. destruct (m s) as [a s1|e s1| |] eqn:E; try discriminate.
  intros Hk. exists a, s1. split; [reflexivity | exact Hk].
Qed.

(** ** The constructor, one marker at a time *)

Lemma lookup_snoc_old {A} (h : list A) (x : A) (l : nat) (y : A) :
  h !! l = Some y -> (h ++ [x]) !! l = Some y.
Proof. intros Hl. rewrite lookup_app_l; [exact Hl | eapply lookup_lt_Some; exact Hl]. Qed.

Lemma lookup_snoc_new {A} (h : list A) (x : A) : (h ++ [x]) !! length h = Some x.
Proof. rewrite lookup_app_r; [ | lia]. rewrite Nat.sub_diag. reflexivity. Qed.

Lemma insert_snoc_new {A} (h : list A) (x y : A) : <[length h := y]> (h ++ [x]) = h ++ [y].
Proof. rewrite insert_app_r_alt; [ | lia]. rewrite Nat.sub_diag. reflexivity. Qed.

(** Unfolding the monad's operations and the state's setters. *)
Ltac unfold_monad :=
  unfold free, ROS_ERROR, ROS_WARN_ONCE, Q_ASSERT, deref, alloc, store,
    bind, ret, gets, modify, throw, fault.
Ltac state_simpl :=
  cbn [heap scene_nodes console warn_once_hit handles_created tf_lookups markers_
       namespaces_ set_heap set_scene_nodes set_console set_warn_once_hit
       set_handles_created set_tf_lookups set_markers set_namespaces fst snd].

Lemma constructor_body_spec scene l m s :
  heap s !! l = Some (Some m) ->
  constructor_body scene l s = Done tt (step_state scene m s).
Proof.
  intros Hl.
  assert (Hold : forall x, (heap s ++ [x]) !! l = Some (Some m))
    by (intros x; apply lookup_snoc_old; exact Hl).
  unfold constructor_body, toPlanningFrame, step_state, cell_of, unknown_frame,
    in_planning_frame, reconciled.
  unfold_monad. state_simpl. rewrite Hl. state_simpl. rewrite lookup_snoc_new.
  destruct (String.eqb (frame_id m) (getPlanningFrame scene)) eqn:Eplan.
  - state_simpl. cbn [negb]. state_simpl. rewrite Hold. reflexivity.
  - cbn [negb andb].
    destruct (knowsFrameTransform scene (frame_id m)) eqn:Eknown; cbn [negb].
    + state_simpl. rewrite lookup_snoc_new. state_simpl. cbn [negb]. state_simpl.
      rewrite insert_snoc_new, Hold.
      unfold set_namespaces, set_markers, set_heap. state_simpl.
      rewrite insert_snoc_new. reflexivity.
    + state_simpl.
      destruct (warn_once_hit s) eqn:Ehit; state_simpl; cbn [negb]; state_simpl;
        unfold set_namespaces, set_markers, set_heap, set_warn_once_hit, set_console;
        state_simpl; rewrite ?insert_snoc_new, ?Ehit; reflexivity.
Qed.

Lemma cell_of_None scene m : cell_of scene m = None <-> unknown_frame scene m = true.
Proof.
  unfold cell_of, unknown_frame.
  destruct (in_planning_frame scene m); cbn [negb andb];
    [ | destruct (negb (knowsFrameTransform scene (frame_id m)))]; split; congruence.
Qed.

Lemma cell_of_frame scene m m' :
  cell_of scene m = Some m' -> frame_id m' = getPlanningFrame scene.
Proof.
  unfold cell_of, in_planning_frame.
  destruct (String.eqb (frame_id m) (getPlanningFrame scene)) eqn:E.
  - intros [= <-]. apply String.eqb_eq. exact E.
  - destruct (unknown_frame scene m); [discriminate | ]. intros [= <-]. reflexivity.
Qed.

Lemma cell_of_known scene m :
  in_planning_frame scene m = false -> knowsFrameTransform scene (frame_id m) = true ->
  cell_of scene m = Some (reconciled scene m).
Proof. unfold cell_of, unknown_frame. intros -> ->. reflexivity. Qed.

Lemma heap_step scene m s : heap (step_state scene m s) = heap s ++ [cell_of scene m].
Proof. unfold step_state. destruct (cell_of scene m); reflexivity. Qed.

Lemma markers_step scene m s :
  markers_ (step_state scene m s)
  = markers_ s ++ (if unknown_frame scene m then [] else [(length (heap s), None)]).
Proof.
  unfold step_state. destruct (cell_of scene m) eqn:E.
  - destruct (unknown_frame scene m) eqn:U; [ | reflexivity].
    apply cell_of_None in U. congruence.
  - apply cell_of_None in E. rewrite E. cbn. rewrite app_nil_r. reflexivity.
Qed.

(** ** The constructor's loop *)

Lemma stored_marker_of_Some h l m :
  stored_marker_of h l = Some m <-> h !! l = Some (Some m).
Proof.
  unfold stored_marker_of. destruct (h !! l) as [[m0 | ] | ]; split; congruence.
Qed.

Lemma input_markers_cells s locs : forall ms,
  input_markers s locs ms <->
  Forall2 (fun l m => heap s !! l = Some (Some m)) locs ms.
Proof.
  unfold input_markers.
  induction locs as [ | l locs IH]; intros [ | m ms]; cbn [map].
  - split; [constructor | reflexivity].
  - split; [discriminate | intros Hin; inversion Hin].
  - split; [discriminate | intros Hin; inversion Hin].
  - split.
    + intros [= Hl Hrest]. constructor.
      * apply stored_marker_of_Some. exact Hl.
      * apply IH. exact Hrest.
    + intros Hin. inversion Hin as [ | ? ? ? ? Hl Hrest]; subst.
      apply stored_marker_of_Some in Hl. rewrite Hl. f_equal. apply IH. exact Hrest.
Qed.

Lemma for_each_constructor scene locs : forall ms s,
  Forall2 (fun l m => heap s !! l = Some (Some m)) locs ms ->
  for_each (constructor_body scene) locs s = Done tt (construct_state scene ms s).
Proof.
  induction locs as [ | l locs IH]; intros ms s Hin.
  - inversion Hin; subst. reflexivity.
  - inversion Hin as [ | l0 m locs0 ms0 Hl Hrest]; subst.
    cbn [for_each construct_state fold_left].
    rewrite (bind_Done _ _ _ _ _ (constructor_body_spec scene l m s Hl)).
    apply IH.
    eapply Forall2_impl; [exact Hrest | ].
    intros l' m' Hl'. cbn beta in Hl' |- *. rewrite heap_step.
    apply lookup_snoc_old. exact Hl'.
Qed.

Lemma heap_construct scene ms : forall s,
  heap (construct_state scene ms s) = heap s ++ map (cell_of scene) ms.
Proof.
  induction ms as [ | m ms IH]; intros s; cbn [construct_state fold_left map].
  - rewrite app_nil_r. reflexivity.
  - unfold construct_state in IH. rewrite IH, heap_step, <- app_assoc. reflexivity.
Qed.

Lemma markers_construct scene ms : forall s,
  markers_ (construct_state scene ms s)
  = markers_ s ++ kept_entries scene (length (heap s)) ms.
Proof.
  induction ms as [ | m ms IH]; intros s; cbn [construct_state fold_left kept_entries].
  - rewrite app_nil_r. reflexivity.
  - unfold construct_state in IH. rewrite IH, markers_step, heap_step, <- app_assoc.
    rewrite length_app. cbn [length]. rewrite Nat.add_1_r. reflexivity.
Qed.

Lemma console_construct scene ms : forall s,
  console (construct_state scene ms s)
  = console s ++ (if warn_once_hit s then [] else first_warning scene ms).
Proof.
  unfold first_warning.
  induction ms as [ | m ms IH]; intros s; cbn [construct_state fold_left List.find].
  - destruct (warn_once_hit s); rewrite app_nil_r; reflexivity.
  - unfold construct_state in IH. rewrite IH. unfold step_state.
    destruct (unknown_frame scene m) eqn:U.
    + apply cell_of_None in U. rewrite U. cbn [warn_once_hit console].
      rewrite app_nil_r. destruct (warn_once_hit s); [rewrite app_nil_r | ]; reflexivity.
    + destruct (cell_of scene m) eqn:E; [reflexivity | ].
      apply cell_of_None in E. congruence.
Qed.

Lemma kept_entries_elem scene ms : forall base d,
  d ∈ kept_entries scene base ms ->
  exists i m, d = (base + i, None) /\ ms !! i = Some m /\ unknown_frame scene m = false.
Proof.
  induction ms as [ | m ms IH]; intros base d Hd; cbn [kept_entries] in Hd.
  - inversion Hd.
  - apply elem_of_app in Hd as [Hd | Hd].
    + destruct (unknown_frame scene m) eqn:U; [inversion Hd | ].
      apply list_elem_of_singleton in Hd. subst d.
      exists 0, m. rewrite Nat.add_0_r. auto.
    + apply IH in Hd as (i & m' & -> & Hi & U).
      exists (S i), m'. split; [f_equal; lia | auto].
Qed.

Lemma kept_entries_intro scene ms : forall base i m,
  ms !! i = Some m -> unknown_frame scene m = false ->
  (base + i, None) ∈ kept_entries scene base ms.
Proof.
  induction ms as [ | m0 ms IH]; intros base i m Hi U; [inversion Hi | ].
  cbn [kept_entries]. apply elem_of_app. destruct i as [ | i].
  - left. injection Hi as ->. rewrite U, Nat.add_0_r. apply list_elem_of_singleton. reflexivity.
  - right. replace (base + S i) with (S base + i) by lia. eapply IH; eauto.
Qed.

Lemma kept_entries_length scene ms : forall base,
  length (kept_entries scene base ms) + length (List.filter (unknown_frame scene) ms)
  = length ms.
Proof.
  induction ms as [ | m ms IH]; intros base; cbn [kept_entries List.filter length];
    [reflexivity | ].
  rewrite length_app. specialize (IH (S base)).
  destruct (unknown_frame scene m); cbn [length]; lia.
Qed.

(** The constructor returns, and this is the state it leaves. *)
Lemma MarkerVisualization_new_spec scene locs ms s :
  input_markers s locs ms ->
  exists s', MarkerVisualization_new locs scene s = Done tt s' /\
    heap s' = heap s ++ map (cell_of scene) ms /\
    markers_ s' = kept_entries scene (length (heap s)) ms /\
    console s' = console s ++ (if warn_once_hit s then [] else first_warning scene ms).
Proof.
  intros Hin. unfold MarkerVisualization_new.
  set (s0 := set_namespaces (fun _ => ∅) (set_markers (fun _ => []) s)).
  exists (construct_state scene ms s0). split; [ | split; [ | split]].
  - unfold bind, modify. fold s0. apply for_each_constructor.
    apply input_markers_cells in Hin. exact Hin.
  - exact (heap_construct scene ms s0).
  - exact (markers_construct scene ms s0).
  - exact (console_construct scene ms s0).
Qed.

Lemma input_markers_length s locs ms : input_markers s locs ms -> length locs = length ms.
Proof. intros Hin. apply input_markers_cells in Hin. eapply Forall2_length. exact Hin. Qed.

Lemma unknown_frame_not_planning scene m :
  unknown_frame scene m = true -> frame_id m <> getPlanningFrame scene.
Proof.
  unfold unknown_frame, in_planning_frame. intros U.
  apply andb_true_iff in U as [U _]. apply negb_true_iff in U.
  apply String.eqb_neq. exact U.
Qed.

(** For a scene that knows its own planning frame, the unknown frames are
    the frames without a known transform. *)
Lemma unknown_frame_not_known scene m :
  knowsFrameTransform scene (getPlanningFrame scene) = true ->
  unknown_frame scene m = negb (knowsFrameTransform scene (frame_id m)).
Proof.
  intros Hplan. unfold unknown_frame, in_planning_frame.
  destruct (String.eqb (frame_id m) (getPlanningFrame scene)) eqn:E; [ | reflexivity].
  apply String.eqb_eq in E. rewrite E, Hplan. reflexivity.
Qed.

(** What the entry for the marker at position [j] points to. *)
Lemma stored_copy scene ms s s' j mj :
  heap s' = heap s ++ map (cell_of scene) ms ->
  ms !! j = Some mj ->
  stored_marker s' (length (heap s) + j, None) = cell_of scene mj.
Proof.
  intros Hheap Hj. unfold stored_marker, stored_marker_of. cbn [fst]. rewrite Hheap.
  rewrite lookup_app_r by lia.
  replace (length (heap s) + j - length (heap s)) with j by lia.
  rewrite list_lookup_fmap, Hj. cbn. destruct (cell_of scene mj); reflexivity.
Qed.

(** ** The constructor establishes what [createMarkers] relies on *)







(** ** Claims about the constructor *)

(** C1. A marker whose frame F is not the planning frame but is known to
    the scene is kept: the set holds its copy, whose pose is
    [getFrameTransform(F) * pose] and whose frame is the planning frame;
    the other fields are those of the input. *)
Theorem C1_known_frame_pose_composed scene locs ms s i m :
  input_markers s locs ms ->
  ms !! i = Some m ->
  frame_id m <> getPlanningFrame scene ->
  knowsFrameTransform scene (frame_id m) = true ->
  exists s' m',
    MarkerVisualization_new locs scene s = Done tt s' /\
    (length (heap s) + i, None) ∈ markers_ s' /\
    stored_marker s' (length (heap s) + i, None) = Some m' /\
    pose m' = poseEigenToMsg (affine_mul (getFrameTransform scene (frame_id m))
                                         (poseMsgToEigen (pose m))) /\
    frame_id m' = getPlanningFrame scene /\
    ns m' = ns m /\ id m' = id m /\ type m' = type m /\ payload m' = payload m.
Proof.
  intros Hin Hi Hframe Hknown.
  destruct (MarkerVisualization_new_spec scene locs ms s Hin)
    as (s' & Hrun & Hheap & Hmarkers & _).
  assert (Hplan : in_planning_frame scene m = false)
    by (apply String.eqb_neq; exact Hframe).
  assert (Hunk : unknown_frame scene m = false)
    by (unfold unknown_frame; rewrite Hknown, andb_false_r; reflexivity).
  exists s', (reconciled scene m). split; [exact Hrun | ]. split; [ | split].
  - rewrite Hmarkers. eapply kept_entries_intro; eauto.
  - rewrite (stored_copy scene ms s s' i m Hheap Hi). apply cell_of_known; assumption.
  - repeat split.
Qed.

(** C2. After construction every stored marker carries the planning frame
    of the scene.  A marker that was in the planning frame is stored as it
    was; C1 has the markers that are rewritten and C3 the ones that are
    dropped. *)
Theorem C2_stored_frames_are_planning_frame scene locs ms s :
  input_markers s locs ms ->
  exists s',
    MarkerVisualization_new locs scene s = Done tt s' /\
    Forall (fun d => exists m, stored_marker s' d = Some m /\
                               frame_id m = getPlanningFrame scene)
           (markers_ s') /\
    forall i m, ms !! i = Some m -> frame_id m = getPlanningFrame scene ->
      (length (heap s) + i, None) ∈ markers_ s' /\
      stored_marker s' (length (heap s) + i, None) = Some m.
Proof.
  intros Hin.
  destruct (MarkerVisualization_new_spec scene locs ms s Hin)
    as (s' & Hrun & Hheap & Hmarkers & _).
  exists s'. split; [exact Hrun | ]. split.
  - apply Forall_forall. intros d Hd. rewrite Hmarkers in Hd.
    apply kept_entries_elem in Hd as (j & mj & -> & Hj & U).
    rewrite (stored_copy scene ms s s' j mj Hheap Hj).
    destruct (cell_of scene mj) as [m' | ] eqn:E.
    + exists m'. split; [reflexivity | ]. eapply cell_of_frame; exact E.
    + apply cell_of_None in E. congruence.
  - intros i m Hi Hframe.
    assert (Hplan : in_planning_frame scene m = true)
      by (apply String.eqb_eq; exact Hframe).
    split.
    + rewrite Hmarkers. eapply kept_entries_intro; [exact Hi | ].
      unfold unknown_frame. rewrite Hplan. reflexivity.
    + rewrite (stored_copy scene ms s s' i m Hheap Hi).
      unfold cell_of. rewrite Hplan. reflexivity.
Qed.

(** C3. A marker whose frame is unknown to the scene (not the planning
    frame, no transform known) is not in the set: no entry points to it or
    to the copy made of it, and no stored message equals it.  The set has as
    many entries as the input has markers, less the unknown-frame ones. *)
Theorem C3_unknown_frames_dropped scene locs ms s :
  input_markers s locs ms ->
  exists s',
    MarkerVisualization_new locs scene s = Done tt s' /\
    (forall i l m, locs !! i = Some l -> ms !! i = Some m ->
       unknown_frame scene m = true ->
       forall d, d ∈ markers_ s' ->
         d.1 <> l /\ d.1 <> length (heap s) + i /\ stored_marker s' d <> Some m) /\
    length (markers_ s')
    = length locs - length (List.filter (unknown_frame scene) ms).
Proof.
  intros Hin.
  destruct (MarkerVisualization_new_spec scene locs ms s Hin)
    as (s' & Hrun & Hheap & Hmarkers & _).
  exists s'. split; [exact Hrun | ]. split.
  - intros i l m Hl Hm U d Hd. rewrite Hmarkers in Hd.
    apply kept_entries_elem in Hd as (j & mj & -> & Hj & Uj). cbn [fst].
    assert (Hlt : l < length (heap s)).
    { pose proof (proj1 (input_markers_cells s locs ms) Hin) as Hcells.
      pose proof (Forall2_lookup_lr _ _ _ _ _ _ Hcells Hl Hm) as Hheap_l.
      eapply lookup_lt_Some. exact Hheap_l. }
    split; [lia | ]. split.
    + intros E. assert (j = i) by lia. subst j. congruence.
    + rewrite (stored_copy scene ms s s' j mj Hheap Hj). intros E.
      apply cell_of_frame in E. apply unknown_frame_not_planning in U. contradiction.
  - rewrite Hmarkers, (input_markers_length s locs ms Hin).
    pose proof (kept_entries_length scene ms (length (heap s))). lia.
Qed.

(** C8, as the code has it.  The constructor prints at most one warning:
    for the first dropped marker, and only if the warning site has not
    fired before in the process.  Further dropped markers are not reported,
    whatever their frame and namespace. *)
Theorem C8_one_warning_per_process scene locs ms s :
  input_markers s locs ms ->
  exists s',
    MarkerVisualization_new locs scene s = Done tt s' /\
    console s' = console s ++ (if warn_once_hit s then [] else first_warning scene ms) /\
    length (console s') <= S (length (console s)).
Proof.
  intros Hin.
  destruct (MarkerVisualization_new_spec scene locs ms s Hin)
    as (s' & Hrun & _ & _ & Hconsole).
  exists s'. split; [exact Hrun | ]. split; [exact Hconsole | ].
  rewrite Hconsole, length_app. unfold first_warning.
  destruct (warn_once_hit s); [cbn; lia | ].
  destruct (List.find (unknown_frame scene) ms); cbn; lia.
Qed.

(** C10. The constructor works on copies: every cell of the free store
    that existed before the call is unchanged by it, so the caller's markers
    are, and every entry of the set points to a cell allocated by the call,
    none to a marker of the caller. *)
Theorem C10_input_untouched scene locs ms s :
  input_markers s locs ms ->
  exists s',
    MarkerVisualization_new locs scene s = Done tt s' /\
    (forall l, l < length (heap s) -> heap s' !! l = heap s !! l) /\
    input_markers s' locs ms /\
    Forall (fun d => length (heap s) <= d.1 /\ d.1 ∉ locs) (markers_ s').
Proof.
  intros Hin.
  destruct (MarkerVisualization_new_spec scene locs ms s Hin)
    as (s' & Hrun & Hheap & Hmarkers & _).
  exists s'. split; [exact Hrun | ].
  assert (Hold : forall l, l < length (heap s) -> heap s' !! l = heap s !! l).
  { intros l Hl. rewrite Hheap. apply lookup_app_l. exact Hl. }
  pose proof (proj1 (input_markers_cells s locs ms) Hin) as Hcells.
  split; [exact Hold | ]. split.
  - apply input_markers_cells. eapply Forall2_impl; [exact Hcells | ].
    intros l m Hl. cbn beta in Hl |- *. rewrite Hold; [exact Hl | ].
    eapply lookup_lt_Some. exact Hl.
  - apply Forall_forall. intros d Hd. rewrite Hmarkers in Hd.
    apply kept_entries_elem in Hd as (j & mj & -> & _ & _). cbn [fst].
    split; [lia | ]. intros Hmem.
    apply list_elem_of_lookup in Hmem as (k & Hk).
    destruct (Forall2_lookup_l _ _ _ _ _ Hcells Hk) as (mk & _ & Hheap_k).
    apply lookup_lt_Some in Hheap_k. lia.
Qed.

(** ** The steps of [createMarkers] *)

Lemma namespace_node_Done debug parent key s n s' :
  namespace_node debug parent key s = Done n s' ->
  (namespaces_ s !! key = Some (Some n) /\ s' = s) \/
  (namespaces_ s !! key = Some None /\ is_Some parent /\ n = length (scene_nodes s) /\
   s' = set_namespaces (fun g => <[key := Some n]> g)
          (set_scene_nodes (fun g => g ++ [None]) s)).
Proof.
  unfold namespace_node, createSceneNode. unfold_monad.
  destruct (namespaces_ s !! key) as [[n0 | ] | ] eqn:E; destruct debug; cbn;
    try discriminate.
  - intros [= <- <-]. left. auto.
  - intros [= <- <-]. left. auto.
  - destruct parent; [ | discriminate]. intros [= <- <-]. right. eauto.
  - destruct parent; [ | discriminate]. intros [= <- <-]. right. eauto.
Qed.

Lemma createMarker_Done t n s oh s' :
  createMarker t (Some n) s = Done oh s' ->
  match marker_class t with
  | None => oh = None /\ s' = set_console (fun c => c ++ [ErrorUnknownType t]) s
  | Some c => oh = Some (mkHandle c n None Vector3_ZERO Quaternion_IDENTITY) /\
              s' = set_handles_created S s
  end.
Proof.
  unfold createMarker. destruct (marker_class t); unfold_monad; intros [= <- <-]; auto.
Qed.

Lemma determine_transform_Done debug ctx m lv s lv' s' :
  determine_transform debug ctx m lv s = Done lv' s' ->
  if string_empty (planning_frame lv)
  then exists tm,
      lookupTransform ctx (tf_lookups s) (getFixedFrame ctx) (frame_id m) = Some tm /\
      lv' = mkLocals (frame_id m) (conj_to_ogre (getRotation tm))
                     (Some (vec_to_ogre (getOrigin tm))) /\
      s' = set_tf_lookups S s
  else lv' = lv /\ s' = s.
Proof.
  unfold determine_transform. destruct (string_empty (planning_frame lv)).
  - unfold_monad. state_simpl.
    destruct (lookupTransform ctx (tf_lookups s) (getFixedFrame ctx) (frame_id m))
      as [tm | ]; [ | discriminate].
    intros [= <- <-]. exists tm. auto.
  - unfold_monad.
    destruct (debug && negb (String.eqb (frame_id m) (planning_frame lv)));
      [discriminate | ].
    intros [= <- <-]. auto.
Qed.

Lemma place_marker_Done debug ctx i first m c n lv s lv' s' :
  place_marker debug ctx i first m
    (mkHandle c n None Vector3_ZERO Quaternion_IDENTITY) lv s = Done lv' s' ->
  exists p s1,
    pos lv' = Some p /\
    determine_transform debug ctx m lv s = Done lv' s1 /\
    s' = set_markers
           (fun ms => <[i := (first, Some (placed_handle ctx c n first m (quat lv') p))]> ms)
           s1.
Proof.
  unfold place_marker. intros Hrun.
  apply bind_inv_Done in Hrun as ([] & s1 & Hset & Hrun).
  injection Hset as <-.
  apply bind_inv_Done in Hrun as ([] & s2 & Hassert & Hrun).
  unfold Q_ASSERT in Hassert.
  destruct (debug && negb (negb (string_empty (frame_id m)))); [discriminate | ].
  injection Hassert as <-.
  apply bind_inv_Done in Hrun as (lv1 & s3 & Hdet & Hrun).
  apply bind_inv_Done in Hrun as ([] & s4 & Hset & Hrun).
  injection Hset as <-.
  destruct (pos lv1) as [p | ] eqn:Epos; [ | discriminate].
  apply bind_inv_Done in Hrun as ([] & s5 & Hset & Hrun).
  injection Hset as <-. injection Hrun as <- <-.
  pose proof (determine_transform_Done _ _ _ _ _ _ _ Hdet) as Hpost.
  assert (Hdet' : exists s1, determine_transform debug ctx m lv s = Done lv1 s1 /\
                    s3 = set_markers (fun ms => <[i := (first, Some (setMessage ctx first m
                           (mkHandle c n None Vector3_ZERO Quaternion_IDENTITY)))]> ms) s1).
  { unfold determine_transform in Hdet |- *.
    destruct (string_empty (planning_frame lv)).
    - revert Hdet. unfold_monad. state_simpl.
      destruct (lookupTransform ctx (tf_lookups s) (getFixedFrame ctx) (frame_id m));
        [ | discriminate].
      intros [= <- <-]. eexists. split; reflexivity.
    - revert Hdet. unfold_monad.
      destruct (debug && negb (String.eqb (frame_id m) (planning_frame lv)));
        [discriminate | ].
      intros [= <- <-]. eexists. split; reflexivity. }
  destruct Hdet' as (s1 & Hdet1 & ->).
  exists p, s1. split; [exact Epos | ]. split; [exact Hdet1 | ].
  unfold set_markers, placed_handle, set_pose, setMessage. state_simpl.
  rewrite !list_insert_insert_eq. reflexivity.
Qed.

Lemma createMarkers_body_Done debug ctx parent i lv s lv' s' :
  createMarkers_body debug ctx parent i lv s = Done lv' s' ->
  body_post ctx i lv s lv' s'.
Proof.
  unfold createMarkers_body, body_post. intros Hrun.
  apply bind_inv_Done in Hrun as (data & s0 & Hget & Hrun).
  injection Hget as <- <-.
  destruct (markers_ s !! i) as [[l [h | ]] | ] eqn:Ei; [ | | discriminate].
  { injection Hrun as <- <-. split; [reflexivity | ]. exists l, (Some h). auto. }
  apply bind_inv_Done in Hrun as (m & s0 & Hderef & Hrun).
  unfold deref in Hderef.
  destruct (heap s !! l) as [[m0 | ] | ] eqn:El; try discriminate.
  injection Hderef as <- <-.
  apply bind_inv_Done in Hrun as (n & s1 & Hnode & Hrun).
  apply bind_inv_Done in Hrun as (h & s2 & Hcreate & Hrun).
  apply bind_inv_Done in Hrun as ([] & s3 & Hset & Hrun).
  injection Hset as <-.
  apply createMarker_Done in Hcreate.
  assert (Hns : heap s1 = heap s /\ markers_ s1 = markers_ s /\
                tf_lookups s1 = tf_lookups s /\ handles_created s1 = handles_created s /\
                is_Some (namespaces_ s !! fromStdString (ns m0)) /\
                (forall n', namespaces_ s !! fromStdString (ns m0) = Some (Some n') -> n' = n) /\
                namespaces_ s1 = <[fromStdString (ns m0) := Some n]> (namespaces_ s)).
  { apply namespace_node_Done in Hnode as [(E & ->) | (E & _ & _ & ->)].
    - repeat split; try reflexivity; [eauto | congruence | ].
      symmetry. apply insert_id. exact E.
    - repeat split; try reflexivity; [eauto | congruence]. }
  destruct Hns as (Hheap1 & Hmk1 & Htf1 & Hhc1 & Hsome & Huniq & Hns1).
  destruct (marker_class (type m0)) as [c | ] eqn:Eclass.
  - destruct Hcreate as (-> & ->).
    apply place_marker_Done in Hrun as (p & s4 & Epos & Hdet & ->).
    pose proof (determine_transform_Done _ _ _ _ _ _ _ Hdet) as Hpost.
    state_simpl.
    assert (Hframe : heap s4 = heap s /\ namespaces_ s4 = namespaces_ s1 /\
                     markers_ s4 = <[i := (l, Some (mkHandle c n None Vector3_ZERO
                                       Quaternion_IDENTITY))]> (markers_ s) /\
                     handles_created s4 = S (handles_created s) /\
                     transform_post ctx m0 lv s lv' s4).
    { unfold transform_post. revert Hpost. state_simpl.
      destruct (string_empty (planning_frame lv)).
      - intros (tm & Htm & -> & ->). state_simpl.
        rewrite Hheap1, Hmk1, Hhc1, Htf1 in *. repeat split; eauto.
      - intros (-> & ->). state_simpl.
        rewrite Hheap1, Hmk1, Hhc1, Htf1 in *. repeat split; eauto. }
    destruct Hframe as (Hheap4 & Hns4 & Hmk4 & Hhc4 & Htp).
    split; [exact Hheap4 | ]. exists l, None. split; [reflexivity | ].
    exists m0, n. rewrite Eclass.
    repeat split; try assumption; [congruence | ].
    exists p. repeat split; try assumption.
    rewrite Hmk4, list_insert_insert_eq. reflexivity.
  - destruct Hcreate as (-> & ->). injection Hrun as <- <-. state_simpl.
    split; [exact Hheap1 | ]. exists l, None. split; [reflexivity | ].
    exists m0, n. rewrite Eclass.
    repeat split; try assumption.
    rewrite Hmk1. apply list_insert_id. exact Ei.
Qed.

(** ** The loop of [createMarkers] *)

(** An invariant of the iterations that return holds when the loop returns. *)
Lemma createMarkers_loop_Done debug ctx parent (Inv : nat -> Locals -> State -> Prop) :
  (forall i lv s lv' s', Inv i lv s -> body_post ctx i lv s lv' s' -> Inv (S i) lv' s') ->
  forall n i lv s lv' s',
    Inv i lv s ->
    createMarkers_loop debug ctx parent n i lv s = Done lv' s' ->
    Inv (n + i) lv' s'.
Proof.
  intros Hstep. induction n as [ | n IH]; intros i lv s lv' s' Hinv Hrun.
  - injection Hrun as <- <-. exact Hinv.
  - cbn [createMarkers_loop] in Hrun.
    apply bind_inv_Done in Hrun as (lv1 & s1 & Hbody & Hrun).
    apply createMarkers_body_Done in Hbody.
    replace (S n + i) with (n + S i) by lia.
    eapply IH; [ | exact Hrun]. eapply Hstep; eauto.
Qed.

Lemma createMarkers_Done_inv debug ctx parent (Inv : nat -> Locals -> State -> Prop) s s' :
  (forall i lv s lv' s', Inv i lv s -> body_post ctx i lv s lv' s' -> Inv (S i) lv' s') ->
  Inv 0 init_locals s ->
  createMarkers debug ctx parent s = Done tt s' ->
  exists lv', Inv (length (markers_ s)) lv' s'.
Proof.
  intros Hstep Hinit Hrun. unfold createMarkers in Hrun.
  apply bind_inv_Done in Hrun as (n & s0 & Hget & Hrun). injection Hget as <- <-.
  apply bind_inv_Done in Hrun as (lv' & s1 & Hloop & Hret). injection Hret as <-.
  exists lv'. rewrite <- (Nat.add_0_r (length (markers_ s))).
  eapply createMarkers_loop_Done; eauto.
Qed.

(** The loop rule again, over the iterations themselves. *)
Lemma createMarkers_loop_inv debug ctx parent (Inv : nat -> Locals -> State -> Prop) :
  (forall i lv s lv' s', Inv i lv s ->
     createMarkers_body debug ctx parent i lv s = Done lv' s' -> Inv (S i) lv' s') ->
  forall n i lv s lv' s',
    Inv i lv s ->
    createMarkers_loop debug ctx parent n i lv s = Done lv' s' ->
    Inv (n + i) lv' s'.
Proof.
  intros Hstep. induction n as [ | n IH]; intros i lv s lv' s' Hinv Hrun.
  - injection Hrun as <- <-. exact Hinv.
  - cbn [createMarkers_loop] in Hrun.
    apply bind_inv_Done in Hrun as (lv1 & s1 & Hbody & Hrun).
    replace (S n + i) with (n + S i) by lia.
    eapply IH; [ | exact Hrun]. eapply Hstep; eauto.
Qed.

Lemma createMarkers_inv debug ctx parent (Inv : nat -> Locals -> State -> Prop) s s' :
  (forall i lv s lv' s', Inv i lv s ->
     createMarkers_body debug ctx parent i lv s = Done lv' s' -> Inv (S i) lv' s') ->
  Inv 0 init_locals s ->
  createMarkers debug ctx parent s = Done tt s' ->
  exists lv', Inv (length (markers_ s)) lv' s'.
Proof.
  intros Hstep Hinit Hrun. unfold createMarkers in Hrun.
  apply bind_inv_Done in Hrun as (n & s0 & Hget & Hrun). injection Hget as <- <-.
  apply bind_inv_Done in Hrun as (lv' & s1 & Hloop & Hret). injection Hret as <-.
  exists lv'. rewrite <- (Nat.add_0_r (length (markers_ s))).
  eapply createMarkers_loop_inv; eauto.
Qed.

Lemma looked_up_mono ctx lo hi hi' q op :
  hi <= hi' -> looked_up ctx lo hi q op -> looked_up ctx lo hi' q op.
Proof.
  intros Hle (k & f & tm & Hk & Htm & Hq & Hp). exists k, f, tm.
  repeat split; try assumption; lia.
Qed.

(** After "determine transform once" the locals hold the result of a
    lookup of this call, whether it was made now or earlier. *)
Lemma transform_post_looked_up ctx m lv s lv' s' lo :
  lo <= tf_lookups s ->
  (string_empty (planning_frame lv) = false ->
   looked_up ctx lo (tf_lookups s) (quat lv) (pos lv)) ->
  transform_post ctx m lv s lv' s' ->
  tf_lookups s <= tf_lookups s' /\ looked_up ctx lo (tf_lookups s') (quat lv') (pos lv').
Proof.
  intros Hlo Hcached. unfold transform_post.
  destruct (string_empty (planning_frame lv)).
  - intros (tm & Htm & -> & ->). split; [lia | ].
    exists (tf_lookups s), (frame_id m), tm. cbn [quat pos].
    repeat split; try assumption; lia.
  - intros (-> & ->). split; [lia | ]. apply Hcached. reflexivity.
Qed.

(** ** Running one iteration forward *)

Lemma createMarkers_body_skip debug ctx parent i lv s l h :
  markers_ s !! i = Some (l, Some h) ->
  createMarkers_body debug ctx parent i lv s = Done lv s.
Proof.
  intros Ei. unfold createMarkers_body. unfold_monad. rewrite Ei. reflexivity.
Qed.

Lemma namespace_node_returns debug p key s :
  is_Some (namespaces_ s !! key) ->
  exists n s', namespace_node debug (Some p) key s = Done n s'.
Proof.
  intros [second E]. unfold namespace_node, createSceneNode. unfold_monad.
  rewrite E. rewrite bool_decide_eq_true_2 by eauto.
  rewrite andb_false_r. destruct second; eauto.
Qed.

Lemma namespace_node_present debug parent key n s :
  namespaces_ s !! key = Some (Some n) ->
  namespace_node debug parent key s = Done n s.
Proof.
  intros E. unfold namespace_node. unfold_monad.
  rewrite E. rewrite bool_decide_eq_true_2 by eauto.
  rewrite andb_false_r. reflexivity.
Qed.

Lemma namespace_node_keeps debug parent key s n s' :
  namespace_node debug parent key s = Done n s' ->
  heap s' = heap s /\ markers_ s' = markers_ s /\ tf_lookups s' = tf_lookups s.
Proof.
  intros Hrun. apply namespace_node_Done in Hrun as [(_ & ->) | (_ & _ & _ & ->)]; auto.
Qed.

(** An entry whose type the factory refuses: an error is reported and the
    iteration returns. *)
Lemma createMarkers_body_unknown_type debug ctx p i lv s l m :
  markers_ s !! i = Some (l, None) ->
  heap s !! l = Some (Some m) ->
  marker_class (type m) = None ->
  is_Some (namespaces_ s !! fromStdString (ns m)) ->
  exists s', createMarkers_body debug ctx (Some p) i lv s = Done lv s'.
Proof.
  intros Ei Hm Hclass Hns.
  destruct (namespace_node_returns debug p _ s Hns) as (n & s1 & Hnode).
  unfold createMarkers_body.
  unfold bind at 1. unfold gets at 1. rewrite Ei.
  unfold bind at 1. unfold deref at 1. rewrite Hm.
  unfold bind at 1. rewrite Hnode.
  unfold createMarker. rewrite Hclass. unfold_monad. eauto.
Qed.

(** The same when the namespace's node exists: only the console changes. *)
Lemma createMarkers_body_settled debug ctx parent i lv s l m n :
  markers_ s !! i = Some (l, None) ->
  heap s !! l = Some (Some m) ->
  marker_class (type m) = None ->
  namespaces_ s !! fromStdString (ns m) = Some (Some n) ->
  createMarkers_body debug ctx parent i lv s
  = Done lv (set_console (fun c => c ++ [ErrorUnknownType (type m)]) s).
Proof.
  intros Ei Hm Hclass Hns.
  unfold createMarkers_body.
  unfold bind at 1. unfold gets at 1. rewrite Ei.
  unfold bind at 1. unfold deref at 1. rewrite Hm.
  unfold bind at 1. rewrite (namespace_node_present debug parent _ n s Hns).
  unfold createMarker. rewrite Hclass. unfold_monad.
  unfold set_markers, set_console. state_simpl.
  rewrite (list_insert_id _ _ _ Ei). reflexivity.
Qed.

(** ** When the lookup fails *)

(** ** Calling [createMarkers] again *)

Lemma filter_none {A} (f : A -> bool) (l : list A) :
  (forall x, In x l -> f x = false) -> List.filter f l = [].
Proof.
  induction l as [ | x l IH]; intros Hall; [reflexivity | ].
  cbn [List.filter]. rewrite (Hall x (or_introl eq_refl)).
  apply IH. intros y Hy. apply Hall. right. exact Hy.
Qed.

Lemma is_gap_None s l m :
  heap s !! l = Some (Some m) ->
  is_gap s (l, None) = bool_decide (is_Some (marker_class (type m))).
Proof. intros Hm. unfold is_gap, stored_marker_of. cbn [fst snd]. rewrite Hm. reflexivity. Qed.

(** What a returning call leaves: handles that existed are untouched, one
    handle was constructed for every entry that needed one, and what is
    left without a handle is settled. *)
Lemma createMarkers_first_call debug ctx parent s s1 :
  createMarkers debug ctx parent s = Done tt s1 ->
  heap s1 = heap s /\
  length (markers_ s1) = length (markers_ s) /\
  (forall i l h, markers_ s !! i = Some (l, Some h) -> markers_ s1 !! i = Some (l, Some h)) /\
  handles_created s1 = handles_created s + gaps s /\
  settled s1.
Proof.
  intros Hrun.
  pose (Inv := fun (i : nat) (lv : Locals) (cur : State) =>
    heap cur = heap s /\
    length (markers_ cur) = length (markers_ s) /\
    (forall j, i <= j -> markers_ cur !! j = markers_ s !! j) /\
    (forall j l h, markers_ s !! j = Some (l, Some h) ->
                   markers_ cur !! j = Some (l, Some h)) /\
    handles_created cur
    = handles_created s + length (List.filter (is_gap s) (take i (markers_ s))) /\
    (forall j l, j < i -> markers_ cur !! j = Some (l, None) ->
       exists m n, heap cur !! l = Some (Some m) /\ marker_class (type m) = None /\
                   namespaces_ cur !! fromStdString (ns m) = Some (Some n))).
  destruct (createMarkers_Done_inv debug ctx parent Inv s s1) as (lv' & Hfinal);
    [ | | exact Hrun | ].
  - clear Hrun. subst Inv. cbn beta.
    intros i lv cur lv' cur' (Hheap & Hlen & Hrest & Hkeep & Hcount & Hset) Hpost.
    destruct Hpost as (Hheap' & l & oh & Ei & Hpost).
    assert (Ei0 : markers_ s !! i = Some (l, oh)) by (rewrite <- Hrest by lia; exact Ei).
    assert (Hlt : i < length (markers_ cur)) by (eapply lookup_lt_Some; exact Ei).
    rewrite (take_S_r _ _ _ Ei0), List.filter_app, length_app.
    destruct oh as [h0 | ].
    { destruct Hpost as (-> & ->).
      split; [exact Hheap | ]. split; [exact Hlen | ]. split; [ | split; [ | split]].
      - intros j Hj. apply Hrest. lia.
      - exact Hkeep.
      - cbn. lia.
      - intros j l1 Hj E1.
        destruct (decide (j = i)) as [-> | Hne]; [congruence | ].
        apply (Hset j l1); [lia | exact E1]. }
    destruct Hpost as (m & n & Hm & _ & Huniq & Hns & Hpost).
    assert (Hmono : forall k n', namespaces_ cur !! k = Some (Some n') ->
                                 namespaces_ cur' !! k = Some (Some n')).
    { intros k n' Ek. rewrite Hns.
      destruct (decide (fromStdString (ns m) = k)) as [<- | Hne].
      - rewrite lookup_insert_eq. rewrite (Huniq n' Ek). reflexivity.
      - rewrite lookup_insert_ne by exact Hne. exact Ek. }
    assert (Hgap : is_gap s (l, None) = bool_decide (is_Some (marker_class (type m))))
      by (apply is_gap_None; rewrite <- Hheap; exact Hm).
    cbn [List.filter]. rewrite Hgap.
    destruct (marker_class (type m)) as [c | ] eqn:Eclass.
    + destruct Hpost as (p & _ & Hmk & Hhc & _).
      split; [congruence | ]. split; [rewrite Hmk, length_insert; exact Hlen | ].
      split; [ | split; [ | split]].
      * intros j Hj. rewrite Hmk, list_lookup_insert_ne by lia. apply Hrest. lia.
      * intros j l1 h1 E1. rewrite Hmk.
        destruct (decide (j = i)) as [-> | Hne]; [congruence | ].
        rewrite list_lookup_insert_ne by congruence. eapply Hkeep; eauto.
      * rewrite bool_decide_eq_true_2 by eauto. cbn [length]. lia.
      * intros j l1 Hj E1. rewrite Hmk in E1.
        destruct (decide (j = i)) as [-> | Hne].
        -- rewrite list_lookup_insert_eq in E1 by exact Hlt. discriminate.
        -- rewrite list_lookup_insert_ne in E1 by congruence.
           destruct (Hset j l1 ltac:(lia) E1) as (m1 & n1 & Hm1 & Hc1 & Hn1).
           exists m1, n1. rewrite Hheap'. auto.
    + destruct Hpost as (-> & Hmk & _ & Hhc).
      split; [congruence | ]. split; [rewrite Hmk; exact Hlen | ].
      split; [ | split; [ | split]].
      * intros j Hj. rewrite Hmk. apply Hrest. lia.
      * intros j l1 h1 E1. rewrite Hmk. eapply Hkeep; eauto.
      * rewrite bool_decide_eq_false_2 by (intros [? [=]]). cbn [length]. lia.
      * intros j l1 Hj E1. rewrite Hmk in E1.
        destruct (decide (j = i)) as [-> | Hne].
        -- rewrite Ei in E1. injection E1 as <-.
           exists m, n. rewrite Hheap', Hns, lookup_insert_eq. auto.
        -- destruct (Hset j l1 ltac:(lia) E1) as (m1 & n1 & Hm1 & Hc1 & Hn1).
           exists m1, n1. rewrite Hheap'. auto.
  - split; [reflexivity | ]. split; [reflexivity | ]. split; [reflexivity | ].
    split; [auto | ]. split; [rewrite take_0; cbn [List.filter length]; lia | ].
    intros j l Hj. lia.
  - destruct Hfinal as (Hheap & Hlen & _ & Hkeep & Hcount & Hset).
    split; [exact Hheap | ]. split; [exact Hlen | ]. split; [exact Hkeep | ].
    split.
    + rewrite Hcount. unfold gaps. rewrite firstn_all. reflexivity.
    + intros i l Ei. apply (Hset i l); [ | exact Ei].
      rewrite <- Hlen. eapply lookup_lt_Some. exact Ei.
Qed.

(** On a settled state the loop only reports the refused types again. *)
Lemma createMarkers_loop_settled debug ctx parent : forall n i lv s,
  settled s ->
  i + n = length (markers_ s) ->
  exists s', createMarkers_loop debug ctx parent n i lv s = Done lv s' /\
    markers_ s' = markers_ s /\ heap s' = heap s /\ namespaces_ s' = namespaces_ s /\
    scene_nodes s' = scene_nodes s /\
    handles_created s' = handles_created s /\ tf_lookups s' = tf_lookups s.
Proof.
  induction n as [ | n IH]; intros i lv s Hset Hlen.
  - exists s. repeat split.
  - cbn [createMarkers_loop].
    destruct (lookup_lt_is_Some_2 (markers_ s) i ltac:(lia)) as [[l oh] Ei].
    destruct oh as [h | ].
    + unfold bind at 1. rewrite (createMarkers_body_skip debug ctx parent i lv s l h Ei).
      apply IH; [exact Hset | lia].
    + destruct (Hset i l Ei) as (m & n0 & Hm & Hclass & Hns).
      unfold bind at 1.
      rewrite (createMarkers_body_settled debug ctx parent i lv s l m n0 Ei Hm Hclass Hns).
      apply (IH (S i) lv (set_console (fun c => c ++ [ErrorUnknownType (type m)]) s));
        [exact Hset | cbn; lia].
Qed.

(** ** The executable side conditions *)

Lemma frames_named_spec s :
  frames_named s = true ->
  forall i l oh m, markers_ s !! i = Some (l, oh) -> heap s !! l = Some (Some m) ->
                   frame_id m <> "".
Proof.
  unfold frames_named. intros Hall i l oh m Ei Hm.
  rewrite forallb_forall in Hall.
  specialize (Hall (l, oh)). cbn [fst] in Hall.
  rewrite (proj2 (stored_marker_of_Some _ _ _) Hm) in Hall.
  apply String.eqb_neq. apply negb_true_iff. apply Hall.
  apply list_elem_of_In. eapply list_elem_of_lookup_2. exact Ei.
Qed.

Lemma well_formedb_spec s : well_formedb s = true -> well_formed s.
Proof.
  unfold well_formedb, well_formed. intros Hall i l oh Ei.
  rewrite forallb_forall in Hall.
  specialize (Hall (l, oh)). cbn [fst] in Hall.
  assert (Hin : In (l, oh) (markers_ s))
    by (apply list_elem_of_In; eapply list_elem_of_lookup_2; exact Ei).
  specialize (Hall Hin).
  destruct (stored_marker_of (heap s) l) as [m | ] eqn:Hm; [ | discriminate].
  apply stored_marker_of_Some in Hm. exists m. split; [exact Hm | ].
  destruct (namespaces_ s !! fromStdString (ns m)) as [second | ]; [ | discriminate].
  split; [eauto | ]. apply String.eqb_neq. apply negb_true_iff. exact Hall.
Qed.

Lemma well_formedb_complete s : well_formed s -> well_formedb s = true.
Proof.
  unfold well_formedb, well_formed. intros Hwf.
  apply forallb_forall. intros [l oh] Hin. cbn [fst].
  apply list_elem_of_In, list_elem_of_lookup in Hin as (i & Ei).
  destruct (Hwf i l oh Ei) as (m & Hm & [second Hns] & Hf).
  rewrite (proj2 (stored_marker_of_Some _ _ _) Hm), Hns.
  apply negb_true_iff. apply String.eqb_neq. exact Hf.
Qed.

Lemma well_formedb_frames_named s : well_formedb s = true -> frames_named s = true.
Proof.
  unfold well_formedb, frames_named. rewrite !forallb_forall.
  intros Hall d Hd. specialize (Hall d Hd).
  destruct (stored_marker_of (heap s) d.1) as [m | ]; [ | reflexivity].
  destruct (namespaces_ s !! fromStdString (ns m)); [exact Hall | discriminate].
Qed.

(** ** Claims about [createMarkers] *)

Lemma placed_handle_placed_by ctx c n l m tm :
  placed_by ctx tm m
    (placed_handle ctx c n l m (conj_to_ogre (getRotation tm)) (vec_to_ogre (getOrigin tm))).
Proof. split; reflexivity. Qed.

(** In a debug build an iteration that finds the planning frame determined
    has passed the assertion of line 155. *)
Lemma createMarkers_body_checked ctx parent i lv s lv' s' l m :
  createMarkers_body true ctx parent i lv s = Done lv' s' ->
  markers_ s !! i = Some (l, None) ->
  heap s !! l = Some (Some m) ->
  is_Some (marker_class (type m)) ->
  string_empty (planning_frame lv) = false ->
  frame_id m = planning_frame lv.
Proof.
  unfold createMarkers_body. intros Hrun Ei Hm [c Hclass] Hne.
  apply bind_inv_Done in Hrun as (data & s0 & Hget & Hrun).
  injection Hget as <- <-. rewrite Ei in Hrun.
  apply bind_inv_Done in Hrun as (m0 & s0 & Hderef & Hrun).
  unfold deref in Hderef. rewrite Hm in Hderef. injection Hderef as <- <-.
  apply bind_inv_Done in Hrun as (n & s1 & Hnode & Hrun).
  apply bind_inv_Done in Hrun as (h & s2 & Hcreate & Hrun).
  apply bind_inv_Done in Hrun as ([] & s3 & Hset & Hrun).
  injection Hset as <-.
  apply createMarker_Done in Hcreate. rewrite Hclass in Hcreate.
  destruct Hcreate as (-> & ->).
  apply place_marker_Done in Hrun as (p & s4 & _ & Hdet & _).
  unfold determine_transform in Hdet. rewrite Hne in Hdet.
  revert Hdet. unfold_monad. cbn [andb].
  destruct (String.eqb_spec (frame_id m) (planning_frame lv)) as [E | _];
    [intros _; exact E | discriminate].
Qed.



(** C5, as the code has it.  In a call that returns, with no empty frame
    name among the stored markers, the transform is looked up at most once:
    not at all when the call gives no entry a handle, and exactly once
    otherwise, by the first lookup of the call, made at the first entry the
    call gives a handle, from the fixed frame to the frame named by the
    message of that entry, the planning frame; the rotation and translation
    of that one transform place every handle the call creates, and a debug
    build has checked that the message of each is in that frame. *)
Theorem C5_transform_looked_up_at_most_once debug ctx parent s s' :
  frames_named s = true ->
  createMarkers debug ctx parent s = Done tt s' ->
  (tf_lookups s' = tf_lookups s /\ markers_ s' = markers_ s) \/
  (tf_lookups s' = S (tf_lookups s) /\
   exists j lj mf hj tm,
     markers_ s !! j = Some (lj, None) /\
     stored_marker_of (heap s) lj = Some mf /\
     markers_ s' !! j = Some (lj, Some hj) /\
     (forall j', j' < j -> markers_ s' !! j' = markers_ s !! j') /\
     lookupTransform ctx (tf_lookups s) (getFixedFrame ctx) (frame_id mf) = Some tm /\
     forall i l h,
       markers_ s !! i = Some (l, None) -> markers_ s' !! i = Some (l, Some h) ->
       exists m, stored_marker_of (heap s) l = Some m /\
                 (debug = true -> frame_id m = frame_id mf) /\
                 placed_by ctx tm m h).
Proof.
  intros Hnamed Hrun.
  pose proof (frames_named_spec s Hnamed) as Hframes.
  pose (Inv := fun (i : nat) (lv : Locals) (cur : State) =>
    heap cur = heap s /\
    (forall j, i <= j -> markers_ cur !! j = markers_ s !! j) /\
    ((string_empty (planning_frame lv) = true /\ tf_lookups cur = tf_lookups s /\
      markers_ cur = markers_ s) \/
     (string_empty (planning_frame lv) = false /\ tf_lookups cur = S (tf_lookups s) /\
      exists j lj mf hj tm,
        j < i /\
        markers_ s !! j = Some (lj, None) /\ heap s !! lj = Some (Some mf) /\
        markers_ cur !! j = Some (lj, Some hj) /\
        (forall j', j' < j -> markers_ cur !! j' = markers_ s !! j') /\
        frame_id mf = planning_frame lv /\
        lookupTransform ctx (tf_lookups s) (getFixedFrame ctx) (frame_id mf) = Some tm /\
        quat lv = conj_to_ogre (getRotation tm) /\
        pos lv = Some (vec_to_ogre (getOrigin tm)) /\
        forall j1 l h, j1 < i ->
          markers_ s !! j1 = Some (l, None) -> markers_ cur !! j1 = Some (l, Some h) ->
          exists m, heap s !! l = Some (Some m) /\
                    (debug = true -> frame_id m = frame_id mf) /\
                    placed_by ctx tm m h))).
  destruct (createMarkers_inv debug ctx parent Inv s s') as (lv' & Hfinal);
    [ | | exact Hrun | ].
  - clear Hrun. subst Inv. cbn beta.
    intros i lv cur lv' cur' (Hheap & Hrest & Hcases) Hbody.
    pose proof (createMarkers_body_Done _ _ _ _ _ _ _ _ Hbody) as Hpost.
    destruct Hpost as (Hheap' & l & oh & Ei & Hpost).
    assert (Ei0 : markers_ s !! i = Some (l, oh)) by (rewrite <- Hrest by lia; exact Ei).
    assert (Hlen : i < length (markers_ cur)) by (eapply lookup_lt_Some; exact Ei).
    (* an iteration that leaves the entries and the locals as they are *)
    assert (Hidle : lv' = lv -> markers_ cur' = markers_ cur ->
                    tf_lookups cur' = tf_lookups cur ->
                    (forall l1 h1, markers_ s !! i = Some (l1, None) ->
                                   markers_ cur !! i = Some (l1, Some h1) -> False) ->
              (string_empty (planning_frame lv') = true /\ tf_lookups cur' = tf_lookups s /\
               markers_ cur' = markers_ s) \/
              (string_empty (planning_frame lv') = false /\
               tf_lookups cur' = S (tf_lookups s) /\
               exists j lj mf hj tm,
                 j < S i /\
                 markers_ s !! j = Some (lj, None) /\ heap s !! lj = Some (Some mf) /\
                 markers_ cur' !! j = Some (lj, Some hj) /\
                 (forall j', j' < j -> markers_ cur' !! j' = markers_ s !! j') /\
                 frame_id mf = planning_frame lv' /\
                 lookupTransform ctx (tf_lookups s) (getFixedFrame ctx) (frame_id mf)
                 = Some tm /\
                 quat lv' = conj_to_ogre (getRotation tm) /\
                 pos lv' = Some (vec_to_ogre (getOrigin tm)) /\
                 forall j1 l h, j1 < S i ->
                   markers_ s !! j1 = Some (l, None) ->
                   markers_ cur' !! j1 = Some (l, Some h) ->
                   exists m, heap s !! l = Some (Some m) /\
                             (debug = true -> frame_id m = frame_id mf) /\
                             placed_by ctx tm m h)).
    { intros -> Hmk Htf Hnot. rewrite Hmk, Htf.
      destruct Hcases as [Hc | (Hne & Htf1 & j & lj & mf & hj & tm & Hj & Ej & Hmf & Ehj
                                & Hbefore & Hfr & Htm & Hq & Hp & Hdone)];
        [left; exact Hc | right].
      split; [exact Hne | ]. split; [exact Htf1 | ].
      exists j, lj, mf, hj, tm. split; [lia | ].
      repeat (split; [assumption | ]).
      intros j1 l1 h1 Hj1 Hb Ha.
      destruct (decide (j1 = i)) as [-> | Hji]; [exfalso; eapply Hnot; eauto | ].
      apply (Hdone j1 l1 h1); [lia | exact Hb | exact Ha]. }
    destruct oh as [h0 | ].
    { destruct Hpost as (-> & ->). split; [exact Hheap | ]. split.
      - intros j Hj. apply Hrest. lia.
      - apply Hidle; try reflexivity. intros l1 h1 Hb _. congruence. }
    destruct Hpost as (m & n & Hm & _ & _ & _ & Hpost).
    rewrite Hheap in Hm.
    destruct (marker_class (type m)) as [c | ] eqn:Eclass.
    + destruct Hpost as (p & Epos & Hmk & _ & Htp).
      split; [congruence | ]. split.
      { intros j Hj. rewrite Hmk, list_lookup_insert_ne by lia. apply Hrest. lia. }
      right. unfold transform_post in Htp.
      destruct Hcases as [(Hempty & Htf & Hsame)
                         | (Hne & Htf & j & lj & mf & hj & tm & Hj & Ej & Hmf & Ehj
                            & Hbefore & Hfr & Htm & Hq & Hp & Hdone)].
      * rewrite Hempty in Htp. destruct Htp as (tm & Htm & -> & Htf').
        cbn [planning_frame quat pos] in *.
        split; [apply String.eqb_neq; eapply Hframes; eauto | ].
        split; [lia | ]. eexists i, l, m, _, tm. rewrite <- Htf.
        split; [lia | ]. split; [exact Ei0 | ]. split; [exact Hm | ].
        split; [rewrite Hmk; apply list_lookup_insert_eq; exact Hlen | ].
        split.
        { intros j' Hj'. rewrite Hmk, list_lookup_insert_ne by lia.
          rewrite Hsame. reflexivity. }
        split; [reflexivity | ]. split; [exact Htm | ].
        split; [reflexivity | ]. split; [reflexivity | ].
        intros j1 l1 h1 Hj1 Hb Ha.
        destruct (decide (j1 = i)) as [-> | Hji].
        -- rewrite Hmk, list_lookup_insert_eq in Ha by exact Hlen.
           injection Ha as <- <-. exists m. split; [exact Hm | ].
           split; [reflexivity | ].
           injection Epos as <-. apply placed_handle_placed_by.
        -- rewrite Hmk, list_lookup_insert_ne in Ha by congruence.
           rewrite Hsame in Ha. congruence.
      * rewrite Hne in Htp. destruct Htp as (-> & Htf').
        split; [exact Hne | ]. split; [lia | ]. exists j, lj, mf, hj, tm.
        split; [lia | ]. split; [exact Ej | ]. split; [exact Hmf | ].
        split; [rewrite Hmk, list_lookup_insert_ne by lia; exact Ehj | ].
        split.
        { intros j' Hj'. rewrite Hmk, list_lookup_insert_ne by lia. apply Hbefore. lia. }
        split; [exact Hfr | ]. split; [exact Htm | ].
        split; [exact Hq | ]. split; [exact Hp | ].
        intros j1 l1 h1 Hj1 Hb Ha.
        destruct (decide (j1 = i)) as [-> | Hji].
        -- rewrite Hmk, list_lookup_insert_eq in Ha by exact Hlen.
           injection Ha as <- <-. exists m. split; [exact Hm | ]. split.
           { intros ->. rewrite Hfr.
             apply (createMarkers_body_checked ctx parent i lv cur lv cur' l m Hbody Ei);
               [congruence | rewrite Eclass; eauto | exact Hne]. }
           rewrite Hq. assert (p = vec_to_ogre (getOrigin tm)) as -> by congruence.
           apply placed_handle_placed_by.
        -- rewrite Hmk, list_lookup_insert_ne in Ha by congruence.
           apply (Hdone j1 l1 h1); [lia | exact Hb | exact Ha].
    + destruct Hpost as (-> & Hmk & Htf' & _).
      split; [congruence | ]. split.
      { intros j Hj. rewrite Hmk. apply Hrest. lia. }
      apply Hidle; try assumption; try reflexivity.
      intros l1 h1 _ Ha. congruence.
  - subst Inv. cbn beta. split; [reflexivity | ]. split; [reflexivity | ]. left. auto.
  - subst Inv. cbn beta in Hfinal.
    destruct Hfinal as (Hheap & _ & [(_ & Htf & Hsame)
                                   | (_ & Htf & j & lj & mf & hj & tm & Hj & Ej & Hmf & Ehj
                                      & Hbefore & _ & Htm & _ & _ & Hdone)]).
    + left. auto.
    + right. split; [exact Htf | ]. exists j, lj, mf, hj, tm.
      split; [exact Ej | ]. split; [unfold stored_marker_of; rewrite Hmf; reflexivity | ].
      split; [exact Ehj | ]. split; [exact Hbefore | ]. split; [exact Htm | ].
      intros i l h Hb Ha.
      destruct (Hdone i l h (lookup_lt_Some _ _ _ Hb) Hb Ha) as (m & Hm & Hdbg & Hpl).
      exists m. unfold stored_marker_of. rewrite Hm. auto.
Qed.



(** ** Visibility of a namespace without a node *)

(** An entry whose node is null: both branches of [setVisibility] start by
    asking the node for its parent. *)
Lemma setVisible_null_node ns parent visible s :
  namespaces_ s !! ns = Some None ->
  setVisible ns parent visible s = Fault.
Proof.
  intros Hns. unfold setVisible, setVisibility, getParent. unfold_monad.
  rewrite Hns. destruct visible; reflexivity.
Qed.

(** ** Claims about visibility *)

(** C6, as the code has it.  [setVisible] returns at once, leaving the
    state as it is, when the namespace has no entry in the map. *)
Theorem C6_setVisible_absent_namespace ns parent visible s :
  namespaces_ s !! ns = None ->
  setVisible ns parent visible s = Done tt s.
Proof.
  intros Hns. unfold setVisible. unfold_monad. rewrite Hns. reflexivity.
Qed.

(** * Further properties of the code *)

(** ** The handle factory *)

Lemma marker_class_supported t :
  is_Some (marker_class t) <-> (0 <= t <= 11)%Z.
Proof.
  unfold marker_class, MarkerType.CUBE, MarkerType.CYLINDER, MarkerType.SPHERE,
    MarkerType.ARROW, MarkerType.LINE_STRIP, MarkerType.LINE_LIST,
    MarkerType.SPHERE_LIST, MarkerType.CUBE_LIST, MarkerType.POINTS,
    MarkerType.TEXT_VIEW_FACING, MarkerType.MESH_RESOURCE, MarkerType.TRIANGLE_LIST.
  repeat match goal with
         | |- context [Z.eqb t ?k] => destruct (Z.eqb_spec t k)
         end; cbn [orb]; split; intros Hs; try lia; eauto;
    destruct Hs as [? [=]].
Qed.

(** X1. The factory knows exactly the twelve marker types 0 to 11.  For
    one of them it constructs one handle under the given node and prints
    nothing; for any other number it constructs nothing, prints one error
    naming the number and returns the null handle.  It never throws. *)
Theorem createMarker_known_types t n s :
  if ((0 <=? t) && (t <=? 11))%Z
  then exists c,
      createMarker t (Some n) s
      = Done (Some (mkHandle c n None Vector3_ZERO Quaternion_IDENTITY))
             (set_handles_created S s)
  else createMarker t (Some n) s
       = Done None (set_console (fun c => c ++ [ErrorUnknownType t]) s).
Proof.
  unfold createMarker.
  destruct ((0 <=? t) && (t <=? 11))%Z eqn:E.
  - assert (Hr : (0 <= t <= 11)%Z) by lia.
    apply marker_class_supported in Hr as [c Hc]. rewrite Hc. exists c. reflexivity.
  - destruct (marker_class t) as [c | ] eqn:Hc; [ | reflexivity].
    assert (Hr : (0 <= t <= 11)%Z) by (apply marker_class_supported; eauto). lia.
Qed.

(** ** Showing and hiding a namespace *)

Lemma set_scene_nodes_id s g : g = scene_nodes s -> set_scene_nodes (fun _ => g) s = s.
Proof. intros ->. destruct s. reflexivity. Qed.

Lemma setVisible_attached ns n p s :
  namespaces_ s !! ns = Some (Some n) ->
  scene_nodes s !! n = Some (Some p) ->
  setVisible ns (Some p) true s = Done tt s.
Proof.
  intros Hns Hn. unfold setVisible, setVisibility, getParent, ptr_eqb. unfold_monad.
  rewrite Hns, Hn. rewrite bool_decide_eq_true_2 by reflexivity. reflexivity.
Qed.

Lemma setVisible_detached_show ns n p s :
  namespaces_ s !! ns = Some (Some n) ->
  scene_nodes s !! n = Some None ->
  setVisible ns (Some p) true s
  = Done tt (set_scene_nodes (fun g => <[n := Some p]> g) s).
Proof.
  intros Hns Hn. unfold setVisible, setVisibility, getParent, addChild, ptr_eqb.
  unfold_monad. rewrite Hns, Hn. rewrite bool_decide_eq_false_2 by discriminate.
  cbn [negb]. rewrite Hn. reflexivity.
Qed.

Lemma setVisible_detached_hide ns n parent s :
  namespaces_ s !! ns = Some (Some n) ->
  scene_nodes s !! n = Some None ->
  setVisible ns parent false s = Done tt s.
Proof.
  intros Hns Hn. unfold setVisible, setVisibility, getParent. unfold_monad.
  rewrite Hns, Hn. reflexivity.
Qed.

Lemma setVisible_attached_hide ns n q parent s :
  namespaces_ s !! ns = Some (Some n) ->
  scene_nodes s !! n = Some (Some q) ->
  setVisible ns parent false s
  = Done tt (set_scene_nodes (fun g => <[n := None]> g) s).
Proof.
  intros Hns Hn. unfold setVisible, setVisibility, getParent, removeChild. unfold_monad.
  rewrite Hns, Hn. reflexivity.
Qed.

(** X2. Showing a namespace whose node is detached, or already under the
    given parent, leaves the node under that parent and every other node
    and all other state as they were; showing it again changes nothing, so
    the node is never added twice. *)
Theorem setVisible_show_idempotent ns n p s :
  namespaces_ s !! ns = Some (Some n) ->
  scene_nodes s !! n = Some None \/ scene_nodes s !! n = Some (Some p) ->
  exists s1,
    setVisible ns (Some p) true s = Done tt s1 /\
    s1 = set_scene_nodes (fun g => <[n := Some p]> g) s /\
    scene_nodes s1 !! n = Some (Some p) /\
    setVisible ns (Some p) true s1 = Done tt s1.
Proof.
  intros Hns Hn.
  assert (Hlt : n < length (scene_nodes s))
    by (destruct Hn as [Hn | Hn]; eapply lookup_lt_Some; exact Hn).
  exists (set_scene_nodes (fun g => <[n := Some p]> g) s).
  assert (Hafter : scene_nodes (set_scene_nodes (fun g => <[n := Some p]> g) s) !! n
                   = Some (Some p))
    by (cbn; apply list_lookup_insert_eq; exact Hlt).
  split; [ | split; [reflexivity | split; [exact Hafter | ]]].
  - destruct Hn as [Hn | Hn].
    + apply setVisible_detached_show; assumption.
    + rewrite (setVisible_attached ns n p s Hns Hn). f_equal.
      unfold set_scene_nodes. rewrite (list_insert_id _ _ _ Hn). destruct s; reflexivity.
  - apply (setVisible_attached ns n); [exact Hns | exact Hafter].
Qed.

(** X3. Hiding a namespace whose node exists detaches the node from
    whatever parent it has, the parent argument is not looked at, and
    leaves everything else as it was; hiding it again changes nothing. *)
Theorem setVisible_hide_idempotent ns n parent s :
  namespaces_ s !! ns = Some (Some n) ->
  is_Some (scene_nodes s !! n) ->
  exists s1,
    setVisible ns parent false s = Done tt s1 /\
    s1 = set_scene_nodes (fun g => <[n := None]> g) s /\
    scene_nodes s1 !! n = Some None /\
    setVisible ns parent false s1 = Done tt s1.
Proof.
  intros Hns [q Hn].
  assert (Hlt : n < length (scene_nodes s)) by (eapply lookup_lt_Some; exact Hn).
  exists (set_scene_nodes (fun g => <[n := None]> g) s).
  assert (Hafter : scene_nodes (set_scene_nodes (fun g => <[n := None]> g) s) !! n
                   = Some None)
    by (cbn; apply list_lookup_insert_eq; exact Hlt).
  split; [ | split; [reflexivity | split; [exact Hafter | ]]].
  - destruct q as [q | ].
    + eapply setVisible_attached_hide; eassumption.
    + rewrite (setVisible_detached_hide ns n parent s Hns Hn). f_equal.
      unfold set_scene_nodes. rewrite (list_insert_id _ _ _ Hn). destruct s; reflexivity.
  - apply (setVisible_detached_hide ns n); [exact Hns | exact Hafter].
Qed.

(** X4. Showing a hidden namespace and hiding it again restores the state
    exactly, and so does hiding a namespace shown under [p] and showing it
    under [p] again. *)
Theorem setVisible_round_trip ns n p s :
  namespaces_ s !! ns = Some (Some n) ->
  (scene_nodes s !! n = Some None ->
   bind (setVisible ns (Some p) true) (fun _ => setVisible ns (Some p) false) s
   = Done tt s) /\
  (scene_nodes s !! n = Some (Some p) ->
   bind (setVisible ns (Some p) false) (fun _ => setVisible ns (Some p) true) s
   = Done tt s).
Proof.
  intros Hns. split; intros Hn.
  - unfold bind at 1. rewrite (setVisible_detached_show ns n p s Hns Hn).
    rewrite (setVisible_attached_hide ns n p (Some p));
      [ | exact Hns | cbn; apply list_lookup_insert_eq; eapply lookup_lt_Some; exact Hn].
    f_equal. unfold set_scene_nodes. cbn.
    rewrite list_insert_insert_eq, (list_insert_id _ _ _ Hn). destruct s; reflexivity.
  - unfold bind at 1. rewrite (setVisible_attached_hide ns n p (Some p) s Hns Hn).
    rewrite (setVisible_detached_show ns n p);
      [ | exact Hns | cbn; apply list_lookup_insert_eq; eapply lookup_lt_Some; exact Hn].
    f_equal. unfold set_scene_nodes. cbn.
    rewrite list_insert_insert_eq, (list_insert_id _ _ _ Hn). destruct s; reflexivity.
Qed.

(** X5. Whatever the arguments, [setVisible] touches nothing but the
    parent of the namespace's own node: when it returns or throws, the
    messages, the entries, the namespace map, the console and the counters
    are as before, no node is created, and every other node keeps its
    parent. *)
Theorem setVisible_touches_one_node ns parent visible s :
  match setVisible ns parent visible s with
  | Done _ s' | Thrown _ s' =>
      s' = set_scene_nodes (fun _ => scene_nodes s') s /\
      length (scene_nodes s') = length (scene_nodes s) /\
      forall n, namespaces_ s !! ns <> Some (Some n) ->
                scene_nodes s' !! n = scene_nodes s !! n
  | Aborted | Fault => True
  end.
Proof.
  assert (Hsame : s = set_scene_nodes (fun _ => scene_nodes s) s)
    by (symmetry; apply set_scene_nodes_id; reflexivity).
  unfold setVisible, setVisibility, getParent, addChild, removeChild, ptr_eqb.
  unfold_monad. destruct (namespaces_ s !! ns) as [[n0 | ] | ] eqn:Hns.
  - destruct visible.
    + destruct (scene_nodes s !! n0) as [q | ] eqn:Hn; [ | exact I].
      destruct (bool_decide (q = parent)); cbn [negb]; [auto | ].
      destruct parent as [p | ]; [ | exact I]. rewrite Hn.
      destruct q as [q | ]; [auto | ].
      cbn. split; [reflexivity | ]. split; [apply length_insert | ].
      intros n Hne. apply list_lookup_insert_ne. congruence.
    + destruct (scene_nodes s !! n0) as [[q | ] | ] eqn:Hn; [ | auto | exact I].
      cbn. split; [reflexivity | ]. split; [apply length_insert | ].
      intros n Hne. apply list_lookup_insert_ne. congruence.
  - destruct visible; exact I.
  - auto.
Qed.

(** ** More about the constructor *)

Lemma map_insert_new_lookup {V} (k k' : string) (v : V) (g : gmap string V) :
  map_insert_new k v g !! k'
  = match g !! k' with
    | Some x => Some x
    | None => if String.eqb k k' then Some v else None
    end.
Proof.
  unfold map_insert_new. destruct (String.eqb_spec k k') as [<- | Hne].
  - destruct (g !! k) eqn:E; [rewrite E; reflexivity | ].
    rewrite lookup_insert_eq. reflexivity.
  - destruct (g !! k) eqn:E.
    + destruct (g !! k'); reflexivity.
    + rewrite lookup_insert_ne by exact Hne. destruct (g !! k'); reflexivity.
Qed.

Lemma namespaces_step scene m s :
  namespaces_ (step_state scene m s)
  = if unknown_frame scene m then namespaces_ s
    else map_insert_new (fromStdString (ns m)) None (namespaces_ s).
Proof.
  unfold step_state. destruct (cell_of scene m) eqn:E.
  - destruct (unknown_frame scene m) eqn:U; [ | reflexivity].
    apply cell_of_None in U. congruence.
  - apply cell_of_None in E. rewrite E. reflexivity.
Qed.

Lemma namespaces_construct scene ms : forall s k,
  namespaces_ (construct_state scene ms s) !! k
  = match namespaces_ s !! k with
    | Some v => Some v
    | None => if namespace_used scene ms k then Some None else None
    end.
Proof.
  unfold namespace_used.
  induction ms as [ | m ms IH]; intros s k; cbn [construct_state fold_left existsb].
  - destruct (namespaces_ s !! k); reflexivity.
  - unfold construct_state in IH. rewrite IH, namespaces_step.
    destruct (unknown_frame scene m); cbn [negb andb orb]; [reflexivity | ].
    rewrite map_insert_new_lookup.
    destruct (namespaces_ s !! k); [reflexivity | ].
    destruct (String.eqb (fromStdString (ns m)) k); cbn [orb]; reflexivity.
Qed.

Lemma world_step scene m s :
  scene_nodes (step_state scene m s) = scene_nodes s /\
  handles_created (step_state scene m s) = handles_created s /\
  tf_lookups (step_state scene m s) = tf_lookups s.
Proof. unfold step_state. destruct (cell_of scene m); auto. Qed.

Lemma world_construct scene ms : forall s,
  scene_nodes (construct_state scene ms s) = scene_nodes s /\
  handles_created (construct_state scene ms s) = handles_created s /\
  tf_lookups (construct_state scene ms s) = tf_lookups s.
Proof.
  induction ms as [ | m ms IH]; intros s; cbn [construct_state fold_left]; [auto | ].
  unfold construct_state in IH.
  destruct (IH (step_state scene m s)) as (-> & -> & ->). apply world_step.
Qed.

(** The state the constructor leaves, once more, with the namespace map and
    the untouched parts of the world. *)
Lemma MarkerVisualization_new_state scene locs ms s :
  input_markers s locs ms ->
  exists s', MarkerVisualization_new locs scene s = Done tt s' /\
    heap s' = heap s ++ map (cell_of scene) ms /\
    markers_ s' = kept_entries scene (length (heap s)) ms /\
    (forall k, namespaces_ s' !! k = if namespace_used scene ms k then Some None else None) /\
    scene_nodes s' = scene_nodes s /\
    handles_created s' = handles_created s /\
    tf_lookups s' = tf_lookups s.
Proof.
  intros Hin. unfold MarkerVisualization_new.
  set (s0 := set_namespaces (fun _ => ∅) (set_markers (fun _ => []) s)).
  exists (construct_state scene ms s0).
  destruct (world_construct scene ms s0) as (Hsn & Hhc & Htf).
  split; [ | split; [ | split; [ | split; [ | split; [ | split]]]]].
  - unfold bind, modify. fold s0. apply for_each_constructor.
    apply input_markers_cells in Hin. exact Hin.
  - exact (heap_construct scene ms s0).
  - exact (markers_construct scene ms s0).
  - intros k. rewrite namespaces_construct. reflexivity.
  - exact Hsn.
  - exact Hhc.
  - exact Htf.
Qed.

Lemma namespace_used_spec scene ms k :
  namespace_used scene ms k = true <->
  exists m, In m ms /\ unknown_frame scene m = false /\ fromStdString (ns m) = k.
Proof.
  unfold namespace_used. rewrite existsb_exists. split.
  - intros (m & Hin & Hm). apply andb_true_iff in Hm as [U E].
    exists m. split; [exact Hin | ]. split; [apply negb_true_iff; exact U | ].
    apply String.eqb_eq. exact E.
  - intros (m & Hin & U & E). exists m. split; [exact Hin | ].
    rewrite U. cbn [negb andb]. apply String.eqb_eq. exact E.
Qed.

(** X6. Construction makes no render or scene object: it creates no scene
    node and attaches none, constructs no handle and asks tf nothing; every
    entry it stores has the null handle and every namespace it registers
    has the null node. *)
Theorem constructor_defers_rendering scene locs ms s :
  input_markers s locs ms ->
  exists s',
    MarkerVisualization_new locs scene s = Done tt s' /\
    scene_nodes s' = scene_nodes s /\
    handles_created s' = handles_created s /\
    tf_lookups s' = tf_lookups s /\
    Forall (fun d => d.2 = None) (markers_ s') /\
    forall k v, namespaces_ s' !! k = Some v -> v = None.
Proof.
  intros Hin.
  destruct (MarkerVisualization_new_state scene locs ms s Hin)
    as (s' & Hrun & _ & Hmk & Hns & Hsn & Hhc & Htf).
  exists s'. repeat (split; [assumption | ]). split.
  - apply Forall_forall. intros d Hd. rewrite Hmk in Hd.
    apply kept_entries_elem in Hd as (j & mj & -> & _). reflexivity.
  - intros k v Hk. rewrite Hns in Hk.
    destruct (namespace_used scene ms k); congruence.
Qed.

(** X7. The namespaces the constructor registers are exactly the
    namespaces of the markers it keeps: the namespace of a dropped marker
    is registered only if a kept marker shares it. *)
Theorem constructor_registers_kept_namespaces scene locs ms s :
  input_markers s locs ms ->
  exists s',
    MarkerVisualization_new locs scene s = Done tt s' /\
    forall k, is_Some (namespaces_ s' !! k) <->
              exists m, In m ms /\ unknown_frame scene m = false /\
                        fromStdString (ns m) = k.
Proof.
  intros Hin.
  destruct (MarkerVisualization_new_state scene locs ms s Hin)
    as (s' & Hrun & _ & _ & Hns & _).
  exists s'. split; [exact Hrun | ]. intros k.
  rewrite Hns, <- namespace_used_spec.
  destruct (namespace_used scene ms k); split; intros Hk;
    try reflexivity; try discriminate; eauto.
  destruct Hk as [? [=]].
Qed.

Lemma cell_of_reconcile scene m :
  unknown_frame scene m = false -> cell_of scene m = Some (reconcile scene m).
Proof.
  unfold cell_of, reconcile. intros ->. destruct (in_planning_frame scene m); reflexivity.
Qed.

Lemma stored_kept_entries scene ms : forall pre h,
  h = pre ++ map (cell_of scene) ms ->
  omap (fun d : nat * option Handle => stored_marker_of h d.1)
       (kept_entries scene (length pre) ms)
  = map (reconcile scene) (kept scene ms).
Proof.
  induction ms as [ | m ms IH]; intros pre h Hh; cbn [kept_entries kept List.filter map];
    [reflexivity | ].
  assert (Hrest : omap (fun d : nat * option Handle => stored_marker_of h d.1)
                       (kept_entries scene (S (length pre)) ms)
                  = map (reconcile scene) (kept scene ms)).
  { replace (S (length pre)) with (length (pre ++ [cell_of scene m]))
      by (rewrite length_app; cbn; lia).
    apply IH. rewrite Hh. cbn [map]. rewrite <- app_assoc. reflexivity. }
  rewrite omap_app, Hrest.
  destruct (unknown_frame scene m) eqn:U; cbn [negb]; [reflexivity | ].
  assert (Hcell : stored_marker_of h (length pre) = Some (reconcile scene m)).
  { unfold stored_marker_of. rewrite Hh, lookup_app_r, Nat.sub_diag by lia.
    cbn [map]. rewrite (cell_of_reconcile scene m U). reflexivity. }
  cbn [omap list_omap fst app]. rewrite Hcell. reflexivity.
Qed.

(** X8. The messages of the set, read in the order of its entries, are
    the kept markers of the input in the order of the input, each one as it
    was when it is in the planning frame and with composed pose and
    rewritten frame otherwise. *)
Theorem constructor_keeps_input_order scene locs ms s :
  input_markers s locs ms ->
  exists s',
    MarkerVisualization_new locs scene s = Done tt s' /\
    omap (stored_marker s') (markers_ s') = map (reconcile scene) (kept scene ms).
Proof.
  intros Hin.
  destruct (MarkerVisualization_new_state scene locs ms s Hin)
    as (s' & Hrun & Hheap & Hmk & _).
  exists s'. split; [exact Hrun | ]. rewrite Hmk.
  exact (stored_kept_entries scene ms (heap s) (heap s') Hheap).
Qed.

(** ** More about [createMarkers] *)


(** What one iteration does to the scene graph and to the namespace map:
    nothing, or it appends one detached node and registers it for the
    namespace of its entry, which had none. *)
Lemma createMarkers_body_nodes debug ctx parent i lv s lv' s' :
  createMarkers_body debug ctx parent i lv s = Done lv' s' ->
  (scene_nodes s' = scene_nodes s /\ namespaces_ s' = namespaces_ s) \/
  (exists l m,
     markers_ s !! i = Some (l, None) /\ heap s !! l = Some (Some m) /\
     namespaces_ s !! fromStdString (ns m) = Some None /\
     scene_nodes s' = scene_nodes s ++ [None] /\
     namespaces_ s'
     = <[fromStdString (ns m) := Some (length (scene_nodes s))]> (namespaces_ s)).
Proof.
  unfold createMarkers_body. intros Hrun.
  apply bind_inv_Done in Hrun as (data & s0 & Hget & Hrun).
  injection Hget as <- <-.
  destruct (markers_ s !! i) as [[l [h | ]] | ] eqn:Ei; [ | | discriminate].
  { injection Hrun as <- <-. left. auto. }
  apply bind_inv_Done in Hrun as (m & s0 & Hderef & Hrun).
  unfold deref in Hderef.
  destruct (heap s !! l) as [[m0 | ] | ] eqn:El; try discriminate.
  injection Hderef as <- <-.
  apply bind_inv_Done in Hrun as (n & s1 & Hnode & Hrun).
  apply bind_inv_Done in Hrun as (h & s2 & Hcreate & Hrun).
  apply bind_inv_Done in Hrun as ([] & s3 & Hset & Hrun).
  injection Hset as <-.
  apply createMarker_Done in Hcreate.
  assert (Hlater : scene_nodes s' = scene_nodes s1 /\ namespaces_ s' = namespaces_ s1).
  { destruct (marker_class (type m0)) as [c | ].
    - destruct Hcreate as (-> & ->).
      apply place_marker_Done in Hrun as (p & s4 & _ & Hdet & ->).
      apply determine_transform_Done in Hdet.
      destruct (string_empty (planning_frame lv)).
      + destruct Hdet as (tm & _ & _ & ->). auto.
      + destruct Hdet as (_ & ->). auto.
    - destruct Hcreate as (-> & ->). injection Hrun as <- <-. auto. }
  destruct Hlater as (-> & ->).
  apply namespace_node_Done in Hnode as [(_ & ->) | (E & _ & -> & ->)].
  - left. auto.
  - right. exists l, m0. auto.
Qed.

Lemma lookup_app_replicate {A} (g : list A) (k n : nat) (x : A) :
  length g <= n < length g + k -> (g ++ replicate k x) !! n = Some x.
Proof.
  intros Hn. rewrite lookup_app_r by lia. apply lookup_replicate_2. lia.
Qed.

(** What a returning call of [createMarkers] leaves as it was. *)
Lemma createMarkers_unchanged debug ctx parent s s' :
  createMarkers debug ctx parent s = Done tt s' ->
  heap s' = heap s /\
  map fst (markers_ s') = map fst (markers_ s) /\
  (exists k, scene_nodes s' = scene_nodes s ++ replicate k None) /\
  dom (namespaces_ s') = dom (namespaces_ s) /\
  (forall k n, namespaces_ s !! k = Some (Some n) -> namespaces_ s' !! k = Some (Some n)).
Proof.
  intros Hrun.
  pose (Inv := fun (i : nat) (lv : Locals) (cur : State) =>
    heap cur = heap s /\
    map fst (markers_ cur) = map fst (markers_ s) /\
    (exists k, scene_nodes cur = scene_nodes s ++ replicate k None) /\
    dom (namespaces_ cur) = dom (namespaces_ s) /\
    (forall k n, namespaces_ s !! k = Some (Some n) ->
                 namespaces_ cur !! k = Some (Some n))).
  destruct (createMarkers_inv debug ctx parent Inv s s') as (lv' & Hfinal);
    [ | | exact Hrun | exact Hfinal].
  - clear Hrun. subst Inv. cbn beta.
    intros i lv cur lv' cur' (Hheap & Hfst & (k & Hsn) & Hdom & Hkeep) Hbody.
    pose proof (createMarkers_body_nodes _ _ _ _ _ _ _ _ Hbody) as Hnodes.
    apply createMarkers_body_Done in Hbody.
    destruct Hbody as (Hheap' & l & oh & Ei & Hpost).
    split; [congruence | ]. split.
    { destruct oh as [h | ]; [destruct Hpost as (_ & ->); exact Hfst | ].
      destruct Hpost as (m & n & _ & _ & _ & _ & Hpost).
      destruct (marker_class (type m)) as [c | ].
      - destruct Hpost as (p & _ & -> & _).
        rewrite <- Hfst.
        change (map fst (<[i:=(l, Some (placed_handle ctx c n l m (quat lv') p))]>
                           (markers_ cur)))
          with (fst <$> <[i:=(l, Some (placed_handle ctx c n l m (quat lv') p))]>
                          (markers_ cur)).
        rewrite list_fmap_insert. cbn [fst]. apply list_insert_id.
        rewrite list_lookup_fmap, Ei. reflexivity.
      - destruct Hpost as (_ & -> & _). exact Hfst. }
    destruct Hnodes as [(-> & ->) | (l0 & m & _ & _ & Hnone & -> & ->)].
    + split; [eauto | ]. split; assumption.
    + split; [ | split].
      * exists (S k). rewrite Hsn, replicate_S_end, app_assoc. reflexivity.
      * rewrite dom_insert_lookup_L by eauto. exact Hdom.
      * intros k0 n0 Hk0. specialize (Hkeep k0 n0 Hk0).
        rewrite lookup_insert_ne; [exact Hkeep | ]. congruence.
  - subst Inv. cbn beta. split; [reflexivity | ]. split; [reflexivity | ].
    split; [exists 0; cbn; rewrite app_nil_r; reflexivity | ]. split; auto.
Qed.

(** X9. A call of [createMarkers] that returns has changed no message and
    has added, removed or reordered no entry.  It has re-parented no scene
    node: the nodes that existed are as they were and the new ones are
    detached.  It has added or removed no namespace and has left every
    namespace node that existed in place. *)
Theorem createMarkers_frame debug ctx parent s s' :
  createMarkers debug ctx parent s = Done tt s' ->
  heap s' = heap s /\
  map fst (markers_ s') = map fst (markers_ s) /\
  (exists k, scene_nodes s' = scene_nodes s ++ replicate k None) /\
  dom (namespaces_ s') = dom (namespaces_ s) /\
  (forall k n, namespaces_ s !! k = Some (Some n) -> namespaces_ s' !! k = Some (Some n)).
Proof. exact (createMarkers_unchanged debug ctx parent s s'). Qed.

Lemma nodes_pending_spec s :
  nodes_pending s = true -> forall k v, namespaces_ s !! k = Some v -> v = None.
Proof.
  unfold nodes_pending. rewrite forallb_forall. intros Hall k v Hk.
  specialize (Hall (k, v)). cbn [snd] in Hall.
  destruct v as [n | ]; [ | reflexivity].
  assert (Hin : In (k, Some n) (map_to_list (namespaces_ s)))
    by (apply list_elem_of_In, elem_of_map_to_list; exact Hk).
  specialize (Hall Hin). discriminate.
Qed.

Lemma handles_pending_spec s :
  handles_pending s = true -> forall i l oh, markers_ s !! i = Some (l, oh) -> oh = None.
Proof.
  unfold handles_pending. rewrite forallb_forall. intros Hall i l oh Ei.
  specialize (Hall (l, oh)). cbn [snd] in Hall.
  destruct oh as [h | ]; [ | reflexivity].
  assert (Hin : In (l, Some h) (markers_ s))
    by (apply list_elem_of_In; eapply list_elem_of_lookup_2; exact Ei).
  specialize (Hall Hin). discriminate.
Qed.

Lemma namespaces_used_spec s :
  namespaces_used s = true ->
  forall k, is_Some (namespaces_ s !! k) ->
    exists i l oh m, markers_ s !! i = Some (l, oh) /\ heap s !! l = Some (Some m) /\
                     fromStdString (ns m) = k.
Proof.
  unfold namespaces_used. rewrite forallb_forall. intros Hall k [v Hk].
  specialize (Hall (k, v)). cbn [fst] in Hall.
  assert (Hin : In (k, v) (map_to_list (namespaces_ s)))
    by (apply list_elem_of_In, elem_of_map_to_list; exact Hk).
  specialize (Hall Hin). apply existsb_exists in Hall as ([l oh] & Hd & Hm).
  cbn [fst] in Hm.
  destruct (stored_marker_of (heap s) l) as [m | ] eqn:E; [ | discriminate].
  apply stored_marker_of_Some in E. apply String.eqb_eq in Hm.
  apply list_elem_of_In, list_elem_of_lookup in Hd as (i & Ei).
  exists i, l, oh, m. auto.
Qed.

(** Every entry a returning call visits without a handle leaves its
    namespace with a node, and the handle it may have got hangs under it. *)
Lemma createMarkers_nodes_of_entries debug ctx parent s s' :
  createMarkers debug ctx parent s = Done tt s' ->
  forall i l m, markers_ s !! i = Some (l, None) -> heap s !! l = Some (Some m) ->
    exists n, namespaces_ s' !! fromStdString (ns m) = Some (Some n) /\
              forall l' h, markers_ s' !! i = Some (l', Some h) -> h_parent h = n.
Proof.
  intros Hrun.
  pose (Inv := fun (i : nat) (lv : Locals) (cur : State) =>
    heap cur = heap s /\
    (forall j, i <= j -> markers_ cur !! j = markers_ s !! j) /\
    (forall j l m, j < i ->
       markers_ s !! j = Some (l, None) -> heap s !! l = Some (Some m) ->
       exists n, namespaces_ cur !! fromStdString (ns m) = Some (Some n) /\
                 forall l' h, markers_ cur !! j = Some (l', Some h) -> h_parent h = n)).
  destruct (createMarkers_Done_inv debug ctx parent Inv s s') as (lv' & Hfinal);
    [ | | exact Hrun | ].
  - clear Hrun. subst Inv. cbn beta.
    intros i lv cur lv' cur' (Hheap & Hrest & Hdone) Hpost.
    destruct Hpost as (Hheap' & l & oh & Ei & Hpost).
    assert (Ei0 : markers_ s !! i = Some (l, oh)) by (rewrite <- Hrest by lia; exact Ei).
    assert (Hlt : i < length (markers_ cur)) by (eapply lookup_lt_Some; exact Ei).
    destruct oh as [h0 | ].
    { destruct Hpost as (-> & ->). split; [exact Hheap | ]. split.
      - intros j Hj. apply Hrest. lia.
      - intros j l1 m1 Hj Hb Hm1.
        destruct (decide (j = i)) as [-> | Hne]; [congruence | ].
        apply (Hdone j l1 m1); [lia | assumption | assumption]. }
    destruct Hpost as (m & n & Hm & _ & Huniq & Hns & Hpost).
    assert (Hmono : forall k n', namespaces_ cur !! k = Some (Some n') ->
                                 namespaces_ cur' !! k = Some (Some n')).
    { intros k n' Ek. rewrite Hns.
      destruct (decide (fromStdString (ns m) = k)) as [<- | Hne].
      - rewrite lookup_insert_eq. rewrite (Huniq n' Ek). reflexivity.
      - rewrite lookup_insert_ne by exact Hne. exact Ek. }
    assert (Hmk : markers_ cur' = markers_ cur \/
                  exists h, h_parent h = n /\ markers_ cur' = <[i := (l, Some h)]> (markers_ cur)).
    { destruct (marker_class (type m)) as [c | ].
      - destruct Hpost as (p & _ & Hmk & _). right. eexists. split; [ | exact Hmk]. reflexivity.
      - destruct Hpost as (_ & Hmk & _). left. exact Hmk. }
    split; [congruence | ]. split.
    { intros j Hj. destruct Hmk as [-> | (h & _ & ->)]; [apply Hrest; lia | ].
      rewrite list_lookup_insert_ne by lia. apply Hrest. lia. }
    intros j l1 m1 Hj Hb Hm1.
    destruct (decide (j = i)) as [-> | Hne].
    + assert (l1 = l) as -> by congruence.
      assert (m1 = m) as -> by congruence.
      exists n. split; [rewrite Hns; apply lookup_insert_eq | ].
      intros l' h' Ha. destruct Hmk as [Hmk | (h & Hp & Hmk)]; rewrite Hmk in Ha.
      * congruence.
      * rewrite list_lookup_insert_eq in Ha by exact Hlt. congruence.
    + destruct (Hdone j l1 m1 ltac:(lia) Hb Hm1) as (n1 & Hn1 & Hh1).
      exists n1. split; [apply Hmono; exact Hn1 | ].
      intros l' h' Ha. apply (Hh1 l' h').
      destruct Hmk as [Hmk | (h & Hp & Hmk)]; rewrite Hmk in Ha; [exact Ha | ].
      rewrite list_lookup_insert_ne in Ha by congruence. exact Ha.
  - subst Inv. cbn beta. split; [reflexivity | ]. split; [reflexivity | ].
    intros j l m Hj. lia.
  - destruct Hfinal as (_ & _ & Hdone). intros i l m Ei Hm.
    apply (Hdone i l m); [eapply lookup_lt_Some; exact Ei | exact Ei | exact Hm].
Qed.

(** X10. Handles are grouped by namespace: a handle that a returning call
    creates hangs under the node registered for the namespace of its
    message, so two handles of one namespace hang under one node. *)
Theorem createMarkers_groups_by_namespace debug ctx parent s s' i l m h :
  createMarkers debug ctx parent s = Done tt s' ->
  markers_ s !! i = Some (l, None) ->
  heap s !! l = Some (Some m) ->
  markers_ s' !! i = Some (l, Some h) ->
  namespaces_ s' !! fromStdString (ns m) = Some (Some (h_parent h)) /\
  forall j l2 m2 h2,
    markers_ s !! j = Some (l2, None) -> heap s !! l2 = Some (Some m2) ->
    markers_ s' !! j = Some (l2, Some h2) ->
    fromStdString (ns m2) = fromStdString (ns m) ->
    h_parent h2 = h_parent h.
Proof.
  intros Hrun Ei Hm Ea.
  destruct (createMarkers_nodes_of_entries debug ctx parent s s' Hrun i l m Ei Hm)
    as (n & Hn & Hh).
  rewrite (Hh l h Ea). split; [exact Hn | ].
  intros j l2 m2 h2 Ej Hm2 Ea2 Hkey.
  destruct (createMarkers_nodes_of_entries debug ctx parent s s' Hrun j l2 m2 Ej Hm2)
    as (n2 & Hn2 & Hh2).
  rewrite (Hh2 l2 h2 Ea2). rewrite Hkey in Hn2. congruence.
Qed.

(** The nodes a first call of [createMarkers] gives the namespaces. *)
Lemma createMarkers_fresh_nodes debug ctx parent s s' :
  handles_pending s = true ->
  nodes_pending s = true ->
  namespaces_used s = true ->
  createMarkers debug ctx parent s = Done tt s' ->
  forall k, is_Some (namespaces_ s' !! k) ->
    exists n,
      namespaces_ s' !! k = Some (Some n) /\
      length (scene_nodes s) <= n /\
      scene_nodes s' !! n = Some None /\
      forall k2, namespaces_ s' !! k2 = Some (Some n) -> k2 = k.
Proof.
  intros Hhp Hnp Hnu Hrun.
  pose proof (handles_pending_spec s Hhp) as Hnohandle.
  pose proof (nodes_pending_spec s Hnp) as Hnonode.
  pose proof (namespaces_used_spec s Hnu) as Hused.
  destruct (createMarkers_unchanged debug ctx parent s s' Hrun)
    as (_ & _ & _ & Hdom & _).
  (* the nodes in the map are new, within the graph, and one per namespace *)
  pose (Inv := fun (i : nat) (lv : Locals) (cur : State) =>
    length (scene_nodes s) <= length (scene_nodes cur) /\
    (forall n, length (scene_nodes s) <= n < length (scene_nodes cur) ->
               scene_nodes cur !! n = Some None) /\
    (forall k n, namespaces_ cur !! k = Some (Some n) ->
                 length (scene_nodes s) <= n < length (scene_nodes cur)) /\
    (forall k1 k2 n, namespaces_ cur !! k1 = Some (Some n) ->
                     namespaces_ cur !! k2 = Some (Some n) -> k1 = k2)).
  destruct (createMarkers_inv debug ctx parent Inv s s') as (lv' & Hfinal);
    [ | | exact Hrun | ].
  - clear Hrun. subst Inv. cbn beta.
    intros i lv cur lv' cur' (Hlen & Hdet & Hrange & Hinj) Hbody.
    apply createMarkers_body_nodes in Hbody
      as [(-> & ->) | (l0 & m & _ & _ & Hnone & -> & ->)]; [auto | ].
    rewrite length_app. cbn [length]. split; [lia | ]. split; [ | split].
    + intros n Hn. destruct (decide (n < length (scene_nodes cur))) as [Hlt | Hge].
      * rewrite lookup_app_l by exact Hlt. apply Hdet. lia.
      * replace n with (length (scene_nodes cur)) by lia. apply lookup_snoc_new.
    + intros k n Hk.
      destruct (decide (fromStdString (ns m) = k)) as [<- | Hne].
      * rewrite lookup_insert_eq in Hk. injection Hk as <-. lia.
      * rewrite lookup_insert_ne in Hk by exact Hne.
        specialize (Hrange k n Hk). lia.
    + intros k1 k2 n Hk1 Hk2.
      destruct (decide (fromStdString (ns m) = k1)) as [<- | Hne1];
        destruct (decide (fromStdString (ns m) = k2)) as [<- | Hne2]; [reflexivity | | | ].
      * rewrite lookup_insert_eq in Hk1. injection Hk1 as <-.
        rewrite lookup_insert_ne in Hk2 by exact Hne2.
        specialize (Hrange k2 _ Hk2). lia.
      * rewrite lookup_insert_eq in Hk2. injection Hk2 as <-.
        rewrite lookup_insert_ne in Hk1 by exact Hne1.
        specialize (Hrange k1 _ Hk1). lia.
      * rewrite lookup_insert_ne in Hk1 by exact Hne1.
        rewrite lookup_insert_ne in Hk2 by exact Hne2. eapply Hinj; eauto.
  - subst Inv. cbn beta. split; [lia | ]. split; [intros n Hn; lia | ]. split.
    + intros k n Hk. apply Hnonode in Hk. discriminate.
    + intros k1 k2 n Hk1. apply Hnonode in Hk1. discriminate.
  - destruct Hfinal as (_ & Hdet & Hrange & Hinj).
    intros k Hk.
    assert (Hk0 : is_Some (namespaces_ s !! k))
      by (apply elem_of_dom; rewrite <- Hdom; apply elem_of_dom; exact Hk).
    destruct (Hused k Hk0) as (i & l & oh & m & Ei & Hm & <-).
    rewrite (Hnohandle i l oh Ei) in Ei.
    destruct (createMarkers_nodes_of_entries debug ctx parent s s' Hrun i l m Ei Hm)
      as (n & Hn & _).
    exists n. split; [exact Hn | ].
    specialize (Hrange _ n Hn). split; [lia | ]. split; [apply Hdet; exact Hrange | ].
    intros k2 Hk2. eapply Hinj; eauto.
Qed.

(** X11. On a set as the constructor leaves it (no handle, no node, every
    namespace that of some entry) a returning call gives every namespace a
    node: a new one, detached, and of no other namespace.  This is what
    [addMarkers] asserts after the call. *)
Theorem createMarkers_gives_every_namespace_a_node debug ctx parent s s' :
  handles_pending s = true ->
  nodes_pending s = true ->
  namespaces_used s = true ->
  createMarkers debug ctx parent s = Done tt s' ->
  forall k, is_Some (namespaces_ s' !! k) ->
    exists n,
      namespaces_ s' !! k = Some (Some n) /\
      length (scene_nodes s) <= n /\
      scene_nodes s' !! n = Some None /\
      forall k2, namespaces_ s' !! k2 = Some (Some n) -> k2 = k.
Proof. exact (createMarkers_fresh_nodes debug ctx parent s s'). Qed.

(** ** When [createMarkers] returns *)

(** An entry of known type, in a registered namespace, with a frame name,
    while the locals are either fresh with the transform available or hold
    the transform of this frame: the iteration returns. *)
Lemma createMarkers_body_places debug ctx p i lv s l m c tm :
  markers_ s !! i = Some (l, None) ->
  heap s !! l = Some (Some m) ->
  marker_class (type m) = Some c ->
  is_Some (namespaces_ s !! fromStdString (ns m)) ->
  frame_id m <> "" ->
  (string_empty (planning_frame lv) = true /\
   lookupTransform ctx (tf_lookups s) (getFixedFrame ctx) (frame_id m) = Some tm) \/
  (planning_frame lv = frame_id m /\ is_Some (pos lv)) ->
  exists lv' s', createMarkers_body debug ctx (Some p) i lv s = Done lv' s'.
Proof.
  intros Ei Hm Hclass Hns Hframe Hlocals.
  destruct (namespace_node_returns debug p _ s Hns) as (n & s1 & Hnode).
  destruct (namespace_node_keeps _ _ _ _ _ _ Hnode) as (_ & _ & Htf).
  unfold createMarkers_body.
  unfold bind at 1. unfold gets at 1. rewrite Ei.
  unfold bind at 1. unfold deref at 1. rewrite Hm.
  unfold bind at 1. rewrite Hnode.
  unfold createMarker. rewrite Hclass.
  unfold place_marker, determine_transform.
  pose proof Hframe as Hne. apply String.eqb_neq in Hne.
  unfold string_empty. rewrite Hne.
  destruct Hlocals as [(Hempty & Hlookup) | (Hsame & [q Hpos])].
  - unfold string_empty in Hempty. rewrite Hempty.
    unfold_monad. state_simpl. cbn [negb]. rewrite andb_false_r. state_simpl.
    rewrite Htf, Hlookup. cbn [pos]. eauto.
  - rewrite Hsame, Hne, String.eqb_refl.
    unfold_monad. state_simpl. cbn [negb]. rewrite !andb_false_r. state_simpl.
    rewrite Hpos. eauto.
Qed.

Lemma body_post_entries ctx i lv s lv' s' :
  body_post ctx i lv s lv' s' ->
  length (markers_ s') = length (markers_ s) /\
  forall j l oh', markers_ s' !! j = Some (l, oh') ->
                  exists oh, markers_ s !! j = Some (l, oh).
Proof.
  intros (_ & l & oh & Ei & Hpost).
  destruct oh as [h | ]; [destruct Hpost as (_ & ->); eauto | ].
  destruct Hpost as (m & n & _ & _ & _ & _ & Hpost).
  destruct (marker_class (type m)) as [c | ].
  - destruct Hpost as (p & _ & -> & _). split; [apply length_insert | ].
    intros j l1 oh' Ej. destruct (decide (j = i)) as [-> | Hne].
    + rewrite list_lookup_insert_eq in Ej by (eapply lookup_lt_Some; exact Ei).
      injection Ej as <- <-. eauto.
    + rewrite list_lookup_insert_ne in Ej by congruence. eauto.
  - destruct Hpost as (_ & -> & _). eauto.
Qed.

Lemma body_post_namespaces ctx i lv s lv' s' k :
  body_post ctx i lv s lv' s' ->
  is_Some (namespaces_ s !! k) -> is_Some (namespaces_ s' !! k).
Proof.
  intros (_ & l & oh & Ei & Hpost) Hk.
  destruct oh as [h | ]; [destruct Hpost as (_ & ->); exact Hk | ].
  destruct Hpost as (m & n & _ & _ & _ & -> & _).
  destruct (decide (fromStdString (ns m) = k)) as [<- | Hne].
  - rewrite lookup_insert_eq. eauto.
  - rewrite lookup_insert_ne by exact Hne. exact Hk.
Qed.

Lemma body_post_well_formed ctx i lv s lv' s' :
  body_post ctx i lv s lv' s' -> well_formed s -> well_formed s'.
Proof.
  intros Hpost Hwf j l oh' Ej.
  destruct (body_post_entries _ _ _ _ _ _ Hpost) as (_ & Hent).
  destruct (Hent j l oh' Ej) as (oh & Ej0).
  destruct (Hwf j l oh Ej0) as (m & Hm & Hns & Hf).
  exists m. destruct Hpost as (Hheap & Hrest). rewrite Hheap.
  split; [exact Hm | ]. split; [ | exact Hf].
  eapply body_post_namespaces; [ | exact Hns]. split; [exact Hheap | exact Hrest].
Qed.

(** Every stored message is in frame [F]. *)
Lemma uniform_frame_spec F s :
  uniform_frame F s = true ->
  forall i l oh m, markers_ s !! i = Some (l, oh) -> heap s !! l = Some (Some m) ->
                   frame_id m = F.
Proof.
  unfold uniform_frame. rewrite forallb_forall. intros Hall i l oh m Ei Hm.
  specialize (Hall (l, oh)). cbn [fst] in Hall.
  rewrite (proj2 (stored_marker_of_Some _ _ _) Hm) in Hall.
  apply String.eqb_eq. apply Hall.
  apply list_elem_of_In. eapply list_elem_of_lookup_2. exact Ei.
Qed.

Lemma createMarkers_loop_returns debug ctx p F tm s0 : forall n i lv cur,
  well_formed cur ->
  heap cur = heap s0 ->
  (forall j l oh m, markers_ s0 !! j = Some (l, oh) -> heap s0 !! l = Some (Some m) ->
                    frame_id m = F) ->
  lookupTransform ctx (tf_lookups s0) (getFixedFrame ctx) F = Some tm ->
  i + n = length (markers_ cur) ->
  (forall j, i <= j -> markers_ cur !! j = markers_ s0 !! j) ->
  ((string_empty (planning_frame lv) = true /\ tf_lookups cur = tf_lookups s0) \/
   (planning_frame lv = F /\ quat lv = conj_to_ogre (getRotation tm) /\
    pos lv = Some (vec_to_ogre (getOrigin tm)))) ->
  (forall j l m, j < i -> markers_ s0 !! j = Some (l, None) ->
     heap s0 !! l = Some (Some m) -> is_Some (marker_class (type m)) ->
     exists h, markers_ cur !! j = Some (l, Some h) /\ placed_by ctx tm m h) ->
  exists lv' s',
    createMarkers_loop debug ctx (Some p) n i lv cur = Done lv' s' /\
    forall j l m, j < i + n -> markers_ s0 !! j = Some (l, None) ->
      heap s0 !! l = Some (Some m) -> is_Some (marker_class (type m)) ->
      exists h, markers_ s' !! j = Some (l, Some h) /\ placed_by ctx tm m h.
Proof.
  induction n as [ | n IH];
    intros i lv cur Hwf Hheap Hunif Htm Hlen Hrest Hlocals Hdone.
  - exists lv, cur. split; [reflexivity | ]. rewrite Nat.add_0_r. exact Hdone.
  - cbn [createMarkers_loop].
    destruct (lookup_lt_is_Some_2 (markers_ cur) i ltac:(lia)) as [[l oh] Ei].
    assert (Ei0 : markers_ s0 !! i = Some (l, oh)) by (rewrite <- Hrest by lia; exact Ei).
    destruct (Hwf i l oh Ei) as (m & Hm & Hns & Hframe).
    assert (Hm0 : heap s0 !! l = Some (Some m)) by (rewrite <- Hheap; exact Hm).
    assert (HF : frame_id m = F) by (eapply Hunif; eauto).
    assert (Hbody : exists lv1 s1,
               createMarkers_body debug ctx (Some p) i lv cur = Done lv1 s1).
    { destruct oh as [h | ].
      - exists lv, cur. eapply createMarkers_body_skip. exact Ei.
      - destruct (marker_class (type m)) as [c | ] eqn:Eclass.
        + eapply (createMarkers_body_places debug ctx p i lv cur l m c tm); eauto.
          destruct Hlocals as [(Hempty & Htf) | (Hpf & _ & Hpos)].
          * left. split; [exact Hempty | ]. rewrite Htf, HF. exact Htm.
          * right. split; [congruence | ]. rewrite Hpos. eauto.
        + destruct (createMarkers_body_unknown_type debug ctx p i lv cur l m
                      Ei Hm Eclass Hns) as (s1 & Hs1).
          eauto. }
    destruct Hbody as (lv1 & s1 & Hbody).
    unfold bind at 1. rewrite Hbody.
    apply createMarkers_body_Done in Hbody.
    pose proof (body_post_well_formed _ _ _ _ _ _ Hbody Hwf) as Hwf1.
    destruct (body_post_entries _ _ _ _ _ _ Hbody) as (Hlen1 & _).
    destruct Hbody as (Hheap1 & l' & oh' & Ei' & Hpost).
    rewrite Ei in Ei'. injection Ei' as <- <-.
    assert (Hlt : i < length (markers_ cur)) by lia.
    replace (i + S n) with (S i + n) by lia.
    destruct oh as [h | ].
    { destruct Hpost as (-> & ->).
      apply IH; try assumption; try lia.
      - intros j Hj. apply Hrest. lia.
      - intros j l1 m1 Hj Hb Hm1 Hc1.
        destruct (decide (j = i)) as [-> | Hne]; [congruence | ].
        apply Hdone; try assumption. lia. }
    destruct Hpost as (m' & n0 & Hm' & _ & _ & _ & Hpost).
    assert (m' = m) as -> by congruence.
    destruct (marker_class (type m)) as [c | ] eqn:Eclass.
    + destruct Hpost as (q & Epos & Hmk & _ & Htp).
      assert (Hlv1 : planning_frame lv1 = F /\ quat lv1 = conj_to_ogre (getRotation tm) /\
                     pos lv1 = Some (vec_to_ogre (getOrigin tm))).
      { unfold transform_post in Htp.
        destruct Hlocals as [(Hempty & Htf) | (Hpf & Hq & Hpos)].
        - rewrite Hempty in Htp. destruct Htp as (tm' & Htm' & -> & _).
          rewrite Htf, HF, Htm in Htm'. injection Htm' as <-. auto.
        - assert (Hne : string_empty (planning_frame lv) = false)
            by (apply String.eqb_neq; congruence).
          rewrite Hne in Htp. destruct Htp as (-> & _). auto. }
      destruct Hlv1 as (Hpf1 & Hq1 & Hpos1).
      apply IH; try assumption; try lia.
      * congruence.
      * intros j Hj. rewrite Hmk, list_lookup_insert_ne by lia. apply Hrest. lia.
      * right. auto.
      * intros j l1 m1 Hj Hb Hm1 Hc1.
        destruct (decide (j = i)) as [-> | Hne].
        -- assert (l1 = l) as -> by congruence.
           assert (m1 = m) as -> by congruence.
           eexists. split; [rewrite Hmk; apply list_lookup_insert_eq; exact Hlt | ].
           rewrite Hq1. assert (q = vec_to_ogre (getOrigin tm)) as -> by congruence.
           apply placed_handle_placed_by.
        -- rewrite Hmk, list_lookup_insert_ne by congruence.
           apply Hdone; try assumption. lia.
    + destruct Hpost as (-> & Hmk & Htf1 & _).
      apply IH; try assumption; try lia.
      * congruence.
      * intros j Hj. rewrite Hmk. apply Hrest. lia.
      * rewrite Htf1. exact Hlocals.
      * intros j l1 m1 Hj Hb Hm1 Hc1. rewrite Hmk.
        destruct (decide (j = i)) as [-> | Hne].
        -- assert (l1 = l) as -> by congruence.
           assert (m1 = m) as -> by congruence.
           rewrite Eclass in Hc1. destruct Hc1 as [? [=]].
        -- apply Hdone; try assumption. lia.
Qed.

Lemma createMarkers_returns_placed debug ctx p F tm s :
  well_formed s ->
  (forall j l oh m, markers_ s !! j = Some (l, oh) -> heap s !! l = Some (Some m) ->
                    frame_id m = F) ->
  lookupTransform ctx (tf_lookups s) (getFixedFrame ctx) F = Some tm ->
  exists s',
    createMarkers debug ctx (Some p) s = Done tt s' /\
    forall i l m, markers_ s !! i = Some (l, None) -> heap s !! l = Some (Some m) ->
      is_Some (marker_class (type m)) ->
      exists h, markers_ s' !! i = Some (l, Some h) /\ placed_by ctx tm m h.
Proof.
  intros Hwf Hunif Htm.
  destruct (createMarkers_loop_returns debug ctx p F tm s (length (markers_ s)) 0
              init_locals s) as (lv' & s' & Hloop & Hdone); try assumption; try reflexivity.
  { left. auto. }
  { intros j l m Hj. lia. }
  exists s'. split.
  - unfold createMarkers. unfold bind at 1. unfold gets.
    unfold bind. rewrite Hloop. reflexivity.
  - intros i l m Ei Hm Hc. apply Hdone; try assumption.
    cbn. eapply lookup_lt_Some. exact Ei.
Qed.




(** ** When [createMarkers] throws *)

Lemma bind_inv_Thrown {A B} (m : M A) (k : A -> M B) s e s' :
  bind m k s = Thrown e s' ->
  m s = Thrown e s' \/ exists a s1, m s = Done a s1 /\ k a s1 = Thrown e s'.
Proof.
  unfold bind. destruct (m s) as [a s1 | e1 s1 | | ] eqn:E; try discriminate.
  - intros Hk. right. exists a, s1. auto.
  - intros [= <- <-]. left. reflexivity.
Qed.

Lemma namespace_node_not_Thrown debug parent key s e s' :
  namespace_node debug parent key s <> Thrown e s'.
Proof.
  unfold namespace_node, createSceneNode. unfold_monad.
  destruct (namespaces_ s !! key) as [[n | ] | ]; destruct debug; cbn;
    try discriminate; destruct parent; discriminate.
Qed.

Lemma createMarker_not_Thrown t node s e s' : createMarker t node s <> Thrown e s'.
Proof.
  unfold createMarker. destruct (marker_class t); [destruct node | ];
    unfold_monad; discriminate.
Qed.

Lemma determine_transform_Thrown debug ctx m lv s e s' :
  determine_transform debug ctx m lv s = Thrown e s' ->
  e = TransformException /\
  string_empty (planning_frame lv) = true /\
  lookupTransform ctx (tf_lookups s) (getFixedFrame ctx) (frame_id m) = None /\
  s' = set_tf_lookups S s.
Proof.
  unfold determine_transform. destruct (string_empty (planning_frame lv)).
  - unfold_monad. state_simpl.
    destruct (lookupTransform ctx (tf_lookups s) (getFixedFrame ctx) (frame_id m));
      [discriminate | ].
    intros [= <- <-]. auto.
  - unfold_monad.
    destruct (debug && negb (String.eqb (frame_id m) (planning_frame lv))); discriminate.
Qed.

Lemma place_marker_Thrown debug ctx i first m h0 lv s e s' :
  place_marker debug ctx i first m h0 lv s = Thrown e s' ->
  e = TransformException /\
  lookupTransform ctx (tf_lookups s) (getFixedFrame ctx) (frame_id m) = None /\
  s' = set_tf_lookups S
         (set_markers (fun ms => <[i := (first, Some (setMessage ctx first m h0))]> ms) s).
Proof.
  unfold place_marker. intros Hrun.
  apply bind_inv_Thrown in Hrun as [Hrun | ([] & s1 & Hset & Hrun)]; [discriminate | ].
  injection Hset as <-.
  apply bind_inv_Thrown in Hrun as [Hrun | ([] & s2 & Hassert & Hrun)].
  { unfold Q_ASSERT in Hrun.
    destruct (debug && negb (negb (string_empty (frame_id m)))); discriminate. }
  unfold Q_ASSERT in Hassert.
  destruct (debug && negb (negb (string_empty (frame_id m)))); [discriminate | ].
  injection Hassert as <-.
  apply bind_inv_Thrown in Hrun as [Hrun | (lv1 & s3 & Hdet & Hrun)].
  - apply determine_transform_Thrown in Hrun as (-> & _ & Hlookup & ->). auto.
  - apply bind_inv_Thrown in Hrun as [Hrun | ([] & s4 & Hset & Hrun)]; [discriminate | ].
    destruct (pos lv1); [ | discriminate].
    apply bind_inv_Thrown in Hrun as [Hrun | ([] & s5 & Hset5 & Hrun)]; discriminate.
Qed.

(** The only exception of an iteration is that of the lookup; it leaves
    the entry with the handle as [setMessage] initialised it. *)
Lemma createMarkers_body_Thrown debug ctx parent i lv s e s' :
  createMarkers_body debug ctx parent i lv s = Thrown e s' ->
  e = TransformException /\
  heap s' = heap s /\
  exists l m h,
    markers_ s !! i = Some (l, None) /\ heap s !! l = Some (Some m) /\
    lookupTransform ctx (tf_lookups s) (getFixedFrame ctx) (frame_id m) = None /\
    markers_ s' = <[i := (l, Some h)]> (markers_ s) /\
    h_position h = fst (setMessage_pose ctx m) /\
    h_orientation h = snd (setMessage_pose ctx m).
Proof.
  unfold createMarkers_body. intros Hrun.
  apply bind_inv_Thrown in Hrun as [Hrun | (data & s0 & Hget & Hrun)]; [discriminate | ].
  injection Hget as <- <-.
  destruct (markers_ s !! i) as [[l [h | ]] | ] eqn:Ei; try discriminate.
  apply bind_inv_Thrown in Hrun as [Hrun | (m & s0 & Hderef & Hrun)].
  { unfold deref in Hrun. destruct (heap s !! l) as [[? | ] | ]; discriminate. }
  unfold deref in Hderef.
  destruct (heap s !! l) as [[m0 | ] | ] eqn:El; try discriminate.
  injection Hderef as <- <-.
  apply bind_inv_Thrown in Hrun as [Hrun | (n & s1 & Hnode & Hrun)].
  { exfalso. eapply namespace_node_not_Thrown. exact Hrun. }
  destruct (namespace_node_keeps _ _ _ _ _ _ Hnode) as (Hheap1 & Hmk1 & Htf1).
  apply bind_inv_Thrown in Hrun as [Hrun | (h & s2 & Hcreate & Hrun)].
  { exfalso. eapply createMarker_not_Thrown. exact Hrun. }
  apply createMarker_Done in Hcreate.
  apply bind_inv_Thrown in Hrun as [Hrun | ([] & s3 & Hset & Hrun)]; [discriminate | ].
  injection Hset as <-.
  destruct (marker_class (type m0)) as [c | ].
  - destruct Hcreate as (-> & ->).
    apply place_marker_Thrown in Hrun as (-> & Hlookup & ->).
    revert Hlookup. state_simpl. rewrite Htf1. intros Hlookup.
    split; [reflexivity | ]. split; [exact Hheap1 | ].
    exists l, m0. eexists. split; [reflexivity | ]. split; [exact El | ].
    split; [exact Hlookup | ]. split.
    + rewrite Hmk1, list_insert_insert_eq. reflexivity.
    + split; reflexivity.
  - destruct Hcreate as (-> & ->). discriminate.
Qed.

Lemma createMarkers_loop_Thrown debug ctx parent (Inv : nat -> Locals -> State -> Prop) :
  (forall i lv s lv' s', Inv i lv s ->
     createMarkers_body debug ctx parent i lv s = Done lv' s' -> Inv (S i) lv' s') ->
  forall n i lv s e s',
    Inv i lv s ->
    createMarkers_loop debug ctx parent n i lv s = Thrown e s' ->
    exists j lvj sj, Inv j lvj sj /\
      createMarkers_body debug ctx parent j lvj sj = Thrown e s'.
Proof.
  intros Hstep. induction n as [ | n IH]; intros i lv s e s' Hinv Hrun; [discriminate | ].
  cbn [createMarkers_loop] in Hrun.
  apply bind_inv_Thrown in Hrun as [Hrun | (lv1 & s1 & Hbody & Hrun)].
  - exists i, lv, s. auto.
  - eapply IH; [ | exact Hrun]. eapply Hstep; eauto.
Qed.

(** The skipping of entries that have a handle, for one entry. *)
Lemma createMarkers_keeps_handle debug ctx parent s s' i l h :
  createMarkers debug ctx parent s = Done tt s' ->
  markers_ s !! i = Some (l, Some h) ->
  markers_ s' !! i = Some (l, Some h).
Proof.
  intros Hrun Ei.
  destruct (createMarkers_first_call debug ctx parent s s' Hrun) as (_ & _ & Hkeep & _).
  apply Hkeep. exact Ei.
Qed.

(** X14. When [createMarkers] ends with an exception, it is the one of
    the lookup, and the messages are untouched.  The entry that was being
    placed keeps the handle it had just been given, with the pose that
    [setMessage] set and not the pose relative to the planning frame; and
    since it now has a handle, every later call that returns skips it and
    leaves it with that pose. *)
Theorem createMarkers_failed_lookup_leaves_unplaced_handle debug ctx parent s e s' :
  createMarkers debug ctx parent s = Thrown e s' ->
  e = TransformException /\
  heap s' = heap s /\
  exists i l m h,
    markers_ s !! i = Some (l, None) /\
    heap s !! l = Some (Some m) /\
    markers_ s' !! i = Some (l, Some h) /\
    h_position h = fst (setMessage_pose ctx m) /\
    h_orientation h = snd (setMessage_pose ctx m) /\
    forall debug2 ctx2 parent2 s2,
      createMarkers debug2 ctx2 parent2 s' = Done tt s2 ->
      markers_ s2 !! i = Some (l, Some h).
Proof.
  intros Hrun. unfold createMarkers in Hrun.
  apply bind_inv_Thrown in Hrun as [Hrun | (n & s0 & Hget & Hrun)]; [discriminate | ].
  injection Hget as <- <-.
  apply bind_inv_Thrown in Hrun as [Hrun | (lv' & s1 & _ & Hrun)]; [ | discriminate].
  pose (Inv := fun (i : nat) (lv : Locals) (cur : State) =>
    heap cur = heap s /\ forall j, i <= j -> markers_ cur !! j = markers_ s !! j).
  destruct (createMarkers_loop_Thrown debug ctx parent Inv) with
    (n := length (markers_ s)) (i := 0) (lv := init_locals) (s := s) (e := e) (s' := s')
    as (j & lvj & sj & (Hheap & Hrest) & Hbody).
  - subst Inv. cbn beta. intros i lv cur lv1 cur1 (Hheap & Hrest) Hbody.
    apply createMarkers_body_Done in Hbody.
    destruct Hbody as (Hheap1 & l & oh & Ei & Hpost).
    split; [congruence | ]. intros k Hk.
    destruct oh as [h | ]; [destruct Hpost as (_ & ->); apply Hrest; lia | ].
    destruct Hpost as (m & n & _ & _ & _ & _ & Hpost).
    destruct (marker_class (type m)) as [c | ].
    + destruct Hpost as (p & _ & -> & _).
      rewrite list_lookup_insert_ne by lia. apply Hrest. lia.
    + destruct Hpost as (_ & -> & _). apply Hrest. lia.
  - subst Inv. cbn beta. auto.
  - exact Hrun.
  - apply createMarkers_body_Thrown in Hbody
      as (-> & Hheap' & l & m & h & Ej & Hm & _ & Hmk & Hp & Ho).
    split; [reflexivity | ]. split; [congruence | ].
    assert (Eafter : markers_ s' !! j = Some (l, Some h))
      by (rewrite Hmk; apply list_lookup_insert_eq; eapply lookup_lt_Some; exact Ej).
    exists j, l, m, h.
    split; [rewrite <- Hrest by lia; exact Ej | ].
    split; [rewrite <- Hheap; exact Hm | ].
    split; [exact Eafter | ]. split; [exact Hp | ]. split; [exact Ho | ].
    intros debug2 ctx2 parent2 s2 Hrun2.
    eapply createMarkers_keeps_handle; eauto.
Qed.

(** ** What [createMarkers] prints *)

Lemma createMarkers_body_console debug ctx parent i lv s lv' s' :
  createMarkers_body debug ctx parent i lv s = Done lv' s' ->
  exists d, markers_ s !! i = Some d /\
            console s' = console s ++ refusal s d /\
            warn_once_hit s' = warn_once_hit s.
Proof.
  unfold createMarkers_body. intros Hrun.
  apply bind_inv_Done in Hrun as (data & s0 & Hget & Hrun).
  injection Hget as <- <-.
  destruct (markers_ s !! i) as [[l [h | ]] | ] eqn:Ei; [ | | discriminate].
  { injection Hrun as <- <-. exists (l, Some h). split; [reflexivity | ].
    cbn. rewrite app_nil_r. auto. }
  apply bind_inv_Done in Hrun as (m & s0 & Hderef & Hrun).
  unfold deref in Hderef.
  destruct (heap s !! l) as [[m0 | ] | ] eqn:El; try discriminate.
  injection Hderef as <- <-.
  apply bind_inv_Done in Hrun as (n & s1 & Hnode & Hrun).
  apply bind_inv_Done in Hrun as (h & s2 & Hcreate & Hrun).
  apply bind_inv_Done in Hrun as ([] & s3 & Hset & Hrun).
  injection Hset as <-.
  apply createMarker_Done in Hcreate.
  assert (Hs1 : console s1 = console s /\ warn_once_hit s1 = warn_once_hit s)
    by (apply namespace_node_Done in Hnode as [(_ & ->) | (_ & _ & _ & ->)]; auto).
  destruct Hs1 as (Hc1 & Hw1).
  exists (l, None). split; [reflexivity | ].
  unfold refusal, stored_marker_of. cbn [fst snd]. rewrite El.
  destruct (marker_class (type m0)) as [c | ].
  - destruct Hcreate as (-> & ->).
    apply place_marker_Done in Hrun as (p & s4 & _ & Hdet & ->).
    apply determine_transform_Done in Hdet.
    destruct (string_empty (planning_frame lv)).
    + destruct Hdet as (tm & _ & _ & ->). state_simpl. rewrite app_nil_r. auto.
    + destruct Hdet as (_ & ->). state_simpl. rewrite app_nil_r. auto.
  - destruct Hcreate as (-> & ->). injection Hrun as <- <-. state_simpl.
    rewrite Hc1. auto.
Qed.

(** X15. A call of [createMarkers] that returns prints one error for
    every entry that has no handle and whose type the factory refuses, in
    the order of the entries, and nothing else.  Such an entry never gets a
    handle, so every call prints its error again. *)
Theorem createMarkers_reports_refused_types debug ctx parent s s' :
  createMarkers debug ctx parent s = Done tt s' ->
  console s' = console s ++ concat (map (refusal s) (markers_ s)) /\
  concat (map (refusal s') (markers_ s')) = concat (map (refusal s) (markers_ s)).
Proof.
  intros Hrun.
  pose (Inv := fun (i : nat) (lv : Locals) (cur : State) =>
    heap cur = heap s /\
    (forall j, i <= j -> markers_ cur !! j = markers_ s !! j) /\
    console cur = console s ++ concat (map (refusal s) (take i (markers_ s)))).
  destruct (createMarkers_inv debug ctx parent Inv s s') as (lv' & Hfinal);
    [ | | exact Hrun | ].
  - clear Hrun. subst Inv. cbn beta.
    intros i lv cur lv' cur' (Hheap & Hrest & Hcons) Hbody.
    destruct (createMarkers_body_console _ _ _ _ _ _ _ _ Hbody) as (d & Ei & Hc & _).
    apply createMarkers_body_Done in Hbody.
    destruct Hbody as (Hheap' & l & oh & Ei' & Hpost).
    assert (d = (l, oh)) as -> by congruence.
    assert (Ei0 : markers_ s !! i = Some (l, oh)) by (rewrite <- Hrest by lia; exact Ei).
    split; [congruence | ]. split.
    + intros j Hj. destruct oh as [h | ]; [destruct Hpost as (_ & ->); apply Hrest; lia | ].
      destruct Hpost as (m & n & _ & _ & _ & _ & Hpost).
      destruct (marker_class (type m)) as [c | ].
      * destruct Hpost as (p & _ & -> & _).
        rewrite list_lookup_insert_ne by lia. apply Hrest. lia.
      * destruct Hpost as (_ & -> & _). apply Hrest. lia.
    + rewrite Hc, Hcons, (take_S_r _ _ _ Ei0), map_app, concat_app, <- app_assoc.
      cbn [map concat]. rewrite app_nil_r.
      unfold refusal. rewrite Hheap. reflexivity.
  - subst Inv. cbn beta. split; [reflexivity | ]. split; [reflexivity | ].
    rewrite take_0. cbn. rewrite app_nil_r. reflexivity.
  - destruct Hfinal as (_ & _ & Hcons). rewrite firstn_all in Hcons.
    split; [exact Hcons | ].
    destruct (createMarkers_first_call debug ctx parent s s' Hrun)
      as (Hheap & Hlen & Hkeep & _ & Hset).
    (* entry by entry: a refused entry stays as it is, the others have a handle *)
    assert (Hpoint : forall i d d', markers_ s !! i = Some d -> markers_ s' !! i = Some d' ->
                                    refusal s' d' = refusal s d).
    { intros i [l oh] [l' oh'] Ei Ei'.
      destruct (createMarkers_unchanged debug ctx parent s s' Hrun) as (_ & Hfst & _).
      assert (l' = l) as ->.
      { assert (E : (map fst (markers_ s')) !! i = (map fst (markers_ s)) !! i)
          by (rewrite Hfst; reflexivity).
        change (map fst (markers_ s')) with (fst <$> markers_ s') in E.
        change (map fst (markers_ s)) with (fst <$> markers_ s) in E.
        rewrite !list_lookup_fmap, Ei, Ei' in E. cbn in E. congruence. }
      unfold refusal. cbn [fst snd]. rewrite Hheap.
      destruct oh as [h | ].
      - rewrite (Hkeep i l h Ei) in Ei'. injection Ei' as <-. reflexivity.
      - destruct oh' as [h' | ].
        + destruct (stored_marker_of (heap s) l) as [m | ] eqn:Em; [ | reflexivity].
          destruct (marker_class (type m)) as [c | ] eqn:Ec; [reflexivity | ].
          exfalso. apply stored_marker_of_Some in Em.
          pose (Inv2 := fun (k : nat) (lv : Locals) (cur : State) =>
            heap cur = heap s /\
            (forall j, k <= j -> markers_ cur !! j = markers_ s !! j) /\
            (i < k -> markers_ cur !! i = Some (l, None))).
          destruct (createMarkers_Done_inv debug ctx parent Inv2 s s') as (lv2 & Hf2);
            [ | | exact Hrun | ].
          * subst Inv2. cbn beta.
            intros k lv cur lv1 cur1 (Hh & Hr & Hi) (Hh1 & l1 & oh1 & Ek & Hpost).
            split; [congruence | ].
            assert (Hcases : markers_ cur1 = markers_ cur \/
                      exists x, is_Some (marker_class x.1) /\ oh1 = None /\
                        heap cur !! l1 = Some (Some x.2) /\ type x.2 = x.1 /\
                        exists hh, markers_ cur1 = <[k := (l1, Some hh)]> (markers_ cur)).
            { destruct oh1 as [h1 | ]; [destruct Hpost as (_ & ->); auto | ].
              destruct Hpost as (m1 & n1 & Hm1 & _ & _ & _ & Hpost).
              destruct (marker_class (type m1)) as [c1 | ] eqn:Ec1.
              - destruct Hpost as (p & _ & Hmk & _). right.
                exists (type m1, m1). cbn [fst snd]. rewrite Ec1. eauto 10.
              - destruct Hpost as (_ & Hmk & _). left. exact Hmk. }
            destruct Hcases as [-> | ((t1 & m1) & Hc1 & -> & Hm1 & Ht1 & hh & ->)].
            -- split; [intros j Hj; apply Hr; lia | ].
               intros Hik. destruct (decide (i = k)) as [-> | Hne]; [ | apply Hi; lia].
               rewrite Hr by lia. exact Ei.
            -- cbn [fst snd] in *. split.
               ++ intros j Hj. rewrite list_lookup_insert_ne by lia. apply Hr. lia.
               ++ intros Hik. destruct (decide (i = k)) as [-> | Hne].
                  ** exfalso. rewrite Hr in Ek by lia. rewrite Ei in Ek.
                     injection Ek as <-. rewrite Hh, Em in Hm1. injection Hm1 as <-.
                     rewrite Ht1 in Ec. rewrite Ec in Hc1. destruct Hc1 as [? [=]].
                  ** rewrite list_lookup_insert_ne by congruence. apply Hi. lia.
          * subst Inv2. cbn beta. split; [reflexivity | ]. split; [reflexivity | lia].
          * destruct Hf2 as (_ & _ & Hi). rewrite Hi in Ei'; [discriminate | ].
            eapply lookup_lt_Some. exact Ei.
        + reflexivity. }
    clear - Hlen Hpoint. revert Hlen Hpoint.
    generalize (markers_ s') (markers_ s). intros l1.
    induction l1 as [ | d' l1 IH]; intros [ | d l2] Hlen Hpoint; try discriminate;
      [reflexivity | ].
    cbn [map concat]. rewrite (Hpoint 0 d d' eq_refl eq_refl). f_equal.
    apply IH; [cbn in Hlen; lia | ].
    intros i x x' Hx Hx'. apply (Hpoint (S i)); assumption.
Qed.


(** ** The host *)

Ltac unfold_host := unfold hbind, hgets, hmodify, hret, hfault.
Ltac host_simpl :=
  cbn [world objects hosted_markers_ property_namespaces_ enabled context_
       parent_scene_node_ marker_scene_node_ set_world set_objects set_hosted
       set_property_namespaces set_nodes_of_property set_enabled o_markers_ o_namespaces_
       fst snd].

Lemma unload_load o w : unload (load o w) = o.
Proof. destruct o. reflexivity. Qed.

Lemma scene_nodes_load o w : scene_nodes (load o w) = scene_nodes w.
Proof. reflexivity. Qed.

(** [setVisible] on one hosted set whose node is ready. *)
Lemma call_setVisible_ready ns msn visible h a o :
  objects h !! a = Some o ->
  hosted_node_ready ns msn h a = true ->
  exists h',
    call a (setVisible ns (Some msn) visible) h = HDone tt h' /\
    objects h' = objects h /\
    hosted_markers_ h' = hosted_markers_ h /\
    property_namespaces_ h' = property_namespaces_ h /\
    marker_scene_node_ h' = marker_scene_node_ h /\
    scene_nodes (world h')
    = match hosted_node ns h a with
      | Some n => <[n := shown_under msn visible]> (scene_nodes (world h))
      | None => scene_nodes (world h)
      end.
Proof.
  intros Ho Hready. unfold hosted_node_ready in Hready. unfold hosted_node, namespace_node_of.
  rewrite Ho in *. unfold call. rewrite Ho.
  assert (Hobj : forall s, markers_ s = o_markers_ o -> namespaces_ s = o_namespaces_ o ->
                           <[a := unload s]> (objects h) = objects h).
  { intros s Hm Hn. apply list_insert_id. rewrite Ho. f_equal. unfold unload.
    rewrite Hm, Hn. destruct o. reflexivity. }
  destruct (o_namespaces_ o !! ns) as [[n | ] | ] eqn:Hns; [ | discriminate | ].
  - assert (Hns' : namespaces_ (load o (world h)) !! ns = Some (Some n)) by exact Hns.
    destruct (scene_nodes (world h) !! n) as [[p | ] | ] eqn:Hn; [ | | discriminate].
    + apply bool_decide_eq_true_1 in Hready. subst p. destruct visible.
      * rewrite (setVisible_attached ns n msn) by assumption.
        eexists. split; [reflexivity | ]. host_simpl.
        rewrite Hobj by reflexivity. repeat (split; [reflexivity | ]).
        cbn. symmetry. apply list_insert_id. exact Hn.
      * rewrite (setVisible_attached_hide ns n msn) by assumption.
        eexists. split; [reflexivity | ]. host_simpl.
        rewrite Hobj by reflexivity. repeat (split; [reflexivity | ]). reflexivity.
    + destruct visible.
      * rewrite (setVisible_detached_show ns n msn) by assumption.
        eexists. split; [reflexivity | ]. host_simpl.
        rewrite Hobj by reflexivity. repeat (split; [reflexivity | ]). reflexivity.
      * rewrite (setVisible_detached_hide ns n) by assumption.
        eexists. split; [reflexivity | ]. host_simpl.
        rewrite Hobj by reflexivity. repeat (split; [reflexivity | ]).
        cbn. symmetry. apply list_insert_id. exact Hn.
  - assert (Hrun : setVisible ns (Some msn) visible (load o (world h))
                   = Done tt (load o (world h))).
    { unfold setVisible. unfold_monad.
      change (namespaces_ (load o (world h))) with (o_namespaces_ o).
      rewrite Hns. reflexivity. }
    rewrite Hrun. eexists. split; [reflexivity | ]. host_simpl.
    rewrite Hobj by reflexivity. repeat (split; [reflexivity | ]). reflexivity.
Qed.

Lemma hosted_node_ready_after ns msn visible h h' n b :
  objects h' = objects h ->
  scene_nodes (world h') = <[n := shown_under msn visible]> (scene_nodes (world h)) ->
  hosted_node_ready ns msn h b = true ->
  hosted_node_ready ns msn h' b = true.
Proof.
  intros Hobj Hsn. unfold hosted_node_ready. rewrite Hobj, Hsn.
  destruct (objects h !! b) as [o | ]; [ | auto].
  destruct (o_namespaces_ o !! ns) as [[nb | ] | ]; [ | auto | auto].
  destruct (decide (n = nb)) as [-> | Hne].
  - destruct (scene_nodes (world h) !! nb) as [q | ] eqn:Hq; [ | discriminate].
    intros _. rewrite list_lookup_insert_eq by (eapply lookup_lt_Some; exact Hq).
    destruct visible; cbn; [apply bool_decide_eq_true_2; reflexivity | reflexivity].
  - rewrite list_lookup_insert_ne by exact Hne. auto.
Qed.

Lemma hosted_node_same ns h h' b :
  objects h' = objects h -> hosted_node ns h' b = hosted_node ns h b.
Proof. intros Hobj. unfold hosted_node, namespace_node_of. rewrite Hobj. reflexivity. Qed.

(** The loop of [onNSEnableChanged]. *)
Lemma onNSEnableChanged_loop ns msn visible : forall l h,
  forallb (hosted_node_ready ns msn h) l = true ->
  exists h',
    hfor_each (fun a => call a (setVisible ns (Some msn) visible)) l h = HDone tt h' /\
    objects h' = objects h /\
    hosted_markers_ h' = hosted_markers_ h /\
    property_namespaces_ h' = property_namespaces_ h /\
    marker_scene_node_ h' = marker_scene_node_ h /\
    length (scene_nodes (world h')) = length (scene_nodes (world h)) /\
    (forall a n, a ∈ l -> hosted_node ns h a = Some n ->
       scene_nodes (world h') !! n = Some (shown_under msn visible)) /\
    (forall n, (forall a, a ∈ l -> hosted_node ns h a <> Some n) ->
       scene_nodes (world h') !! n = scene_nodes (world h) !! n).
Proof.
  induction l as [ | a l IH]; intros h Hready.
  - exists h. cbn. unfold hret. repeat (split; [reflexivity | ]). split.
    + intros a n Ha. inversion Ha.
    + reflexivity.
  - cbn [forallb] in Hready. apply andb_prop in Hready as (Ha & Hl).
    assert (Ho : exists o, objects h !! a = Some o).
    { unfold hosted_node_ready in Ha. destruct (objects h !! a); [eauto | discriminate]. }
    destruct Ho as (o & Ho).
    destruct (call_setVisible_ready ns msn visible h a o Ho Ha)
      as (h1 & Hrun & Hobj & Hhm & Hpn & Hmsn & Hsn).
    assert (Hl1 : forallb (hosted_node_ready ns msn h1) l = true).
    { rewrite forallb_forall in Hl |- *. intros b Hb. specialize (Hl b Hb).
      destruct (hosted_node ns h a) as [n | ] eqn:Hnode.
      - eapply hosted_node_ready_after; eauto.
      - unfold hosted_node_ready in Hl |- *. rewrite Hobj, Hsn. exact Hl. }
    destruct (IH h1 Hl1) as (h' & Hloop & Hobj' & Hhm' & Hpn' & Hmsn' & Hlen' & Hset & Hrest).
    exists h'. cbn [hfor_each]. unfold hbind at 1. rewrite Hrun.
    split; [exact Hloop | ]. split; [congruence | ]. split; [congruence | ].
    split; [congruence | ]. split; [congruence | ].
    assert (Hlen1 : length (scene_nodes (world h1)) = length (scene_nodes (world h))).
    { rewrite Hsn. destruct (hosted_node ns h a); [apply length_insert | reflexivity]. }
    split; [congruence | ]. split.
    + intros b n Hb Hn.
      destruct (decide (Exists (fun c => hosted_node ns h c = Some n) l)) as [Hex | Hno].
      * apply Exists_exists in Hex as (c & Hc & Hcn). apply (Hset c n Hc). rewrite (hosted_node_same ns h h1 c Hobj). exact Hcn.
      * assert (Hba : b = a).
        { apply elem_of_cons in Hb as [-> | Hb]; [reflexivity | ].
          exfalso. apply Hno. apply Exists_exists. eauto. }
        subst b. rewrite Hrest.
        -- rewrite Hsn, Hn. apply list_lookup_insert_eq.
           unfold hosted_node_ready in Ha. unfold hosted_node, namespace_node_of in Hn.
           rewrite Ho in Ha, Hn.
           destruct (o_namespaces_ o !! ns) as [[n0 | ] | ]; try discriminate.
           injection Hn as ->.
           destruct (scene_nodes (world h) !! n) eqn:Hq; [ | discriminate].
           eapply lookup_lt_Some. exact Hq.
        -- intros c Hc Hcn. apply Hno. apply Exists_exists. exists c. split; [exact Hc | ].
           rewrite <- (hosted_node_same ns h h1 c Hobj). exact Hcn.
    + intros n Hn. rewrite Hrest.
      * rewrite Hsn. destruct (hosted_node ns h a) as [na | ] eqn:Hna; [ | reflexivity].
        apply list_lookup_insert_ne. intros ->. apply (Hn a); [left | exact Hna].
      * intros c Hc. rewrite (hosted_node_same ns h h1 c Hobj). apply Hn. right. exact Hc.
Qed.

(** X16. When the sub-property of a namespace changes, and in every hosted
    set that has the namespace its node is detached or under the marker
    node of the property, [onNSEnableChanged] returns and has shown or
    hidden that node in every hosted set: each lies under the marker node
    when the sub-property is enabled and is detached when it is not.  Every
    other scene node keeps its parent, and the sets, the list of hosted
    sets and the sub-properties are as before. *)
Theorem onNSEnableChanged_reaches_every_hosted_set ns visible msn h :
  property_namespaces_ h !! ns = Some visible ->
  marker_scene_node_ h = Some msn ->
  forallb (hosted_node_ready ns msn h) (hosted_markers_ h) = true ->
  exists h',
    onNSEnableChanged ns h = HDone tt h' /\
    objects h' = objects h /\
    hosted_markers_ h' = hosted_markers_ h /\
    property_namespaces_ h' = property_namespaces_ h /\
    (forall a n, a ∈ hosted_markers_ h -> hosted_node ns h a = Some n ->
       scene_nodes (world h') !! n = Some (shown_under msn visible)) /\
    (forall n, (forall a, a ∈ hosted_markers_ h -> hosted_node ns h a <> Some n) ->
       scene_nodes (world h') !! n = scene_nodes (world h) !! n).
Proof.
  intros Hvis Hmsn Hready.
  destruct (onNSEnableChanged_loop ns msn visible (hosted_markers_ h) h Hready)
    as (h' & Hloop & Hobj & Hhm & Hpn & _ & _ & Hset & Hrest).
  exists h'. unfold onNSEnableChanged. unfold_host. cbn [fst snd].
  rewrite Hvis, Hmsn. auto 10.
Qed.


(** *** [addMarkers] *)

Lemma ns_enabled_insert_new k k' h :
  map_insert_new k true (property_namespaces_ h) !! k'
  = if String.eqb k k' then Some (ns_enabled h k') else property_namespaces_ h !! k'.
Proof.
  rewrite map_insert_new_lookup. unfold ns_enabled.
  destruct (String.eqb_spec k k') as [<- | Hne].
  - destruct (property_namespaces_ h !! k); reflexivity.
  - destruct (property_namespaces_ h !! k'); reflexivity.
Qed.

(** An iteration for a namespace that has its node, detached. *)
Lemma addMarkers_body_materialized debug a k h o n msn :
  objects h !! a = Some o ->
  o_namespaces_ o !! k = Some (Some n) ->
  marker_scene_node_ h = Some msn ->
  scene_nodes (world h) !! n = Some None ->
  exists h1,
    addMarkers_body debug a k h = HDone tt h1 /\
    objects h1 = objects h /\
    hosted_markers_ h1 = hosted_markers_ h /\
    marker_scene_node_ h1 = marker_scene_node_ h /\
    context_ h1 = context_ h /\
    property_namespaces_ h1 = map_insert_new k true (property_namespaces_ h) /\
    world h1 = (if ns_enabled h k
                then set_scene_nodes (fun g => <[n := Some msn]> g) (world h)
                else world h).
Proof.
  intros Ho Hns Hmsn Hn.
  unfold addMarkers_body. unfold_host. host_simpl.
  unfold namespace_node_of. host_simpl. rewrite Ho, Hns. host_simpl. rewrite Ho, Hns.
  rewrite bool_decide_eq_true_2 by eauto. rewrite andb_false_r. host_simpl.
  rewrite ns_enabled_insert_new, String.eqb_refl.
  destruct (ns_enabled h k).
  - unfold on_world, addChild. host_simpl. rewrite Hmsn, Hn.
    eexists. split; [reflexivity | ]. host_simpl. auto 10.
  - eexists. split; [reflexivity | ]. host_simpl. auto 10.
Qed.

(** The first iteration on a set as the constructor leaves it. *)
Lemma addMarkers_body_pending debug a k h o msn s1 n :
  objects h !! a = Some o ->
  o_namespaces_ o !! k = Some None ->
  marker_scene_node_ h = Some msn ->
  createMarkers debug (context_ h) (Some msn) (load o (world h)) = Done tt s1 ->
  namespaces_ s1 !! k = Some (Some n) ->
  scene_nodes s1 !! n = Some None ->
  exists h1,
    addMarkers_body debug a k h = HDone tt h1 /\
    objects h1 = <[a := unload s1]> (objects h) /\
    hosted_markers_ h1 = hosted_markers_ h /\
    marker_scene_node_ h1 = marker_scene_node_ h /\
    context_ h1 = context_ h /\
    property_namespaces_ h1 = map_insert_new k true (property_namespaces_ h) /\
    world h1 = (if ns_enabled h k
                then set_scene_nodes (fun g => <[n := Some msn]> g) s1
                else s1).
Proof.
  intros Ho Hns Hmsn Hrun Hk Hn.
  assert (Ha : a < length (objects h)) by (eapply lookup_lt_Some; exact Ho).
  unfold addMarkers_body. unfold_host. host_simpl.
  unfold namespace_node_of at 1. host_simpl. rewrite Ho, Hns.
  unfold call. host_simpl. rewrite Ho, Hmsn, Hrun.
  unfold namespace_node_of. host_simpl.
  rewrite list_lookup_insert_eq by exact Ha. cbn [unload o_namespaces_]. rewrite Hk.
  rewrite bool_decide_eq_true_2 by eauto. rewrite andb_false_r. host_simpl.
  rewrite ns_enabled_insert_new, String.eqb_refl.
  destruct (ns_enabled h k).
  - unfold on_world, addChild. host_simpl. rewrite ?Hmsn, Hn.
    eexists. split; [reflexivity | ]. host_simpl. auto 10.
  - eexists. split; [reflexivity | ]. host_simpl. auto 10.
Qed.

(** The loop of [addMarkers] over namespaces that have their nodes. *)
Lemma addMarkers_loop_materialized debug a o msn : forall ks h,
  objects h !! a = Some o ->
  marker_scene_node_ h = Some msn ->
  NoDup ks ->
  (forall k, k ∈ ks ->
     exists n, o_namespaces_ o !! k = Some (Some n) /\
               scene_nodes (world h) !! n = Some None) ->
  (forall k1 k2 n, o_namespaces_ o !! k1 = Some (Some n) ->
                   o_namespaces_ o !! k2 = Some (Some n) -> k1 = k2) ->
  exists h',
    hfor_each (addMarkers_body debug a) ks h = HDone tt h' /\
    objects h' = objects h /\
    hosted_markers_ h' = hosted_markers_ h /\
    world h' = set_scene_nodes (fun _ => scene_nodes (world h')) (world h) /\
    length (scene_nodes (world h')) = length (scene_nodes (world h)) /\
    (forall k, k ∈ ks -> property_namespaces_ h' !! k = Some (ns_enabled h k)) /\
    (forall k, k ∉ ks -> property_namespaces_ h' !! k = property_namespaces_ h !! k) /\
    (forall k n, k ∈ ks -> o_namespaces_ o !! k = Some (Some n) ->
       scene_nodes (world h') !! n = Some (shown_under msn (ns_enabled h k))) /\
    (forall n, (forall k, k ∈ ks -> o_namespaces_ o !! k <> Some (Some n)) ->
       scene_nodes (world h') !! n = scene_nodes (world h) !! n).
Proof.
  induction ks as [ | k ks IH]; intros h Ho Hmsn Hnd Hnodes Hinj.
  - exists h. cbn. unfold hret. split; [reflexivity | ]. split; [reflexivity | ].
    split; [reflexivity | ].
    split; [symmetry; apply set_scene_nodes_id; reflexivity | ].
    split; [reflexivity | ]. split; [intros k Hk; inversion Hk | ].
    split; [reflexivity | ]. split; [intros k n Hk; inversion Hk | reflexivity].
  - apply NoDup_cons in Hnd as (Hk & Hnd).
    destruct (Hnodes k) as (n & Hkn & Hn); [left | ].
    destruct (addMarkers_body_materialized debug a k h o n msn Ho Hkn Hmsn Hn)
      as (h1 & Hrun & Hobj & Hhm & Hmsn1 & _ & Hpn & Hw).
    assert (Hsn1 : scene_nodes (world h1)
                   = if ns_enabled h k then <[n := Some msn]> (scene_nodes (world h))
                     else scene_nodes (world h))
      by (rewrite Hw; destruct (ns_enabled h k); reflexivity).
    assert (Hother : forall n', n' <> n ->
              scene_nodes (world h1) !! n' = scene_nodes (world h) !! n').
    { intros n' Hne. rewrite Hsn1. destruct (ns_enabled h k); [ | reflexivity].
      apply list_lookup_insert_ne. congruence. }
    assert (Hen : forall k', k' <> k -> ns_enabled h1 k' = ns_enabled h k').
    { intros k' Hne. unfold ns_enabled at 1. rewrite Hpn, ns_enabled_insert_new.
      destruct (String.eqb_spec k k') as [-> | _]; [congruence | reflexivity]. }
    destruct (IH h1) as (h' & Hloop & Hobj' & Hhm' & Hw' & Hlen' & Hon & Hoff & Hset & Hrest).
    { rewrite Hobj. exact Ho. }
    { rewrite Hmsn1. exact Hmsn. }
    { exact Hnd. }
    { intros k' Hk'. destruct (Hnodes k') as (n' & Hkn' & Hn'); [right; exact Hk' | ].
      exists n'. split; [exact Hkn' | ]. rewrite Hother; [exact Hn' | ].
      intros ->. apply Hk. rewrite (Hinj k k' n Hkn Hkn'). exact Hk'. }
    { exact Hinj. }
    exists h'. cbn [hfor_each]. unfold hbind at 1. rewrite Hrun.
    split; [exact Hloop | ]. split; [congruence | ]. split; [congruence | ].
    split.
    { rewrite Hw' at 1. rewrite Hw. destruct (ns_enabled h k); reflexivity. }
    split.
    { rewrite Hlen', Hsn1. destruct (ns_enabled h k); [apply length_insert | reflexivity]. }
    split; [ | split; [ | split]].
    + intros k' Hk'. apply elem_of_cons in Hk' as [-> | Hk'].
      * rewrite (Hoff k Hk), Hpn, ns_enabled_insert_new, String.eqb_refl. reflexivity.
      * rewrite (Hon k' Hk'). rewrite Hen; [reflexivity | ]. intros ->. exact (Hk Hk').
    + intros k' Hk'. rewrite Hoff by (intros Hin; apply Hk'; right; exact Hin).
      rewrite Hpn, ns_enabled_insert_new.
      destruct (String.eqb_spec k k') as [-> | _]; [ | reflexivity].
      exfalso. apply Hk'. left.
    + intros k' n' Hk' Hkn'. apply elem_of_cons in Hk' as [-> | Hk'].
      * assert (n' = n) by congruence. subst n'.
        rewrite Hrest.
        -- rewrite Hsn1. unfold shown_under. destruct (ns_enabled h k); [ | exact Hn].
           apply list_lookup_insert_eq. eapply lookup_lt_Some. exact Hn.
        -- intros k2 Hk2 Hk2n. apply Hk. rewrite (Hinj k k2 n Hkn Hk2n). exact Hk2.
      * rewrite (Hset k' n' Hk' Hkn'). rewrite Hen; [reflexivity | ].
        intros ->. exact (Hk Hk').
    + intros n' Hn'. rewrite Hrest by (intros k2 Hk2; apply Hn'; right; exact Hk2).
      apply Hother. intros ->. apply (Hn' k); [left | exact Hkn].
Qed.


Lemma enumerates_spec {V} (ks : list string) (m : gmap string V) :
  enumerates ks m = true ->
  NoDup ks /\ forall k, k ∈ ks <-> is_Some (m !! k).
Proof.
  unfold enumerates. intros Hen.
  apply andb_prop in Hen as (Hen & Hall). apply andb_prop in Hen as (Hnd & Hin).
  apply bool_decide_eq_true_1 in Hnd. split; [exact Hnd | ].
  rewrite forallb_forall in Hin, Hall. intros k. split.
  - intros Hk. apply list_elem_of_In in Hk. apply Hin in Hk.
    apply bool_decide_eq_true_1 in Hk. exact Hk.
  - intros (v & Hv).
    assert (Hkv : In (k, v) (map_to_list m))
      by (apply list_elem_of_In, elem_of_map_to_list; exact Hv).
    apply Hall in Hkv. apply bool_decide_eq_true_1 in Hkv. exact Hkv.
Qed.

(** [addMarkers] on a set as the constructor leaves it. *)
Lemma addMarkers_pending_set debug order F tm h a o msn :
  objects h !! a = Some o ->
  marker_scene_node_ h = Some msn ->
  well_formedb (load o (world h)) = true ->
  uniform_frame F (load o (world h)) = true ->
  handles_pending (load o (world h)) = true ->
  nodes_pending (load o (world h)) = true ->
  namespaces_used (load o (world h)) = true ->
  lookupTransform (context_ h) (tf_lookups (world h)) (getFixedFrame (context_ h)) F
  = Some tm ->
  enumerates (order (o_namespaces_ o)) (o_namespaces_ o) = true ->
  exists h' o',
    addMarkers debug order (Some a) h = HDone tt h' /\
    hosted_markers_ h' = hosted_markers_ h ++ [a] /\
    objects h' !! a = Some o' /\
    (forall i l m, o_markers_ o !! i = Some (l, None) ->
       heap (world h) !! l = Some (Some m) -> is_Some (marker_class (type m)) ->
       exists hd, o_markers_ o' !! i = Some (l, Some hd) /\ placed_by (context_ h) tm m hd) /\
    (forall k, is_Some (o_namespaces_ o !! k) ->
       exists n, o_namespaces_ o' !! k = Some (Some n) /\
                 property_namespaces_ h' !! k = Some (ns_enabled h k) /\
                 scene_nodes (world h') !! n = Some (shown_under msn (ns_enabled h k))) /\
    (forall k, o_namespaces_ o !! k = None ->
       property_namespaces_ h' !! k = property_namespaces_ h !! k) /\
    (forall n, n < length (scene_nodes (world h)) ->
       scene_nodes (world h') !! n = scene_nodes (world h) !! n) /\
    (forall b, b <> a -> objects h' !! b = objects h !! b).
Proof.
  intros Ho Hmsn Hwf Hunif Hhp Hnp Hnu Htm Hen.
  apply enumerates_spec in Hen as (Hnd & Hkeys).
  pose proof (nodes_pending_spec _ Hnp) as Hnonode.
  unfold addMarkers. unfold_host. host_simpl. rewrite Ho.
  set (h0 := set_hosted (fun l => l ++ [a]) h).
  destruct (order (o_namespaces_ o)) as [ | k ks] eqn:Hks.
  - exists h0, o. cbn. unfold hret. split; [reflexivity | ]. split; [reflexivity | ].
    split; [exact Ho | ]. split.
    { intros i l m Ei Hm Hc.
      pose proof (well_formedb_spec _ Hwf i l None Ei) as (m' & _ & Hsome & _).
      apply Hkeys in Hsome. inversion Hsome. }
    split; [intros k Hk; apply Hkeys in Hk; inversion Hk | ]. auto.
  - destruct (createMarkers_returns_placed debug (context_ h) msn F tm (load o (world h)))
      as (s1 & Hrun & Hplaced);
      [apply well_formedb_spec; exact Hwf | apply uniform_frame_spec; exact Hunif
       | exact Htm | ].
    pose proof (createMarkers_fresh_nodes debug _ _ _ _ Hhp Hnp Hnu Hrun) as Hfresh.
    destruct (createMarkers_unchanged debug _ _ _ _ Hrun)
      as (_ & _ & (j & Hgraph) & Hdom & _).
    assert (Hdom' : forall k', is_Some (namespaces_ s1 !! k') <-> is_Some (o_namespaces_ o !! k')).
    { intros k'. rewrite <- !elem_of_dom, Hdom. reflexivity. }
    apply NoDup_cons in Hnd as (Hk & Hnd).
    assert (Hko : o_namespaces_ o !! k = Some None).
    { destruct (proj1 (Hkeys k)) as (v & Hv); [left | ].
      rewrite Hv. f_equal. apply (Hnonode k v). exact Hv. }
    destruct (Hfresh k) as (n & Hkn & Hnew & Hdet & Huniq).
    { apply Hdom'. rewrite Hko. eauto. }
    destruct (addMarkers_body_pending debug a k h0 o msn s1 n Ho Hko Hmsn Hrun Hkn Hdet)
      as (h1 & Hbody & Hobj & Hhm & Hmsn1 & _ & Hpn & Hw).
    assert (Ha : a < length (objects h)) by (eapply lookup_lt_Some; exact Ho).
    assert (Ho1 : objects h1 !! a = Some (unload s1)).
    { rewrite Hobj. apply list_lookup_insert_eq. exact Ha. }
    assert (Hsn1 : scene_nodes (world h1)
                   = if ns_enabled h k then <[n := Some msn]> (scene_nodes s1)
                     else scene_nodes s1).
    { rewrite Hw. change (ns_enabled h0 k) with (ns_enabled h k).
      destruct (ns_enabled h k); reflexivity. }
    assert (Hother : forall n', n' <> n -> scene_nodes (world h1) !! n' = scene_nodes s1 !! n').
    { intros n' Hne. rewrite Hsn1. destruct (ns_enabled h k); [ | reflexivity].
      apply list_lookup_insert_ne. congruence. }
    assert (Hen1 : forall k', k' <> k -> ns_enabled h1 k' = ns_enabled h k').
    { intros k' Hne. unfold ns_enabled at 1. rewrite Hpn, ns_enabled_insert_new.
      destruct (String.eqb_spec k k') as [-> | _]; [congruence | reflexivity]. }
    destruct (addMarkers_loop_materialized debug a (unload s1) msn ks h1)
      as (h' & Hloop & Hobj' & Hhm' & Hw' & Hlen' & Hon & Hoff & Hset & Hrest).
    { exact Ho1. }
    { rewrite Hmsn1. exact Hmsn. }
    { exact Hnd. }
    { intros k' Hk'.
      destruct (Hfresh k') as (n' & Hkn' & _ & Hdet' & _).
      { apply Hdom', Hkeys. right. exact Hk'. }
      exists n'. split; [exact Hkn' | ]. rewrite Hother; [exact Hdet' | ].
      intros ->. apply Hk. rewrite <- (Huniq k' Hkn'). exact Hk'. }
    { intros k1 k2 n0 Hk1 Hk2. cbn [unload o_namespaces_] in Hk1, Hk2.
      destruct (Hfresh k1) as (n1 & Hn1 & _ & _ & Huniq1); [rewrite Hk1; eauto | ].
      symmetry. apply Huniq1. congruence. }
    exists h', (unload s1). cbn [hfor_each]. unfold hbind. rewrite Hbody.
    split; [exact Hloop | ]. split; [rewrite Hhm', Hhm; reflexivity | ].
    split; [rewrite Hobj'; exact Ho1 | ]. split.
    { intros i l m Ei Hm Hc. apply (Hplaced i l m); assumption. }
    split; [ | split; [ | split]].
    + intros k' Hk'. apply Hkeys in Hk'.
      destruct (Hfresh k') as (n' & Hkn' & _ & Hdet' & Huniq');
        [apply Hdom', Hkeys; exact Hk' | ].
      exists n'. split; [exact Hkn' | ].
      apply elem_of_cons in Hk' as [-> | Hk'].
      * assert (n' = n) by congruence. subst n'. split.
        -- rewrite (Hoff k Hk), Hpn, ns_enabled_insert_new, String.eqb_refl. reflexivity.
        -- rewrite Hrest.
           ++ rewrite Hsn1. unfold shown_under. destruct (ns_enabled h k); [ | exact Hdet].
              apply list_lookup_insert_eq. eapply lookup_lt_Some. exact Hdet.
           ++ intros k2 Hk2 Hk2n. apply Hk. rewrite <- (Huniq k2 Hk2n). exact Hk2.
      * assert (Hne : k' <> k) by (intros ->; exact (Hk Hk')).
        split.
        -- rewrite (Hon k' Hk'), (Hen1 k' Hne). reflexivity.
        -- rewrite (Hset k' n' Hk' Hkn'), (Hen1 k' Hne). reflexivity.
    + intros k' Hk'.
      assert (Hnot : k' ∉ k :: ks).
      { intros Hin. apply Hkeys in Hin. rewrite Hk' in Hin. inversion Hin. discriminate. }
      rewrite Hoff by (intros Hin; apply Hnot; right; exact Hin).
      rewrite Hpn, ns_enabled_insert_new.
      destruct (String.eqb_spec k k') as [-> | _]; [ | reflexivity].
      exfalso. apply Hnot. left.
    + intros n' Hn'.
      assert (Hold : forall k2 n2, namespaces_ s1 !! k2 = Some (Some n2) -> n2 <> n').
      { intros k2 n2 Hk2 ->.
        destruct (Hfresh k2) as (n2 & Hn2 & Hge & _); [rewrite Hk2; eauto | ].
        assert (n2 = n') by congruence. subst n2.
        change (scene_nodes (load o (world h))) with (scene_nodes (world h)) in Hge. lia. }
      rewrite Hrest by (intros k2 _ Hk2; exact (Hold k2 n' Hk2 eq_refl)).
      rewrite Hother by (intros ->; exact (Hold k n Hkn eq_refl)).
      rewrite Hgraph. apply lookup_app_l. exact Hn'.
    + intros b Hb. rewrite Hobj', Hobj. apply list_lookup_insert_ne. congruence.
Qed.



Lemma rendered_spec msn o w :
  rendered msn o w = true ->
  (forall k v, o_namespaces_ o !! k = Some v ->
     exists n, v = Some n /\
               (scene_nodes w !! n = Some None \/ scene_nodes w !! n = Some (Some msn))) /\
  (forall k1 k2 n, o_namespaces_ o !! k1 = Some (Some n) ->
                   o_namespaces_ o !! k2 = Some (Some n) -> k1 = k2).
Proof.
  unfold rendered. intros Hr. apply andb_prop in Hr as (Hall & Hnd).
  apply bool_decide_eq_true_1 in Hnd. rewrite forallb_forall in Hall. split.
  - intros k v Hk.
    assert (Hin : In (k, v) (map_to_list (o_namespaces_ o)))
      by (apply list_elem_of_In, elem_of_map_to_list; exact Hk).
    apply Hall in Hin. cbn [snd] in Hin. destruct v as [n | ]; [ | discriminate].
    exists n. split; [reflexivity | ].
    destruct (scene_nodes w !! n) as [[p | ] | ]; [ | auto | discriminate].
    apply bool_decide_eq_true_1 in Hin. subst p. auto.
  - intros k1 k2 n Hk1 Hk2.
    apply elem_of_map_to_list, list_elem_of_lookup in Hk1 as (i1 & Hi1).
    apply elem_of_map_to_list, list_elem_of_lookup in Hk2 as (i2 & Hi2).
    change (map snd (map_to_list (o_namespaces_ o)))
      with (snd <$> map_to_list (o_namespaces_ o)) in Hnd.
    assert (i1 = i2).
    { apply (NoDup_lookup _ i1 i2 (Some n) Hnd); rewrite list_lookup_fmap.
      - rewrite Hi1. reflexivity.
      - rewrite Hi2. reflexivity. }
    subst i2. congruence.
Qed.

(** X18. Hosting a rendered set anew after [clearMarkers]: the two calls
    return, without a call of [createMarkers] (no handle is made, no
    transform looked up, the sets are as they were).  The set is then the
    only hosted one, the sub-properties that existed have kept their values,
    and each node of the set lies under the marker node when the
    sub-property of its namespace is enabled and is detached when it is
    not.  No other scene node lies under the marker node. *)
Theorem clearMarkers_then_addMarkers debug order h a o msn :
  objects h !! a = Some o ->
  marker_scene_node_ h = Some msn ->
  rendered msn o (world h) = true ->
  enumerates (order (o_namespaces_ o)) (o_namespaces_ o) = true ->
  exists h',
    hbind clearMarkers (fun _ => addMarkers debug order (Some a)) h = HDone tt h' /\
    hosted_markers_ h' = [a] /\
    objects h' = objects h /\
    handles_created (world h') = handles_created (world h) /\
    tf_lookups (world h') = tf_lookups (world h) /\
    (forall k b, property_namespaces_ h !! k = Some b ->
                 property_namespaces_ h' !! k = Some b) /\
    (forall k n, o_namespaces_ o !! k = Some (Some n) ->
       property_namespaces_ h' !! k = Some (ns_enabled h k) /\
       scene_nodes (world h') !! n = Some (shown_under msn (ns_enabled h k))) /\
    (forall n, (forall k, o_namespaces_ o !! k <> Some (Some n)) ->
       scene_nodes (world h') !! n <> Some (Some msn)).
Proof.
  intros Ho Hmsn Hr Hen.
  apply enumerates_spec in Hen as (Hnd & Hkeys).
  apply rendered_spec in Hr as (Hnodes & Hinj).
  set (detach := fun p : SceneNodePtr => if ptr_eqb p (Some msn) then None else p).
  set (hc := set_hosted (fun l => l ++ [a])
               (set_hosted (fun _ => [])
                  (set_world (set_scene_nodes (map detach)) h))).
  assert (Hdetached : forall n, scene_nodes (world hc) !! n = detach <$> scene_nodes (world h) !! n).
  { intros n. cbn. change (map detach (scene_nodes (world h)))
      with (detach <$> scene_nodes (world h)). apply list_lookup_fmap. }
  destruct (addMarkers_loop_materialized debug a o msn (order (o_namespaces_ o)) hc)
    as (h' & Hloop & Hobj & Hhm & Hw & _ & Hon & Hoff & Hset & Hrest).
  { exact Ho. }
  { exact Hmsn. }
  { exact Hnd. }
  { intros k Hk. apply Hkeys in Hk as (v & Hv).
    destruct (Hnodes k v Hv) as (n & -> & Hn). exists n. split; [exact Hv | ].
    rewrite Hdetached. unfold detach, ptr_eqb.
    destruct Hn as [-> | ->]; cbn [fmap option_fmap option_map].
    - rewrite bool_decide_eq_false_2 by discriminate. reflexivity.
    - rewrite bool_decide_eq_true_2 by reflexivity. reflexivity. }
  { exact Hinj. }
  exists h'. split.
  { unfold clearMarkers, addMarkers. unfold_host. host_simpl.
    unfold on_world, removeAllChildren. rewrite Hmsn. host_simpl. rewrite Ho.
    exact Hloop. }
  split; [rewrite Hhm; reflexivity | ]. split; [exact Hobj | ].
  split; [rewrite Hw; reflexivity | ]. split; [rewrite Hw; reflexivity | ].
  split; [ | split].
  - intros k b Hb.
    destruct (decide (k ∈ order (o_namespaces_ o))) as [Hk | Hk].
    + rewrite (Hon k Hk). unfold ns_enabled. cbn. rewrite Hb. reflexivity.
    + rewrite (Hoff k Hk). exact Hb.
  - intros k n Hk.
    assert (Hin : k ∈ order (o_namespaces_ o)) by (apply Hkeys; rewrite Hk; eauto).
    split; [exact (Hon k Hin) | exact (Hset k n Hin Hk)].
  - intros n Hn. rewrite Hrest by (intros k _; apply Hn).
    rewrite Hdetached. unfold detach, ptr_eqb.
    destruct (scene_nodes (world h) !! n) as [p | ]; cbn [fmap option_fmap option_map];
      [ | discriminate].
    destruct (bool_decide (p = Some msn)) eqn:Hp; [discriminate | ].
    apply bool_decide_eq_false_1 in Hp. congruence.
Qed.


(** ** A lookup that fails *)

Lemma known_type_class t : known_type t = bool_decide (is_Some (marker_class t)).
Proof.
  unfold known_type. destruct (bool_decide (is_Some (marker_class t))) eqn:E.
  - apply bool_decide_eq_true_1, marker_class_supported in E.
    apply andb_true_intro. split; apply Z.leb_le; lia.
  - apply bool_decide_eq_false_1 in E. apply andb_false_iff.
    destruct (Z.leb_spec 0 t); [ | auto]. destruct (Z.leb_spec t 11); [ | auto].
    exfalso. apply E, marker_class_supported. lia.
Qed.

Lemma needs_handle_is_gap s d : needs_handle s d = is_gap s d.
Proof.
  unfold needs_handle, is_gap. destruct d.2; [reflexivity | ].
  destruct (stored_marker_of (heap s) d.1); [apply known_type_class | reflexivity].
Qed.

Lemma first_needed_spec s j l m :
  first_needed s = Some (j, l, m) ->
  markers_ s !! j = Some (l, None) /\
  heap s !! l = Some (Some m) /\
  is_Some (marker_class (type m)) /\
  forall j' d, j' < j -> markers_ s !! j' = Some d -> is_gap s d = false.
Proof.
  unfold first_needed.
  destruct (list_find _ (markers_ s)) as [[j0 [l0 oh]] | ] eqn:Hfind; [ | discriminate].
  cbn [fst]. destruct (stored_marker_of (heap s) l0) as [m0 | ] eqn:Hm; [ | discriminate].
  intros [= <- <- <-].
  apply list_find_Some in Hfind as (Ej & Hneed & Hbefore).
  unfold needs_handle in Hneed. cbn [fst snd] in Hneed. rewrite Hm in Hneed.
  destruct oh as [h | ]; [discriminate | ].
  split; [exact Ej | ]. split; [apply stored_marker_of_Some; exact Hm | ]. split.
  - rewrite known_type_class in Hneed. apply bool_decide_eq_true_1 in Hneed. exact Hneed.
  - intros j' d Hj' Ed. rewrite <- needs_handle_is_gap.
    apply not_true_is_false. exact (Hbefore j' d Ed Hj').
Qed.

(** The iteration that makes the lookup, when the lookup fails: the entry
    keeps the handle it was given, with the pose [setMessage] set. *)
Lemma createMarkers_body_throws_at debug ctx p i lv s l m :
  markers_ s !! i = Some (l, None) ->
  heap s !! l = Some (Some m) ->
  is_Some (marker_class (type m)) ->
  is_Some (namespaces_ s !! fromStdString (ns m)) ->
  frame_id m <> "" ->
  string_empty (planning_frame lv) = true ->
  lookupTransform ctx (tf_lookups s) (getFixedFrame ctx) (frame_id m) = None ->
  exists s' h,
    createMarkers_body debug ctx (Some p) i lv s = Thrown TransformException s' /\
    heap s' = heap s /\
    tf_lookups s' = S (tf_lookups s) /\
    markers_ s' = <[i := (l, Some h)]> (markers_ s) /\
    h_message h = Some l /\
    h_position h = fst (setMessage_pose ctx m) /\
    h_orientation h = snd (setMessage_pose ctx m).
Proof.
  intros Ei Hm [c Hclass] Hns Hframe Hempty Hlookup.
  destruct (namespace_node_returns debug p _ s Hns) as (n & s1 & Hnode).
  destruct (namespace_node_keeps _ _ _ _ _ _ Hnode) as (Hheap & Hmk & Htf).
  unfold createMarkers_body.
  unfold bind at 1. unfold gets at 1. rewrite Ei.
  unfold bind at 1. unfold deref at 1. rewrite Hm.
  unfold bind at 1. rewrite Hnode.
  unfold createMarker. rewrite Hclass.
  unfold place_marker, determine_transform. rewrite Hempty.
  apply String.eqb_neq in Hframe. unfold string_empty. rewrite Hframe.
  unfold_monad. state_simpl. cbn [negb]. rewrite andb_false_r. state_simpl.
  rewrite Htf, Hlookup.
  eexists. exists (setMessage ctx l m (mkHandle c n None Vector3_ZERO Quaternion_IDENTITY)).
  split; [reflexivity | ]. state_simpl. rewrite Hheap, Hmk, Htf.
  split; [reflexivity | ]. split; [reflexivity | ].
  split; [apply list_insert_insert_eq | ]. auto.
Qed.

Lemma createMarkers_loop_throws_at debug ctx p j lj mj : forall n i lv s,
  well_formed s ->
  i + n = length (markers_ s) ->
  string_empty (planning_frame lv) = true ->
  i <= j ->
  markers_ s !! j = Some (lj, None) ->
  heap s !! lj = Some (Some mj) ->
  is_Some (marker_class (type mj)) ->
  (forall j' d, i <= j' < j -> markers_ s !! j' = Some d -> is_gap s d = false) ->
  lookupTransform ctx (tf_lookups s) (getFixedFrame ctx) (frame_id mj) = None ->
  exists s' h,
    createMarkers_loop debug ctx (Some p) n i lv s = Thrown TransformException s' /\
    heap s' = heap s /\
    tf_lookups s' = S (tf_lookups s) /\
    markers_ s' = <[j := (lj, Some h)]> (markers_ s) /\
    h_message h = Some lj /\
    h_position h = fst (setMessage_pose ctx mj) /\
    h_orientation h = snd (setMessage_pose ctx mj).
Proof.
  induction n as [ | n IH]; intros i lv s Hwf Hlen Hempty Hij Ej Hmj Hcj Hbefore Hfail.
  - apply lookup_lt_Some in Ej. lia.
  - cbn [createMarkers_loop].
    destruct (decide (i = j)) as [-> | Hne].
    + destruct (Hwf j lj None Ej) as (m & Hm & Hns & Hframe).
      assert (m = mj) as -> by congruence.
      destruct (createMarkers_body_throws_at debug ctx p j lv s lj mj Ej Hmj Hcj Hns
                  Hframe Hempty Hfail) as (s' & h & Hbody & Hrest).
      exists s', h. unfold bind. rewrite Hbody. split; [reflexivity | exact Hrest].
    + destruct (lookup_lt_is_Some_2 (markers_ s) i ltac:(lia)) as [[l oh] Ei].
      pose proof (Hbefore i (l, oh) ltac:(lia) Ei) as Hnogap.
      destruct oh as [h0 | ].
      * unfold bind at 1. rewrite (createMarkers_body_skip debug ctx (Some p) i lv s l h0 Ei).
        apply IH; try assumption; try lia.
        intros j' d Hj'. apply Hbefore. lia.
      * destruct (Hwf i l None Ei) as (m & Hm & Hns & Hframe).
        rewrite (is_gap_None s l m Hm) in Hnogap.
        apply bool_decide_eq_false_1 in Hnogap.
        destruct (marker_class (type m)) as [c | ] eqn:Eclass; [exfalso; eauto | ].
        destruct (createMarkers_body_unknown_type debug ctx p i lv s l m Ei Hm Eclass Hns)
          as (s1 & Hbody).
        unfold bind at 1. rewrite Hbody.
        apply createMarkers_body_Done in Hbody.
        destruct Hbody as (Hheap & l0 & oh0 & Ei0 & Hpost).
        rewrite Ei in Ei0. injection Ei0 as <- <-.
        destruct Hpost as (m0 & n0 & Hm0 & _ & _ & Hns' & Hpost).
        rewrite Hm in Hm0. injection Hm0 as <-.
        rewrite Eclass in Hpost. destruct Hpost as (_ & Hmk & Htf & _).
        destruct (IH (S i) lv s1) as (s' & h & Hloop & Hheap' & Htf' & Hmk' & Hh).
        -- intros k lk ohk Ek. rewrite Hmk in Ek.
           destruct (Hwf k lk ohk Ek) as (mk & Hmk1 & Hnsk & Hfk).
           exists mk. rewrite Hheap, Hns'. split; [exact Hmk1 | ]. split; [ | exact Hfk].
           destruct (decide (fromStdString (ns m) = fromStdString (ns mk))) as [E | E].
           ++ rewrite E, lookup_insert_eq. eauto.
           ++ rewrite lookup_insert_ne by exact E. exact Hnsk.
        -- rewrite Hmk. lia.
        -- exact Hempty.
        -- lia.
        -- rewrite Hmk. exact Ej.
        -- rewrite Hheap. exact Hmj.
        -- exact Hcj.
        -- intros j' d Hj' Ed. rewrite Hmk in Ed.
           unfold is_gap. rewrite Hheap. apply (Hbefore j' d); [lia | exact Ed].
        -- rewrite Htf. exact Hfail.
        -- exists s', h. split; [exact Hloop | ].
           rewrite Hheap', Htf', Hmk', Hheap, Htf, Hmk. auto.
Qed.

Lemma createMarkers_throws_at debug ctx p s j l m :
  well_formedb s = true ->
  first_needed s = Some (j, l, m) ->
  lookupTransform ctx (tf_lookups s) (getFixedFrame ctx) (frame_id m) = None ->
  exists s' h,
    createMarkers debug ctx (Some p) s = Thrown TransformException s' /\
    heap s' = heap s /\
    tf_lookups s' = S (tf_lookups s) /\
    markers_ s' = <[j := (l, Some h)]> (markers_ s) /\
    h_message h = Some l /\
    h_position h = fst (setMessage_pose ctx m) /\
    h_orientation h = snd (setMessage_pose ctx m).
Proof.
  intros Hwf Hfirst Hfail. apply well_formedb_spec in Hwf.
  apply first_needed_spec in Hfirst as (Ej & Hm & Hclass & Hbefore).
  destruct (createMarkers_loop_throws_at debug ctx p j l m (length (markers_ s)) 0
              init_locals s) as (s' & h & Hloop & Hrest); try assumption; try reflexivity.
  { lia. }
  { intros j' d Hj'. apply Hbefore. lia. }
  exists s', h. split; [ | exact Hrest].
  unfold createMarkers. unfold bind at 1. unfold gets.
  unfold bind. rewrite Hloop. reflexivity.
Qed.

(** C7, as the code has it.  Nothing in [createMarkers] catches the
    exception of a failed lookup.  On a well-formed set, called with a parent
    node, the call makes its lookup at the first entry without a handle whose
    type the factory knows, from the fixed frame to the frame named by the
    message of that entry, the planning frame.  When the tf service has not
    that transform, whatever else it has, the call ends with
    [tf::TransformException] leaving it, abandoned at that entry: one lookup
    was made, the entry has the handle it was given, with the pose
    [setMessage] set, and no other entry and no message has changed. *)
Theorem C7_lookup_failure_escapes debug ctx p s j l m :
  well_formedb s = true ->
  first_needed s = Some (j, l, m) ->
  lookupTransform ctx (tf_lookups s) (getFixedFrame ctx) (frame_id m) = None ->
  exists s' h,
    createMarkers debug ctx (Some p) s = Thrown TransformException s' /\
    heap s' = heap s /\
    tf_lookups s' = S (tf_lookups s) /\
    markers_ s' !! j = Some (l, Some h) /\
    h_message h = Some l /\
    h_position h = fst (setMessage_pose ctx m) /\
    h_orientation h = snd (setMessage_pose ctx m) /\
    forall j', j' <> j -> markers_ s' !! j' = markers_ s !! j'.
Proof.
  intros Hwf Hfirst Hfail.
  destruct (createMarkers_throws_at debug ctx p s j l m Hwf Hfirst Hfail)
    as (s' & h & Hrun & Hheap & Htf & Hmk & Hmsg & Hpos & Hor).
  apply first_needed_spec in Hfirst as (Ej & _).
  exists s', h. split; [exact Hrun | ]. split; [exact Hheap | ]. split; [exact Htf | ].
  split.
  { rewrite Hmk. apply list_lookup_insert_eq. eapply lookup_lt_Some. exact Ej. }
  split; [exact Hmsg | ]. split; [exact Hpos | ]. split; [exact Hor | ].
  intros j' Hne. rewrite Hmk. apply list_lookup_insert_ne. congruence.
Qed.

(** ** Two calls *)

(** What a returning call leaves of each entry that had no handle. *)
Lemma createMarkers_entries debug ctx parent s s1 :
  createMarkers debug ctx parent s = Done tt s1 ->
  forall i l m, markers_ s !! i = Some (l, None) -> heap s !! l = Some (Some m) ->
    match marker_class (type m) with
    | Some c => exists h, markers_ s1 !! i = Some (l, Some h) /\ h_class h = c /\
                          h_message h = Some l
    | None => markers_ s1 !! i = Some (l, None)
    end.
Proof.
  intros Hrun.
  pose (Inv := fun (i : nat) (lv : Locals) (cur : State) =>
    heap cur = heap s /\
    (forall j, i <= j -> markers_ cur !! j = markers_ s !! j) /\
    (forall j l m, j < i ->
       markers_ s !! j = Some (l, None) -> heap s !! l = Some (Some m) ->
       match marker_class (type m) with
       | Some c => exists h, markers_ cur !! j = Some (l, Some h) /\ h_class h = c /\
                             h_message h = Some l
       | None => markers_ cur !! j = Some (l, None)
       end)).
  destruct (createMarkers_Done_inv debug ctx parent Inv s s1) as (lv' & Hfinal);
    [ | | exact Hrun | ].
  - clear Hrun. subst Inv. cbn beta.
    intros i lv cur lv' cur' (Hheap & Hrest & Hdone) Hpost.
    destruct Hpost as (Hheap' & l & oh & Ei & Hpost).
    assert (Ei0 : markers_ s !! i = Some (l, oh)) by (rewrite <- Hrest by lia; exact Ei).
    assert (Hlen : i < length (markers_ cur)) by (eapply lookup_lt_Some; exact Ei).
    split; [congruence | ].
    assert (Hcases : (markers_ cur' = markers_ cur /\
                      (oh = None -> exists m, heap s !! l = Some (Some m) /\
                                              marker_class (type m) = None)) \/
                     (exists m c h, oh = None /\ heap s !! l = Some (Some m) /\
                        marker_class (type m) = Some c /\
                        markers_ cur' = <[i := (l, Some h)]> (markers_ cur) /\
                        h_class h = c /\ h_message h = Some l)).
    { destruct oh as [h0 | ].
      - destruct Hpost as (-> & ->). left. split; [reflexivity | discriminate].
      - destruct Hpost as (m & n & Hm & _ & _ & _ & Hpost). rewrite Hheap in Hm.
        destruct (marker_class (type m)) as [c | ] eqn:Eclass.
        + destruct Hpost as (p & _ & Hmk & _). right.
          exists m, c. eexists. split; [reflexivity | ]. split; [exact Hm | ].
          split; [exact Eclass | ]. split; [exact Hmk | ]. split; reflexivity.
        + destruct Hpost as (_ & Hmk & _). left. split; [exact Hmk | ]. eauto. }
    destruct Hcases as [(Hmk & Hnone) | (m & c & h & -> & Hm & Eclass & Hmk & Hc & Hmsg)].
    + rewrite Hmk. split; [intros j Hj; apply Hrest; lia | ].
      intros j l1 m1 Hj Ej Hm1.
      destruct (decide (j = i)) as [-> | Hne]; [ | apply Hdone; [lia | assumption ..]].
      rewrite Ej in Ei0. injection Ei0 as <- <-.
      destruct (Hnone eq_refl) as (m & Hm & Eclass).
      assert (m1 = m) as -> by congruence. rewrite Eclass, Ei. reflexivity.
    + rewrite Hmk. split.
      { intros j Hj. rewrite list_lookup_insert_ne by lia. apply Hrest. lia. }
      intros j l1 m1 Hj Ej Hm1.
      destruct (decide (j = i)) as [-> | Hne].
      * rewrite Ej in Ei0. injection Ei0 as <-.
        assert (m1 = m) as -> by congruence. rewrite Eclass.
        exists h. rewrite list_lookup_insert_eq by exact Hlen. auto.
      * specialize (Hdone j l1 m1 ltac:(lia) Ej Hm1).
        destruct (marker_class (type m1)).
        -- destruct Hdone as (h1 & E1 & Hrest1). exists h1.
           rewrite list_lookup_insert_ne by congruence. auto.
        -- rewrite list_lookup_insert_ne by congruence. exact Hdone.
  - subst Inv. cbn beta. split; [reflexivity | ]. split; [reflexivity | ].
    intros j l m Hj. lia.
  - subst Inv. cbn beta in Hfinal. destruct Hfinal as (_ & _ & Hdone).
    intros i l m Ei Hm. apply Hdone; [ | exact Ei | exact Hm].
    eapply lookup_lt_Some. exact Ei.
Qed.

(** C9. When a call of [createMarkers] has returned, every handle that
    existed before it is untouched; every entry that lacked a handle and
    whose message has one of the types 0 to 11 has one handle, of the class
    of that type and for that message; every entry that lacked a handle and
    whose message has another type still lacks one; and the call has
    constructed as many handles as there were entries of the first kind.  A
    second call, whatever its arguments, returns without constructing a
    handle, looking up a transform or changing any entry. *)
Theorem C9_second_call_creates_nothing debug ctx parent s s1 :
  createMarkers debug ctx parent s = Done tt s1 ->
  (forall i l h, markers_ s !! i = Some (l, Some h) -> markers_ s1 !! i = Some (l, Some h)) /\
  (forall i l m, markers_ s !! i = Some (l, None) -> stored_marker_of (heap s) l = Some m ->
     (0 <= type m <= 11)%Z ->
     exists h, markers_ s1 !! i = Some (l, Some h) /\
               marker_class (type m) = Some (h_class h) /\ h_message h = Some l) /\
  (forall i l m, markers_ s !! i = Some (l, None) -> stored_marker_of (heap s) l = Some m ->
     ~ (0 <= type m <= 11)%Z -> markers_ s1 !! i = Some (l, None)) /\
  handles_created s1
  = handles_created s + length (List.filter (needs_handle s) (markers_ s)) /\
  List.filter (needs_handle s1) (markers_ s1) = [] /\
  forall debug' ctx' parent',
    exists s2, createMarkers debug' ctx' parent' s1 = Done tt s2 /\
      markers_ s2 = markers_ s1 /\
      handles_created s2 = handles_created s1 /\
      tf_lookups s2 = tf_lookups s1.
Proof.
  intros Hrun.
  destruct (createMarkers_first_call debug ctx parent s s1 Hrun)
    as (_ & _ & Hkeep & Hcount & Hset).
  pose proof (createMarkers_entries debug ctx parent s s1 Hrun) as Hentries.
  split; [exact Hkeep | ]. split; [ | split; [ | split; [ | split]]].
  - intros i l m Ei Hm Htype. apply stored_marker_of_Some in Hm.
    specialize (Hentries i l m Ei Hm).
    apply marker_class_supported in Htype as [c Hc]. rewrite Hc in Hentries.
    destruct Hentries as (h & E1 & <- & Hmsg). exists h. auto.
  - intros i l m Ei Hm Htype. apply stored_marker_of_Some in Hm.
    specialize (Hentries i l m Ei Hm).
    destruct (marker_class (type m)) as [c | ] eqn:Hc; [ | exact Hentries].
    exfalso. apply Htype, marker_class_supported. rewrite Hc. eauto.
  - rewrite Hcount. unfold gaps. f_equal. f_equal.
    apply List.filter_ext. intros d. symmetry. apply needs_handle_is_gap.
  - apply filter_none.
    intros [l oh] Hin. apply list_elem_of_In, list_elem_of_lookup in Hin as (i & Ei).
    rewrite needs_handle_is_gap.
    destruct oh as [h | ]; [reflexivity | ].
    destruct (Hset i l Ei) as (m & n & Hm & Hclass & _).
    rewrite (is_gap_None s1 l m Hm), Hclass.
    apply bool_decide_eq_false_2. intros [? [=]].
  - intros debug' ctx' parent'.
    destruct (createMarkers_loop_settled debug' ctx' parent' (length (markers_ s1)) 0
                init_locals s1 Hset eq_refl)
      as (s2 & Hloop & Hmk & _ & _ & _ & Hhc & Htf).
    exists s2. split; [ | auto].
    unfold createMarkers. unfold bind at 1. unfold gets.
    unfold bind. rewrite Hloop. reflexivity.
Qed.


(** X19. [addMarkers] does not catch what [createMarkers] throws, and it
    has put the set on the list before: on a set as the constructor leaves
    it, whose first entry of known type names a frame to which the tf
    service has no transform from the fixed frame, whatever else the service
    has, the call ends with the [TransformException], the set is the last
    of the hosted sets, that entry has its handle with the pose [setMessage]
    set, and one sub-property at most has been created, for a namespace of
    the set. *)
Theorem addMarkers_failed_lookup_keeps_set_hosted debug order h a o msn j l m :
  objects h !! a = Some o ->
  marker_scene_node_ h = Some msn ->
  well_formedb (load o (world h)) = true ->
  nodes_pending (load o (world h)) = true ->
  first_needed (load o (world h)) = Some (j, l, m) ->
  lookupTransform (context_ h) (tf_lookups (world h)) (getFixedFrame (context_ h))
                  (frame_id m) = None ->
  enumerates (order (o_namespaces_ o)) (o_namespaces_ o) = true ->
  exists h',
    addMarkers debug order (Some a) h = HThrown TransformException h' /\
    hosted_markers_ h' = hosted_markers_ h ++ [a] /\
    (exists o' hd, objects h' !! a = Some o' /\
                   o_markers_ o' !! j = Some (l, Some hd) /\
                   h_position hd = fst (setMessage_pose (context_ h) m) /\
                   h_orientation hd = snd (setMessage_pose (context_ h) m)) /\
    (forall b, b <> a -> objects h' !! b = objects h !! b) /\
    exists k, is_Some (o_namespaces_ o !! k) /\
              property_namespaces_ h' = map_insert_new k true (property_namespaces_ h).
Proof.
  intros Ho Hmsn Hwf Hnp Hfirst Hfail Hen.
  apply enumerates_spec in Hen as (Hnd & Hkeys).
  pose proof (nodes_pending_spec _ Hnp) as Hnonode.
  pose proof (well_formedb_spec _ Hwf) as Hwf'.
  destruct (createMarkers_throws_at debug (context_ h) msn (load o (world h)) j l m
              Hwf Hfirst Hfail) as (s' & hd & Hrun & _ & _ & Hmk & _ & Hpos & Hor).
  apply first_needed_spec in Hfirst as (Ej & Hm & _).
  assert (Ha : a < length (objects h)) by (eapply lookup_lt_Some; exact Ho).
  destruct (order (o_namespaces_ o)) as [ | k ks] eqn:Hks.
  - exfalso. destruct (Hwf' j l None Ej) as (m' & _ & Hsome & _).
    apply Hkeys in Hsome. inversion Hsome.
  - assert (Hko : o_namespaces_ o !! k = Some None).
    { destruct (proj1 (Hkeys k)) as (v & Hv); [left | ].
      rewrite Hv. f_equal. apply (Hnonode k v). exact Hv. }
    eexists. split.
    { unfold addMarkers. unfold_host. host_simpl. rewrite Ho, Hks.
      cbn [hfor_each]. unfold addMarkers_body. unfold_host. host_simpl.
      unfold namespace_node_of at 1. host_simpl. rewrite Ho, Hko.
      unfold call. host_simpl. rewrite Ho, Hmsn, Hrun. reflexivity. }
    host_simpl. split; [reflexivity | ]. split.
    { exists (unload s'), hd. rewrite list_lookup_insert_eq by exact Ha.
      split; [reflexivity | ]. cbn [unload o_markers_]. rewrite Hmk.
      split; [ | auto]. apply list_lookup_insert_eq. eapply lookup_lt_Some. exact Ej. }
    split.
    { intros b Hb. apply list_lookup_insert_ne. congruence. }
    exists k. split; [rewrite Hko; eauto | reflexivity].
Qed.

(** An iteration for a namespace whose node has a parent. *)
Lemma addMarkers_body_attached debug a k h o n p msn :
  objects h !! a = Some o ->
  o_namespaces_ o !! k = Some (Some n) ->
  marker_scene_node_ h = Some msn ->
  scene_nodes (world h) !! n = Some (Some p) ->
  if ns_enabled h k
  then exists h1, addMarkers_body debug a k h = HThrown OgreException h1 /\
                  hosted_markers_ h1 = hosted_markers_ h
  else exists h1, addMarkers_body debug a k h = HDone tt h1 /\
                  objects h1 = objects h /\
                  hosted_markers_ h1 = hosted_markers_ h /\
                  marker_scene_node_ h1 = marker_scene_node_ h /\
                  property_namespaces_ h1 = map_insert_new k true (property_namespaces_ h) /\
                  world h1 = world h.
Proof.
  intros Ho Hns Hmsn Hn.
  unfold addMarkers_body. unfold_host. host_simpl.
  unfold namespace_node_of. host_simpl. rewrite Ho, Hns. host_simpl. rewrite Ho, Hns.
  rewrite bool_decide_eq_true_2 by eauto. rewrite andb_false_r. host_simpl.
  rewrite ns_enabled_insert_new, String.eqb_refl.
  destruct (ns_enabled h k).
  - unfold on_world, addChild. host_simpl. rewrite Hmsn, Hn.
    eexists. split; reflexivity.
  - eexists. split; [reflexivity | ]. host_simpl. auto 10.
Qed.

Lemma addMarkers_loop_attached debug a o msn k0 n0 : forall ks h,
  objects h !! a = Some o ->
  marker_scene_node_ h = Some msn ->
  NoDup ks ->
  (forall k, k ∈ ks ->
     exists n, o_namespaces_ o !! k = Some (Some n) /\
               (scene_nodes (world h) !! n = Some None \/
                scene_nodes (world h) !! n = Some (Some msn))) ->
  (forall k1 k2 n, o_namespaces_ o !! k1 = Some (Some n) ->
                   o_namespaces_ o !! k2 = Some (Some n) -> k1 = k2) ->
  k0 ∈ ks ->
  o_namespaces_ o !! k0 = Some (Some n0) ->
  ns_enabled h k0 = true ->
  scene_nodes (world h) !! n0 = Some (Some msn) ->
  exists h',
    hfor_each (addMarkers_body debug a) ks h = HThrown OgreException h' /\
    hosted_markers_ h' = hosted_markers_ h.
Proof.
  induction ks as [ | k ks IH]; intros h Ho Hmsn Hnd Hnodes Hinj Hk0 Hk0n Hon Hn0.
  - inversion Hk0.
  - apply NoDup_cons in Hnd as (Hk & Hnd).
    destruct (Hnodes k) as (n & Hkn & Hn); [left | ].
    cbn [hfor_each]. unfold hbind.
    assert (Hen : forall h1 k',
              property_namespaces_ h1 = map_insert_new k true (property_namespaces_ h) ->
              k' <> k -> ns_enabled h1 k' = ns_enabled h k').
    { intros h1 k' Hpn Hne. unfold ns_enabled at 1. rewrite Hpn, ns_enabled_insert_new.
      destruct (String.eqb_spec k k') as [-> | _]; [congruence | reflexivity]. }
    destruct Hn as [Hn | Hn].
    + (* detached: the node is attached when enabled, and the loop goes on *)
      assert (Hne : k0 <> k) by (intros ->; congruence).
      assert (Hk0' : k0 ∈ ks) by (apply elem_of_cons in Hk0 as [-> | Hin]; [congruence | exact Hin]).
      destruct (addMarkers_body_materialized debug a k h o n msn Ho Hkn Hmsn Hn)
        as (h1 & Hrun & Hobj & Hhm & Hmsn1 & _ & Hpn & Hw).
      rewrite Hrun.
      assert (Hother : forall n', n' <> n ->
                scene_nodes (world h1) !! n' = scene_nodes (world h) !! n').
      { intros n' Hnn. rewrite Hw. destruct (ns_enabled h k); [ | reflexivity].
        cbn. apply list_lookup_insert_ne. congruence. }
      destruct (IH h1) as (h' & Hloop & Hhm'); try assumption.
      * rewrite Hobj. exact Ho.
      * rewrite Hmsn1. exact Hmsn.
      * intros k' Hk'. destruct (Hnodes k') as (n' & Hkn' & Hn'); [right; exact Hk' | ].
        exists n'. split; [exact Hkn' | ]. rewrite Hother; [exact Hn' | ].
        intros ->. apply Hk. rewrite (Hinj k k' n Hkn Hkn'). exact Hk'.
      * rewrite (Hen h1 k0 Hpn Hne). exact Hon.
      * rewrite Hother; [exact Hn0 | ]. intros ->. apply Hne. exact (Hinj k0 k n Hk0n Hkn).
      * exists h'. split; [exact Hloop | congruence].
    + pose proof (addMarkers_body_attached debug a k h o n msn msn Ho Hkn Hmsn Hn) as Hbody.
      destruct (ns_enabled h k) eqn:Hek.
      * destruct Hbody as (h1 & -> & Hhm). eauto.
      * destruct Hbody as (h1 & -> & Hobj & Hhm & Hmsn1 & Hpn & Hw).
        assert (Hne : k0 <> k) by (intros ->; congruence).
        assert (Hk0' : k0 ∈ ks)
          by (apply elem_of_cons in Hk0 as [-> | Hin]; [congruence | exact Hin]).
        destruct (IH h1) as (h' & Hloop & Hhm'); try assumption.
        -- rewrite Hobj. exact Ho.
        -- rewrite Hmsn1. exact Hmsn.
        -- intros k' Hk'. rewrite Hw. apply Hnodes. right. exact Hk'.
        -- rewrite (Hen h1 k0 Hpn Hne). exact Hon.
        -- rewrite Hw. exact Hn0.
        -- exists h'. split; [exact Hloop | congruence].
Qed.

(** X20. [addMarkers] adds the nodes without asking whether they have a
    parent, which Ogre refuses: for a rendered set with a node under the
    marker node whose namespace has its sub-property enabled (a set that is
    hosted and shown), the call ends with the exception of Ogre, and the
    set is once more on the list of hosted sets. *)
Theorem addMarkers_shown_set_throws debug order h a o msn k n :
  objects h !! a = Some o ->
  marker_scene_node_ h = Some msn ->
  rendered msn o (world h) = true ->
  enumerates (order (o_namespaces_ o)) (o_namespaces_ o) = true ->
  o_namespaces_ o !! k = Some (Some n) ->
  ns_enabled h k = true ->
  scene_nodes (world h) !! n = Some (Some msn) ->
  exists h',
    addMarkers debug order (Some a) h = HThrown OgreException h' /\
    hosted_markers_ h' = hosted_markers_ h ++ [a].
Proof.
  intros Ho Hmsn Hr Hen Hk Hon Hn.
  apply enumerates_spec in Hen as (Hnd & Hkeys).
  apply rendered_spec in Hr as (Hnodes & Hinj).
  set (h0 := set_hosted (fun l => l ++ [a]) h).
  destruct (addMarkers_loop_attached debug a o msn k n (order (o_namespaces_ o)) h0)
    as (h' & Hloop & Hhm); try assumption.
  - intros k' Hk'. apply Hkeys in Hk' as (v & Hv).
    destruct (Hnodes k' v Hv) as (n' & -> & Hn'). eauto.
  - apply Hkeys. rewrite Hk. eauto.
  - exists h'. split; [ | exact Hhm].
    unfold addMarkers. unfold_host. host_simpl. rewrite Ho. exact Hloop.
Qed.


Lemma hfor_each_app {A} (body : A -> HM unit) (l1 l2 : list A) h :
  hfor_each body (l1 ++ l2) h
  = hbind (hfor_each body l1) (fun _ => hfor_each body l2) h.
Proof.
  revert h. induction l1 as [ | x l1 IH]; intros h; [reflexivity | ].
  cbn [app hfor_each]. unfold hbind.
  destruct (body x h) as [[] h1 | | | ]; try reflexivity. rewrite IH. reflexivity.
Qed.

(** X21. [onNSEnableChanged] takes every hosted set as rendered: when a
    hosted set has the namespace without a node, as a set has that was put
    on the list by a call of [addMarkers] that did not return, and the
    sets hosted before it are in order, the call dereferences the null
    pointer. *)
Theorem onNSEnableChanged_unrendered_set_faults ns visible msn h l1 a l2 o :
  property_namespaces_ h !! ns = Some visible ->
  marker_scene_node_ h = Some msn ->
  hosted_markers_ h = l1 ++ a :: l2 ->
  forallb (hosted_node_ready ns msn h) l1 = true ->
  objects h !! a = Some o ->
  o_namespaces_ o !! ns = Some None ->
  onNSEnableChanged ns h = HFault.
Proof.
  intros Hvis Hmsn Hhosted Hready Ho Hns.
  destruct (onNSEnableChanged_loop ns msn visible l1 h Hready)
    as (h1 & Hloop & Hobj & _).
  unfold onNSEnableChanged. unfold_host. cbn [fst snd].
  rewrite Hvis, Hmsn, Hhosted. rewrite hfor_each_app. unfold hbind. rewrite Hloop.
  cbn [hfor_each]. unfold hbind, call. rewrite Hobj, Ho.
  rewrite (setVisible_null_node ns (Some msn) visible); [reflexivity | exact Hns].
Qed.


Lemma addMarkers_body_keeps_marker_node debug a k h0 h1 :
  addMarkers_body debug a k h0 = HDone tt h1 ->
  marker_scene_node_ h1 = marker_scene_node_ h0.
Proof.
  unfold addMarkers_body. unfold_host. host_simpl.
  destruct (namespace_node_of a k _) as [[n | ] | ]; try discriminate.
  - destruct (namespace_node_of a k _) as [second | ]; try discriminate.
    destruct (debug && negb (bool_decide (is_Some second))); try discriminate.
    host_simpl.
    destruct (_ !! k) as [[ | ] | ]; try discriminate.
    + unfold on_world. host_simpl.
      destruct (addChild _ _ _); try discriminate. intros Heq. inversion Heq. reflexivity.
    + intros Heq. inversion Heq. reflexivity.
  - unfold call. host_simpl.
    destruct (objects h0 !! a); try discriminate.
    destruct (createMarkers _ _ _ _); try discriminate.
    destruct (namespace_node_of a k _) as [second | ]; try discriminate.
    destruct (debug && negb (bool_decide (is_Some second))); try discriminate.
    host_simpl.
    destruct (_ !! k) as [[ | ] | ]; try discriminate.
    + unfold on_world. host_simpl.
      destruct (addChild _ _ _); try discriminate. intros Heq. inversion Heq. reflexivity.
    + intros Heq. inversion Heq. reflexivity.
Qed.

Lemma addMarkers_keeps_marker_node debug order markers h0 h1 :
  addMarkers debug order markers h0 = HDone tt h1 ->
  marker_scene_node_ h1 = marker_scene_node_ h0.
Proof.
  assert (Hkeep : forall ks h2 h3,
            hfor_each (addMarkers_body debug (default 0 markers)) ks h2 = HDone tt h3 ->
            marker_scene_node_ h3 = marker_scene_node_ h2).
  { induction ks as [ | k ks IH]; intros h2 h3; cbn [hfor_each].
    - unfold hret. intros [= ->]. reflexivity.
    - unfold hbind.
      destruct (addMarkers_body debug _ k h2) as [[] h4 | | | ] eqn:Hb; try discriminate.
      intros Hl. rewrite (IH h4 h3 Hl).
      exact (addMarkers_body_keeps_marker_node _ _ _ _ _ Hb). }
  unfold addMarkers. destruct markers as [a | ].
  - unfold_host. host_simpl. destruct (objects h0 !! a) as [o | ]; [ | discriminate].
    intros Hl. apply Hkeep in Hl. exact Hl.
  - unfold hret. intros [= ->]. reflexivity.
Qed.

(** X22. [onInitialize] and then [addMarkers]: the marker node is a new
    node under the given scene node, and [addMarkers] of a set as the
    constructor leaves it returns as in X17 with that node as the marker
    node: the nodes of the namespaces whose sub-properties are enabled are
    its children, so that they lie below the given scene node. *)
Theorem onInitialize_then_addMarkers debug order F tm h a o p ctx :
  objects h !! a = Some o ->
  well_formedb (load o (world h)) = true ->
  uniform_frame F (load o (world h)) = true ->
  handles_pending (load o (world h)) = true ->
  nodes_pending (load o (world h)) = true ->
  namespaces_used (load o (world h)) = true ->
  lookupTransform ctx (tf_lookups (world h)) (getFixedFrame ctx) F = Some tm ->
  enumerates (order (o_namespaces_ o)) (o_namespaces_ o) = true ->
  exists h' o',
    hbind (onInitialize (Some p) ctx) (fun _ => addMarkers debug order (Some a)) h
    = HDone tt h' /\
    marker_scene_node_ h' = Some (length (scene_nodes (world h))) /\
    scene_nodes (world h') !! length (scene_nodes (world h)) = Some (Some p) /\
    hosted_markers_ h' = hosted_markers_ h ++ [a] /\
    objects h' !! a = Some o' /\
    (forall k, is_Some (o_namespaces_ o !! k) ->
       exists n, o_namespaces_ o' !! k = Some (Some n) /\
                 property_namespaces_ h' !! k = Some (ns_enabled h k) /\
                 scene_nodes (world h') !! n
                 = Some (shown_under (length (scene_nodes (world h))) (ns_enabled h k))) /\
    (forall n, n < length (scene_nodes (world h)) ->
       scene_nodes (world h') !! n = scene_nodes (world h) !! n).
Proof.
  intros Ho Hwf Hunif Hhp Hnp Hnu Htm Hen.
  set (msn := length (scene_nodes (world h))).
  set (hi := set_nodes_of_property (Some p) (Some msn) ctx
               (set_world (set_scene_nodes (fun g => g ++ [Some p])) h)).
  destruct (addMarkers_pending_set debug order F tm hi a o msn)
    as (h' & o' & Hrun & Hhm & Ho' & _ & Hns & _ & Hold & _); try assumption; try reflexivity.
  exists h', o'. split.
  { unfold onInitialize, hbind at 1 2. unfold on_world, createChildSceneNode, hmodify.
    exact Hrun. }
  assert (Hlen : msn < length (scene_nodes (world hi))).
  { cbn. rewrite length_app. cbn. unfold msn. lia. }
  assert (Hmsn' : marker_scene_node_ h' = Some msn /\
                  scene_nodes (world h') !! msn = Some (Some p)).
  { split.
    - rewrite (addMarkers_keeps_marker_node debug order (Some a) hi h' Hrun). reflexivity.
    - rewrite (Hold msn Hlen). cbn. apply lookup_snoc_new. }
  destruct Hmsn' as (Hm1 & Hm2).
  split; [exact Hm1 | ]. split; [exact Hm2 | ]. split; [exact Hhm | ].
  split; [exact Ho' | ]. split; [exact Hns | ].
  intros n Hn. rewrite Hold by (cbn; rewrite length_app; lia).
  cbn. apply lookup_app_l. exact Hn.
Qed.

Lemma set_scene_nodes_restore (s : State) n p q :
  scene_nodes s !! n = Some p ->
  set_scene_nodes (fun g => <[n := p]> g) (set_scene_nodes (fun g => <[n := q]> g) s) = s.
Proof.
  intros Hn. destruct s as [hp g c w hc tl ms nss]. unfold set_scene_nodes.
  state_simpl. cbn [scene_nodes] in Hn. f_equal.
  rewrite list_insert_insert_eq. apply list_insert_id. exact Hn.
Qed.

(** X23. Disabling the property and enabling it again: with the marker
    node under the scene node of the property, [onEnableChanged] with the
    property disabled detaches the marker node and leaves every other scene
    node where it is, the nodes of the namespaces among them; with the
    property enabled again it puts the marker node back, and the world and
    the members are what they were. *)
Theorem onEnableChanged_round_trip h m p :
  marker_scene_node_ h = Some m ->
  parent_scene_node_ h = Some p ->
  scene_nodes (world h) !! m = Some (Some p) ->
  exists h1,
    onEnableChanged (set_enabled false h) = HDone tt h1 /\
    scene_nodes (world h1) !! m = Some None /\
    (forall n, n <> m -> scene_nodes (world h1) !! n = scene_nodes (world h) !! n) /\
    onEnableChanged (set_enabled true h1) = HDone tt (set_enabled true h).
Proof.
  intros Hm Hp Hn.
  assert (Hlt : m < length (scene_nodes (world h))) by (eapply lookup_lt_Some; exact Hn).
  eexists. split.
  { unfold onEnableChanged. unfold_host. host_simpl. rewrite Hm, Hp.
    unfold on_world, setVisibility, getParent, removeChild. unfold_monad. host_simpl.
    rewrite Hn. reflexivity. }
  host_simpl. split; [ | split].
  - cbn. apply list_lookup_insert_eq. exact Hlt.
  - intros n Hne. cbn. apply list_lookup_insert_ne. congruence.
  - unfold onEnableChanged. unfold_host. host_simpl. rewrite Hm, Hp.
    unfold on_world, setVisibility, getParent, addChild, ptr_eqb. unfold_monad. host_simpl.
    cbn [scene_nodes set_scene_nodes].
    rewrite list_lookup_insert_eq by exact Hlt.
    rewrite bool_decide_eq_false_2 by discriminate. cbn [negb].
    cbn [scene_nodes set_scene_nodes].
    rewrite list_lookup_insert_eq by exact Hlt.
    unfold set_world, set_enabled. host_simpl.
    rewrite (set_scene_nodes_restore (world h) m (Some p) None Hn). reflexivity.
Qed.

End Proofs.

(** * The theorems at work on a concrete scene

    The IEEE instance, a scene with planning frame "map" that
    knows "base", five markers of the caller, and a live tf tree. *)
Import Binary64.
#[local] Existing Instance ieee_numerics.

Lemma constructed_state_run :
  MarkerVisualization_new caller_locs scene_map caller_state = Done tt constructed_state.
Proof. vm_compute. reflexivity. Qed.


(** C1 on the marker in frame "base": its copy sits at address 6, one unit
    further along x, in frame "map". *)
Lemma C1_witness :
  exists s' m',
    MarkerVisualization_new caller_locs scene_map caller_state = Done tt s' /\
    (length (heap caller_state) + 1, None) ∈ markers_ s' /\
    stored_marker s' (length (heap caller_state) + 1, None) = Some m' /\
    pose m' = poseEigenToMsg (affine_mul (getFrameTransform scene_map "base")
                                         (poseMsgToEigen (pose_at 0%float 2%float 0%float))) /\
    frame_id m' = "map" /\
    ns m' = "grasp" /\ id m' = 0%Z /\ type m' = MarkerType.ARROW /\ payload m' = tt.
Proof.
  apply (C1_known_frame_pose_composed scene_map caller_locs caller_markers caller_state
           1 (marker_in "base" "grasp" MarkerType.ARROW)).
  - reflexivity.
  - reflexivity.
  - discriminate.
  - reflexivity.
Defined.

Lemma C2_witness :
  exists s',
    MarkerVisualization_new caller_locs scene_map caller_state = Done tt s' /\
    Forall (fun d => exists m, stored_marker s' d = Some m /\ frame_id m = "map")
           (markers_ s') /\
    forall i m, caller_markers !! i = Some m -> frame_id m = "map" ->
      (length (heap caller_state) + i, None) ∈ markers_ s' /\
      stored_marker s' (length (heap caller_state) + i, None) = Some m.
Proof.
  apply (C2_stored_frames_are_planning_frame scene_map caller_locs caller_markers
           caller_state).
  reflexivity.
Defined.

Lemma C3_witness :
  exists s',
    MarkerVisualization_new caller_locs scene_map caller_state = Done tt s' /\
    (forall i l m, caller_locs !! i = Some l -> caller_markers !! i = Some m ->
       unknown_frame scene_map m = true ->
       forall d, d ∈ markers_ s' ->
         d.1 <> l /\ d.1 <> length (heap caller_state) + i /\ stored_marker s' d <> Some m) /\
    length (markers_ s')
    = length caller_locs - length (List.filter (unknown_frame scene_map) caller_markers).
Proof.
  apply (C3_unknown_frames_dropped scene_map caller_locs caller_markers caller_state).
  reflexivity.
Defined.

Lemma C8_witness :
  exists s',
    MarkerVisualization_new caller_locs scene_map caller_state = Done tt s' /\
    console s' = console caller_state
                 ++ (if warn_once_hit caller_state then []
                     else first_warning scene_map caller_markers) /\
    length (console s') <= S (length (console caller_state)).
Proof.
  apply (C8_one_warning_per_process scene_map caller_locs caller_markers caller_state).
  reflexivity.
Defined.

(** C8 as the claim has it fails: the markers in frames "left" and "right"
    are both dropped, in different namespaces, and the console has the
    warning for the first pair only; the pair ("right", "retreat") is never
    reported. *)
Lemma C8_counterexample :
  exists s',
    MarkerVisualization_new caller_locs scene_map caller_state = Done tt s' /\
    In (marker_in "right" "retreat" MarkerType.SPHERE) caller_markers /\
    unknown_frame scene_map (marker_in "right" "retreat" MarkerType.SPHERE) = true /\
    warnings_for "right" "retreat" (console s') = 0 /\
    console s' = [WarnUnknownFrame "left" "approach"].
Proof.
  exists constructed_state. split; [exact constructed_state_run | ].
  split; [cbn; tauto | ]. split; [reflexivity | ]. split; vm_compute; reflexivity.
Qed.

Lemma C10_witness :
  exists s',
    MarkerVisualization_new caller_locs scene_map caller_state = Done tt s' /\
    (forall l, l < length (heap caller_state) -> heap s' !! l = heap caller_state !! l) /\
    input_markers s' caller_locs caller_markers /\
    Forall (fun d => length (heap caller_state) <= d.1 /\ d.1 ∉ caller_locs) (markers_ s').
Proof.
  apply (C10_input_untouched scene_map caller_locs caller_markers caller_state).
  reflexivity.
Defined.



Lemma C5_witness :
  (tf_lookups rendered_state = tf_lookups constructed_state /\
   markers_ rendered_state = markers_ constructed_state) \/
  (tf_lookups rendered_state = S (tf_lookups constructed_state) /\
   exists j lj mf hj tm,
     markers_ constructed_state !! j = Some (lj, None) /\
     stored_marker_of (heap constructed_state) lj = Some mf /\
     markers_ rendered_state !! j = Some (lj, Some hj) /\
     (forall j', j' < j -> markers_ rendered_state !! j' = markers_ constructed_state !! j') /\
     lookupTransform ctx_map (tf_lookups constructed_state) (getFixedFrame ctx_map)
                     (frame_id mf) = Some tm /\
     forall i l h,
       markers_ constructed_state !! i = Some (l, None) ->
       markers_ rendered_state !! i = Some (l, Some h) ->
       exists m, stored_marker_of (heap constructed_state) l = Some m /\
                 (true = true -> frame_id m = frame_id mf) /\
                 placed_by ctx_map tm m h).
Proof.
  apply (C5_transform_looked_up_at_most_once true ctx_map (Some 1)
           constructed_state rendered_state).
  - vm_compute. reflexivity.
  - vm_compute. reflexivity.
Defined.

(** C5 as the claim has it fails: the second call on the same set returns
    without a lookup. *)
Lemma C5_counterexample :
  exists s',
    createMarkers true ctx_live (Some 1) materialized_state = Done tt s' /\
    tf_lookups s' = tf_lookups materialized_state /\
    tf_lookups s' <> S (tf_lookups materialized_state).
Proof.
  eexists. split; [vm_compute; reflexivity | ]. split; [reflexivity | ].
  vm_compute. discriminate.
Qed.

(** C7 with a tf tree that has transforms from "odom" to other frames
    but none to "map", the frame of the first entry. *)
Lemma C7_witness :
  exists s' h,
    createMarkers true ctx_no_map (Some 1) constructed_state
    = Thrown TransformException s' /\
    heap s' = heap constructed_state /\
    tf_lookups s' = S (tf_lookups constructed_state) /\
    markers_ s' !! 0 = Some (5, Some h) /\
    h_message h = Some 5 /\
    h_position h
    = fst (setMessage_pose ctx_no_map (marker_in "map" "grasp" MarkerType.CUBE)) /\
    h_orientation h
    = snd (setMessage_pose ctx_no_map (marker_in "map" "grasp" MarkerType.CUBE)) /\
    forall j', j' <> 0 -> markers_ s' !! j' = markers_ constructed_state !! j'.
Proof.
  apply (C7_lookup_failure_escapes true ctx_no_map 1 constructed_state 0 5
           (marker_in "map" "grasp" MarkerType.CUBE)).
  - vm_compute. reflexivity.
  - vm_compute. reflexivity.
  - vm_compute. reflexivity.
Defined.

(** C7 as the claim has it fails: when the tf tree has no transform the
    call does not return; the exception leaves it.  The entry being placed
    keeps the handle it was given, not yet turned into the planning frame. *)
Lemma C7_counterexample :
  exists s',
    createMarkers true ctx_no_tf (Some 1) constructed_state = Thrown TransformException s' /\
    (exists h, markers_ s' !! 0 = Some (5, Some h) /\
               h_orientation h = mkQuat 1%float 0%float 0%float 0%float) /\
    markers_ s' !! 1 = Some (6, None).
Proof.
  eexists. split; [vm_compute; reflexivity | ]. split.
  - eexists. split; vm_compute; reflexivity.
  - vm_compute. reflexivity.
Qed.

Lemma C9_witness :
  (forall i l h, markers_ constructed_state !! i = Some (l, Some h) ->
                 markers_ materialized_state !! i = Some (l, Some h)) /\
  (forall i l m, markers_ constructed_state !! i = Some (l, None) ->
     stored_marker_of (heap constructed_state) l = Some m ->
     (0 <= type m <= 11)%Z ->
     exists h, markers_ materialized_state !! i = Some (l, Some h) /\
               marker_class (type m) = Some (h_class h) /\ h_message h = Some l) /\
  (forall i l m, markers_ constructed_state !! i = Some (l, None) ->
     stored_marker_of (heap constructed_state) l = Some m ->
     ~ (0 <= type m <= 11)%Z -> markers_ materialized_state !! i = Some (l, None)) /\
  handles_created materialized_state
  = handles_created constructed_state
    + length (List.filter (needs_handle constructed_state) (markers_ constructed_state)) /\
  List.filter (needs_handle materialized_state) (markers_ materialized_state) = [] /\
  forall debug' ctx' parent',
    exists s2, createMarkers debug' ctx' parent' materialized_state = Done tt s2 /\
      markers_ s2 = markers_ materialized_state /\
      handles_created s2 = handles_created materialized_state /\
      tf_lookups s2 = tf_lookups materialized_state.
Proof.
  apply (C9_second_call_creates_nothing true ctx_live (Some 1)
           constructed_state materialized_state).
  vm_compute. reflexivity.
Defined.

Lemma C6_witness :
  setVisible "trajectory" (Some 1) true constructed_state = Done tt constructed_state.
Proof.
  apply (C6_setVisible_absent_namespace "trajectory" (Some 1) true constructed_state).
  vm_compute. reflexivity.
Defined.

(** C6 as the claim has it fails: the namespace "grasp" is in the map and
    its node is still null; showing or hiding it dereferences the null
    pointer. *)
Lemma C6_counterexample :
  namespaces_ constructed_state !! "grasp" = Some None /\
  setVisible "grasp" (Some 1) true constructed_state = Fault /\
  setVisible "grasp" (Some 1) false constructed_state = Fault /\
  setVisible "grasp" (Some 1) true constructed_state <> Done tt constructed_state.
Proof.
  split; [vm_compute; reflexivity | ]. split; [vm_compute; reflexivity | ].
  split; [vm_compute; reflexivity | ].
  intros E. vm_compute in E. discriminate.
Qed.

(** ** The further properties on the concrete scene *)

Lemma setVisible_show_idempotent_witness :
  exists s1,
    setVisible "grasp" (Some 1) true materialized_state = Done tt s1 /\
    s1 = set_scene_nodes (fun g => <[2 := Some 1]> g) materialized_state /\
    scene_nodes s1 !! 2 = Some (Some 1) /\
    setVisible "grasp" (Some 1) true s1 = Done tt s1.
Proof.
  apply (setVisible_show_idempotent "grasp" 2 1 materialized_state).
  - vm_compute. reflexivity.
  - left. vm_compute. reflexivity.
Defined.

Lemma setVisible_hide_idempotent_witness :
  exists s1,
    setVisible "grasp" None false materialized_state = Done tt s1 /\
    s1 = set_scene_nodes (fun g => <[2 := None]> g) materialized_state /\
    scene_nodes s1 !! 2 = Some None /\
    setVisible "grasp" None false s1 = Done tt s1.
Proof.
  apply (setVisible_hide_idempotent "grasp" 2 None materialized_state).
  - vm_compute. reflexivity.
  - vm_compute. eexists. reflexivity.
Defined.

Lemma setVisible_round_trip_witness :
  (scene_nodes materialized_state !! 2 = Some None ->
   bind (setVisible "grasp" (Some 1) true) (fun _ => setVisible "grasp" (Some 1) false)
        materialized_state
   = Done tt materialized_state) /\
  (scene_nodes materialized_state !! 2 = Some (Some 1) ->
   bind (setVisible "grasp" (Some 1) false) (fun _ => setVisible "grasp" (Some 1) true)
        materialized_state
   = Done tt materialized_state).
Proof.
  apply (setVisible_round_trip "grasp" 2 1 materialized_state).
  vm_compute. reflexivity.
Defined.

Lemma constructor_defers_rendering_witness :
  exists s',
    MarkerVisualization_new caller_locs scene_map caller_state = Done tt s' /\
    scene_nodes s' = scene_nodes caller_state /\
    handles_created s' = handles_created caller_state /\
    tf_lookups s' = tf_lookups caller_state /\
    Forall (fun d => d.2 = None) (markers_ s') /\
    forall k v, namespaces_ s' !! k = Some v -> v = None.
Proof.
  apply (constructor_defers_rendering scene_map caller_locs caller_markers caller_state).
  reflexivity.
Defined.

Lemma constructor_registers_kept_namespaces_witness :
  exists s',
    MarkerVisualization_new caller_locs scene_map caller_state = Done tt s' /\
    forall k, is_Some (namespaces_ s' !! k) <->
              exists m, In m caller_markers /\ unknown_frame scene_map m = false /\
                        fromStdString (ns m) = k.
Proof.
  apply (constructor_registers_kept_namespaces scene_map caller_locs caller_markers
           caller_state).
  reflexivity.
Defined.

Lemma constructor_keeps_input_order_witness :
  exists s',
    MarkerVisualization_new caller_locs scene_map caller_state = Done tt s' /\
    omap (stored_marker s') (markers_ s')
    = map (reconcile scene_map) (kept scene_map caller_markers).
Proof.
  apply (constructor_keeps_input_order scene_map caller_locs caller_markers caller_state).
  reflexivity.
Defined.

Lemma createMarkers_frame_witness :
  heap materialized_state = heap constructed_state /\
  map fst (markers_ materialized_state) = map fst (markers_ constructed_state) /\
  (exists k, scene_nodes materialized_state
             = scene_nodes constructed_state ++ replicate k None) /\
  dom (namespaces_ materialized_state) = dom (namespaces_ constructed_state) /\
  (forall k n, namespaces_ constructed_state !! k = Some (Some n) ->
               namespaces_ materialized_state !! k = Some (Some n)).
Proof.
  apply (createMarkers_frame true ctx_live (Some 1) constructed_state materialized_state).
  vm_compute. reflexivity.
Defined.

Lemma createMarkers_groups_by_namespace_witness :
  namespaces_ materialized_state !! "grasp"
  = Some (Some (h_parent (handle_at materialized_state 0))) /\
  forall j l2 m2 h2,
    markers_ constructed_state !! j = Some (l2, None) ->
    heap constructed_state !! l2 = Some (Some m2) ->
    markers_ materialized_state !! j = Some (l2, Some h2) ->
    fromStdString (ns m2) = "grasp" ->
    h_parent h2 = h_parent (handle_at materialized_state 0).
Proof.
  apply (createMarkers_groups_by_namespace true ctx_live (Some 1)
           constructed_state materialized_state 0 5
           (marker_in "map" "grasp" MarkerType.CUBE) (handle_at materialized_state 0)).
  - vm_compute. reflexivity.
  - vm_compute. reflexivity.
  - vm_compute. reflexivity.
  - vm_compute. reflexivity.
Defined.

Lemma createMarkers_gives_every_namespace_a_node_witness :
  exists n,
    namespaces_ materialized_state !! "labels" = Some (Some n) /\
    length (scene_nodes constructed_state) <= n /\
    scene_nodes materialized_state !! n = Some None /\
    forall k2, namespaces_ materialized_state !! k2 = Some (Some n) -> k2 = "labels".
Proof.
  apply (createMarkers_gives_every_namespace_a_node true ctx_live (Some 1)
           constructed_state materialized_state).
  - vm_compute. reflexivity.
  - vm_compute. reflexivity.
  - vm_compute. reflexivity.
  - vm_compute. reflexivity.
  - vm_compute. eexists. reflexivity.
Defined.



Lemma createMarkers_failed_lookup_witness :
  TransformException = TransformException /\
  heap thrown_state = heap constructed_state /\
  exists i l m h,
    markers_ constructed_state !! i = Some (l, None) /\
    heap constructed_state !! l = Some (Some m) /\
    markers_ thrown_state !! i = Some (l, Some h) /\
    h_position h = fst (setMessage_pose ctx_no_tf m) /\
    h_orientation h = snd (setMessage_pose ctx_no_tf m) /\
    forall debug2 ctx2 parent2 s2,
      createMarkers debug2 ctx2 parent2 thrown_state = Done tt s2 ->
      markers_ s2 !! i = Some (l, Some h).
Proof.
  apply (createMarkers_failed_lookup_leaves_unplaced_handle true ctx_no_tf (Some 1)
           constructed_state TransformException thrown_state).
  vm_compute. reflexivity.
Defined.

Lemma createMarkers_reports_refused_types_witness :
  console materialized_state
  = console constructed_state
    ++ concat (map (refusal constructed_state) (markers_ constructed_state)) /\
  concat (map (refusal materialized_state) (markers_ materialized_state))
  = concat (map (refusal constructed_state) (markers_ constructed_state)).
Proof.
  apply (createMarkers_reports_refused_types true ctx_live (Some 1)
           constructed_state materialized_state).
  vm_compute. reflexivity.
Defined.

Lemma onNSEnableChanged_reaches_every_hosted_set_witness :
  exists h',
    onNSEnableChanged "grasp" host_unticked = HDone tt h' /\
    objects h' = objects host_unticked /\
    hosted_markers_ h' = hosted_markers_ host_unticked /\
    property_namespaces_ h' = property_namespaces_ host_unticked /\
    (forall a n, a ∈ hosted_markers_ host_unticked ->
       hosted_node "grasp" host_unticked a = Some n ->
       scene_nodes (world h') !! n = Some (shown_under 2 false)) /\
    (forall n, (forall a, a ∈ hosted_markers_ host_unticked ->
                          hosted_node "grasp" host_unticked a <> Some n) ->
       scene_nodes (world h') !! n = scene_nodes (world host_unticked) !! n).
Proof.
  apply (onNSEnableChanged_reaches_every_hosted_set "grasp" false 2 host_unticked).
  - vm_compute. reflexivity.
  - vm_compute. reflexivity.
  - vm_compute. reflexivity.
Defined.


Lemma clearMarkers_then_addMarkers_witness :
  exists h',
    hbind clearMarkers (fun _ => addMarkers true keys_of (Some 0)) host_unticked
    = HDone tt h' /\
    hosted_markers_ h' = [0] /\
    objects h' = objects host_unticked /\
    handles_created (world h') = handles_created (world host_unticked) /\
    tf_lookups (world h') = tf_lookups (world host_unticked) /\
    (forall k b, property_namespaces_ host_unticked !! k = Some b ->
                 property_namespaces_ h' !! k = Some b) /\
    (forall k n, o_namespaces_ (object_of host_unticked) !! k = Some (Some n) ->
       property_namespaces_ h' !! k = Some (ns_enabled host_unticked k) /\
       scene_nodes (world h') !! n = Some (shown_under 2 (ns_enabled host_unticked k))) /\
    (forall n, (forall k, o_namespaces_ (object_of host_unticked) !! k <> Some (Some n)) ->
       scene_nodes (world h') !! n <> Some (Some 2)).
Proof.
  apply (clearMarkers_then_addMarkers true keys_of host_unticked 0
           (object_of host_unticked) 2).
  - vm_compute. reflexivity.
  - vm_compute. reflexivity.
  - vm_compute. reflexivity.
  - vm_compute. reflexivity.
Defined.

Lemma addMarkers_failed_lookup_keeps_set_hosted_witness :
  exists h',
    addMarkers true keys_of (Some 0) host_ready_no_map = HThrown TransformException h' /\
    hosted_markers_ h' = hosted_markers_ host_ready_no_map ++ [0] /\
    (exists o' hd, objects h' !! 0 = Some o' /\
                   o_markers_ o' !! 0 = Some (5, Some hd) /\
                   h_position hd
                   = fst (setMessage_pose ctx_no_map
                            (marker_in "map" "grasp" MarkerType.CUBE)) /\
                   h_orientation hd
                   = snd (setMessage_pose ctx_no_map
                            (marker_in "map" "grasp" MarkerType.CUBE))) /\
    (forall b, b <> 0 -> objects h' !! b = objects host_ready_no_map !! b) /\
    exists k, is_Some (o_namespaces_ pending_object !! k) /\
              property_namespaces_ h'
              = map_insert_new k true (property_namespaces_ host_ready_no_map).
Proof.
  apply (addMarkers_failed_lookup_keeps_set_hosted true keys_of host_ready_no_map 0
           pending_object 2 0 5 (marker_in "map" "grasp" MarkerType.CUBE)).
  - vm_compute. reflexivity.
  - vm_compute. reflexivity.
  - vm_compute. reflexivity.
  - vm_compute. reflexivity.
  - vm_compute. reflexivity.
  - vm_compute. reflexivity.
  - vm_compute. reflexivity.
Defined.

Lemma addMarkers_shown_set_throws_witness :
  exists h',
    addMarkers true keys_of (Some 0) host_shown = HThrown OgreException h' /\
    hosted_markers_ h' = hosted_markers_ host_shown ++ [0].
Proof.
  apply (addMarkers_shown_set_throws true keys_of host_shown 0 (object_of host_shown) 2
           "grasp" 3).
  - vm_compute. reflexivity.
  - vm_compute. reflexivity.
  - vm_compute. reflexivity.
  - vm_compute. reflexivity.
  - vm_compute. reflexivity.
  - vm_compute. reflexivity.
  - vm_compute. reflexivity.
Defined.

Lemma onNSEnableChanged_unrendered_set_faults_witness :
  onNSEnableChanged "labels" host_failed = HFault.
Proof.
  apply (onNSEnableChanged_unrendered_set_faults "labels" false 2 host_failed [] 0 []
           (object_of host_failed)).
  - vm_compute. reflexivity.
  - vm_compute. reflexivity.
  - vm_compute. reflexivity.
  - vm_compute. reflexivity.
  - vm_compute. reflexivity.
  - vm_compute. reflexivity.
Defined.

Lemma onInitialize_then_addMarkers_witness :
  exists h' o',
    hbind (onInitialize (Some 0) ctx_live) (fun _ => addMarkers true keys_of (Some 0))
          (host_new ctx_live)
    = HDone tt h' /\
    marker_scene_node_ h' = Some 2 /\
    scene_nodes (world h') !! 2 = Some (Some 0) /\
    hosted_markers_ h' = hosted_markers_ (host_new ctx_live) ++ [0] /\
    objects h' !! 0 = Some o' /\
    (forall k, is_Some (o_namespaces_ pending_object !! k) ->
       exists n, o_namespaces_ o' !! k = Some (Some n) /\
                 property_namespaces_ h' !! k = Some (ns_enabled (host_new ctx_live) k) /\
                 scene_nodes (world h') !! n
                 = Some (shown_under 2 (ns_enabled (host_new ctx_live) k))) /\
    (forall n, n < 2 ->
       scene_nodes (world h') !! n = scene_nodes (world (host_new ctx_live)) !! n).
Proof.
  apply (@onInitialize_then_addMarkers ieee_numerics true keys_of "map" turn
           (host_new ctx_live) 0 pending_object 0 ctx_live).
  - vm_compute. reflexivity.
  - vm_compute. reflexivity.
  - vm_compute. reflexivity.
  - vm_compute. reflexivity.
  - vm_compute. reflexivity.
  - vm_compute. reflexivity.
  - vm_compute. reflexivity.
  - vm_compute. reflexivity.
Defined.

Lemma onEnableChanged_round_trip_witness :
  exists h1,
    onEnableChanged (set_enabled false host_shown) = HDone tt h1 /\
    scene_nodes (world h1) !! 2 = Some None /\
    (forall n, n <> 2 -> scene_nodes (world h1) !! n = scene_nodes (world host_shown) !! n) /\
    onEnableChanged (set_enabled true h1) = HDone tt (set_enabled true host_shown).
Proof.
  apply (onEnableChanged_round_trip host_shown 2 0).
  - vm_compute. reflexivity.
  - vm_compute. reflexivity.
  - vm_compute. reflexivity.
Defined.
